(** * optml.bayesian_optimizer.bayesianoptimizer

    A shallow embedding of [BayesianOptimizer]
    (src/optml/bayesian_optimizer/bayesianoptimizer.py) and the properties
    of its proposal loop.

    Conventions of the embedding.
    - The code is read with the semantics of Python 3.
    - Python floats (and numpy float64) are idealised as the real numbers
      [R]; the one place where the code tests for "not a number" uses the
      type [npfloat], which adds [NaN].
    - Python values stored in parameter vectors are dynamically typed:
      [Value] has integers, floats and strings.
    - A Python [dict] keyed by parameter names is a [gmap string Value];
      dictionary equality is extensional, as [==] on dicts is.
    - Exceptions are values of [PyError]; a method of the optimizer is a
      function [State -> result A * State], so that the side effects made
      before an exception is raised stay visible.
    - Library code outside this file (scipy, numpy's random generator,
      scikit-learn, the user's model, and the helper classes of optml that
      this file only calls) is gathered in the record [Collaborators]. *)

From Stdlib Require Import Reals Lra Lia ZArith String List DecimalString.
From stdpp Require Import gmap strings list fin_maps.

Local Open Scope string_scope.
Local Open Scope list_scope.
#[local] Set Warnings "-clear-no-such-hyp".

(** ** Python values and exceptions *)

Inductive Value : Type :=
  | VInt (z : Z)
  | VFloat (r : R)
  | VStr (s : string).

Inductive PyType : Type := TInt | TFloat | TStr.

Definition type_of (v : Value) : PyType :=
  match v with
  | VInt _ => TInt
  | VFloat _ => TFloat
  | VStr _ => TStr
  end.

Inductive PyError : Type :=
  | MissingValueException (msg : string)
  | PyException (msg : string)
  | TypeError
  | ValueError
  | IndexError
  | KeyError (key : string)
  | UnboundLocalError (var : string)
  | FloatingPointError.

Inductive result (A : Type) : Type :=
  | Ok (a : A)
  | Raise (e : PyError).
Arguments Ok {A} a.
Arguments Raise {A} e.

Definition rbind {A B} (r : result A) (k : A -> result B) : result B :=
  match r with
  | Ok a => k a
  | Raise e => Raise e
  end.

Declare Scope py_scope.
Delimit Scope py_scope with py.
Notation "x <- c ;; k" := (rbind c (fun x => k))
  (at level 100, c at next level, right associativity) : py_scope.

(** A float that may be "not a number" ([np.isnan]). *)
Inductive npfloat : Type :=
  | NaN
  | Num (r : R).

Definition isnan (f : npfloat) : bool :=
  match f with
  | NaN => true
  | Num _ => false
  end.

(** ** Parameters ([Param] holds the attributes of optml.Parameter that this file reads) *)

Record Param : Type := {
  name : string;
  param_type : string;
  lower : R;
  upper : R;
  possible_values : list Value
}.

(** [d[k]]: a missing key raises [KeyError]. *)
Definition getitem (d : gmap string Value) (k : string) : result Value :=
  match d !! k with
  | Some v => Ok v
  | None => Raise (KeyError k)
  end.

(** [{hp.name: v for hp, v in zip(hyperparams, values)}]: [zip] stops at the
    shorter sequence and a later pair overwrites an earlier one with the
    same key. *)
Fixpoint dict_of_zip (hps : list Param) (values : list Value)
    (acc : gmap string Value) : gmap string Value :=
  match hps, values with
  | hp :: hps', v :: values' => dict_of_zip hps' values' (<[name hp := v]> acc)
  | _, _ => acc
  end.

Section Conversions.

Variable hyperparams : list Param.

(** [_param_dict_to_arr]: [[param_dict[hp.name] for hp in self.hyperparams]] *)
Fixpoint dict_to_arr_from (hps : list Param) (param_dict : gmap string Value)
    : result (list Value) :=
  match hps with
  | [] => Ok []
  | hp :: hps' =>
      (v <- getitem param_dict (name hp) ;;
       rest <- dict_to_arr_from hps' param_dict ;;
       Ok (v :: rest))%py
  end.

Definition _param_dict_to_arr (param_dict : gmap string Value) : result (list Value) :=
  dict_to_arr_from hyperparams param_dict.

(** [_param_arr_to_dict]: [{hp.name: p for hp, p in zip(self.hyperparams, param_arr)}] *)
Definition _param_arr_to_dict (param_arr : list Value) : gmap string Value :=
  dict_of_zip hyperparams param_arr ∅.

End Conversions.

(** ** The standard normal distribution ([scipy.stats.norm])

    [norm.pdf] is the density exp(-x^2/2)/sqrt(2 pi) and [norm.cdf x] is its
    integral from -oo to [x].  The improper integral is split at 0: the mass
    of (-oo, 0] is the least upper bound of the masses of the intervals
    [a, 0], and the mass of [0, x] is a Riemann integral. *)

Module Norm.
Local Open Scope R_scope.

Definition norm_pdf (x : R) : R := exp (- (x * x) / 2) / sqrt (2 * PI).

Lemma sqrt_2PI_pos : 0 < sqrt (2 * PI).
Proof. apply sqrt_lt_R0. pose proof PI_RGT_0. lra. Qed.

Lemma norm_pdf_pos x : 0 < norm_pdf x.
Proof.
  unfold norm_pdf. apply Rdiv_lt_0_compat; [apply exp_pos | apply sqrt_2PI_pos].
Qed.

Lemma norm_pdf_derivable_pt_lim x : derivable_pt_lim norm_pdf x (- x * norm_pdf x).
Proof.
  assert (Hg : derivable_pt_lim (fun y => - / 2 * (y * y)) x (- x)).
  { replace (- x) with (- / 2 * (1 * x + x * 1)) by lra.
    apply (derivable_pt_lim_scal (fun y => y * y) (- / 2) x).
    apply (derivable_pt_lim_mult id id); apply derivable_pt_lim_id. }
  assert (He : derivable_pt_lim (fun y => exp (- / 2 * (y * y))) x
                 (exp (- / 2 * (x * x)) * - x)).
  { apply (derivable_pt_lim_comp (fun y => - / 2 * (y * y)) exp x); [exact Hg|].
    apply derivable_pt_lim_exp. }
  apply (derivable_pt_lim_ext (fun y => / sqrt (2 * PI) * exp (- / 2 * (y * y)))).
  { intros z. unfold norm_pdf. replace (- (z * z) / 2) with (- / 2 * (z * z)) by lra.
    unfold Rdiv. ring. }
  replace (- x * norm_pdf x) with (/ sqrt (2 * PI) * (exp (- / 2 * (x * x)) * - x)).
  { apply (derivable_pt_lim_scal (fun y => exp (- / 2 * (y * y)))). exact He. }
  unfold norm_pdf. replace (- (x * x) / 2) with (- / 2 * (x * x)) by lra.
  unfold Rdiv. ring.
Qed.

Lemma norm_pdf_continuity : continuity norm_pdf.
Proof.
  intros x. apply derivable_continuous_pt.
  exists (- x * norm_pdf x). apply norm_pdf_derivable_pt_lim.
Qed.

Lemma norm_pdf_integrable (a b : R) : Riemann_integrable norm_pdf a b.
Proof.
  destruct (Rle_dec a b) as [H|H].
  - apply continuity_implies_RiemannInt; [exact H | intros; apply norm_pdf_continuity].
  - apply RiemannInt_P1, continuity_implies_RiemannInt; [lra | intros; apply norm_pdf_continuity].
Defined.

(** [mass a b]: the integral of the density from [a] to [b]. *)
Definition mass (a b : R) : R := RiemannInt (norm_pdf_integrable a b).

Lemma mass_chasles a b c : mass a b + mass b c = mass a c.
Proof. apply RiemannInt_P26. Qed.

Lemma mass_refl a : mass a a = 0.
Proof. apply RiemannInt_P9. Qed.

Lemma mass_swap a b : mass a b = - mass b a.
Proof. apply RiemannInt_P8. Qed.

Lemma mass_nonneg a b : a <= b -> 0 <= mass a b.
Proof.
  intros H.
  assert (pr0 : Riemann_integrable (fct_cte 0) a b) by apply RiemannInt_P14.
  replace 0 with (RiemannInt pr0) by (rewrite RiemannInt_P15; ring).
  apply RiemannInt_P19; [exact H|].
  intros x _. unfold fct_cte. left. apply norm_pdf_pos.
Qed.

Lemma mass_derivable_pt_lim a x : derivable_pt_lim (mass a) x (norm_pdf x).
Proof.
  assert (h : x - 1 <= x + 1) by lra.
  assert (C0 : forall y, x - 1 <= y <= x + 1 -> continuity_pt norm_pdf y)
    by (intros; apply norm_pdf_continuity).
  apply (derivable_pt_lim_locally_ext
           (fun y => mass a (x - 1) + primitive h (FTC_P1 h C0) y) _ x (x - 1) (x + 1)).
  - lra.
  - intros z Hz. rewrite <- (mass_chasles a (x - 1) z). f_equal.
    unfold primitive.
    destruct (Rle_dec (x - 1) z) as [H1|H1]; [|lra].
    destruct (Rle_dec z (x + 1)) as [H2|H2]; [|lra].
    apply RiemannInt_P5.
  - replace (norm_pdf x) with (0 + norm_pdf x) by ring.
    apply (derivable_pt_lim_plus (fun _ => mass a (x - 1))).
    + apply derivable_pt_lim_const.
    + apply RiemannInt_P28. lra.
Qed.

(** The density lies below a multiple of the exponential, which bounds the
    mass of every interval [a, 0]. *)
Definition tail_const : R := exp (/ 2) / sqrt (2 * PI).

Lemma norm_pdf_le_exp x : norm_pdf x <= tail_const * exp x.
Proof.
  unfold norm_pdf, tail_const, Rdiv.
  replace (exp (/ 2) * / sqrt (2 * PI) * exp x)
    with (exp (/ 2 + x) * / sqrt (2 * PI)) by (rewrite exp_plus; ring).
  apply Rmult_le_compat_r.
  - left. apply Rinv_0_lt_compat, sqrt_2PI_pos.
  - assert (Hle : - (x * x) * / 2 <= / 2 + x).
    { pose proof (Rle_0_sqr (x + 1)) as Hsq. unfold Rsqr in Hsq. lra. }
    destruct Hle as [Hlt | ->]; [left; apply exp_increasing, Hlt | right; reflexivity].
Qed.

Lemma mass_tail_bound a : a <= 0 -> mass a 0 <= tail_const.
Proof.
  intros Ha.
  set (H := fun x => mass 0 x - tail_const * exp x).
  assert (HD : forall x, derivable_pt_lim H x (norm_pdf x - tail_const * exp x)).
  { intros x. apply (derivable_pt_lim_minus (mass 0) (fun y => tail_const * exp y)).
    - apply mass_derivable_pt_lim.
    - apply (derivable_pt_lim_scal exp). apply derivable_pt_lim_exp. }
  assert (pr : derivable H) by (intros x; eexists; apply HD).
  assert (Hdec : decreasing H).
  { apply (nonpos_derivative_1 H pr). intros x.
    rewrite (derive_pt_eq_0 _ _ _ (pr x) (HD x)).
    pose proof (norm_pdf_le_exp x). lra. }
  specialize (Hdec a 0 Ha). unfold H in Hdec.
  rewrite mass_refl, exp_0 in Hdec.
  rewrite (mass_swap 0 a) in Hdec.
  assert (0 < tail_const).
  { unfold tail_const. apply Rdiv_lt_0_compat; [apply exp_pos | apply sqrt_2PI_pos]. }
  pose proof (exp_pos a). nra.
Qed.

Definition left_masses (y : R) : Prop := exists a, a <= 0 /\ y = mass a 0.

Lemma left_masses_bound : bound left_masses.
Proof. exists tail_const. intros y [a [Ha ->]]. apply mass_tail_bound, Ha. Qed.

Lemma left_masses_inhabited : exists y, left_masses y.
Proof. exists (mass 0 0), 0. split; [lra | reflexivity]. Qed.

(** The mass of the half line (-oo, 0]. *)
Definition left_half_mass : R :=
  proj1_sig (completeness left_masses left_masses_bound left_masses_inhabited).

Lemma left_half_mass_lub : is_lub left_masses left_half_mass.
Proof. unfold left_half_mass. apply proj2_sig. Qed.

Definition norm_cdf (x : R) : R := left_half_mass + mass 0 x.

Lemma norm_cdf_nonneg x : 0 <= norm_cdf x.
Proof.
  unfold norm_cdf. destruct left_half_mass_lub as [Hub _].
  destruct (Rle_dec 0 x) as [H|H].
  - assert (0 <= left_half_mass).
    { rewrite <- (mass_refl 0). apply Hub. exists 0. split; [lra|reflexivity]. }
    pose proof (mass_nonneg 0 x H). lra.
  - assert (mass x 0 <= left_half_mass).
    { apply Hub. exists x. split; [lra|reflexivity]. }
    rewrite (mass_swap 0 x). lra.
Qed.

Lemma norm_cdf_derivable_pt_lim x : derivable_pt_lim norm_cdf x (norm_pdf x).
Proof.
  replace (norm_pdf x) with (0 + norm_pdf x) by ring.
  apply (derivable_pt_lim_plus (fun _ => left_half_mass) (mass 0)).
  - apply derivable_pt_lim_const.
  - apply mass_derivable_pt_lim.
Qed.

(** [norm_cdf x] is the improper integral of the density over (-oo, x]. *)
Lemma norm_cdf_improper x :
  is_lub (fun y => exists a, a <= x /\ y = mass a x) (norm_cdf x).
Proof.
  destruct left_half_mass_lub as [Hub Hleast]. unfold norm_cdf. split.
  - intros y [a [Ha ->]].
    assert (Hm : mass (Rmin a 0) 0 <= left_half_mass).
    { apply Hub. exists (Rmin a 0). split; [apply Rmin_r | reflexivity]. }
    pose proof (mass_nonneg (Rmin a 0) a (Rmin_l a 0)).
    pose proof (mass_chasles (Rmin a 0) a x).
    pose proof (mass_chasles (Rmin a 0) 0 x).
    lra.
  - intros b Hb.
    assert (left_half_mass <= b - mass 0 x); [|lra].
    apply Hleast. intros y [a [Ha ->]].
    assert (Hm : mass (Rmin a x) x <= b).
    { apply Hb. exists (Rmin a x). split; [apply Rmin_r | reflexivity]. }
    pose proof (mass_nonneg (Rmin a x) a (Rmin_l a x)).
    pose proof (mass_chasles (Rmin a x) a 0).
    pose proof (mass_chasles (Rmin a x) 0 x).
    pose proof (mass_chasles (Rmin a x) a x).
    lra.
Qed.

(** g * Phi(g) + phi(g), the factor of the expected improvement; its
    derivative is Phi(g). *)
Definition ei_kernel (g : R) : R := g * norm_cdf g + norm_pdf g.

Lemma ei_kernel_derivable_pt_lim g : derivable_pt_lim ei_kernel g (norm_cdf g).
Proof.
  replace (norm_cdf g) with ((1 * norm_cdf g + g * norm_pdf g) + (- g * norm_pdf g)) by ring.
  apply (derivable_pt_lim_plus (fun y => y * norm_cdf y) norm_pdf).
  - apply (derivable_pt_lim_mult id norm_cdf).
    + apply derivable_pt_lim_id.
    + apply norm_cdf_derivable_pt_lim.
  - apply norm_pdf_derivable_pt_lim.
Qed.

Lemma ei_kernel_increasing : increasing ei_kernel.
Proof.
  assert (pr : derivable ei_kernel) by (intros x; eexists; apply ei_kernel_derivable_pt_lim).
  apply (nonneg_derivative_1 ei_kernel pr). intros x.
  rewrite (derive_pt_eq_0 _ _ _ (pr x) (ei_kernel_derivable_pt_lim x)).
  apply norm_cdf_nonneg.
Qed.

End Norm.

(** ** Builtins *)

(** [max(l)] on a list of floats; [max([])] raises [ValueError]. *)
Definition py_max (l : list R) : result R :=
  match l with
  | [] => Raise ValueError
  | x :: l' => Ok (fold_left Rmax l' x)
  end.

(** Float division [x / y].  A zero divisor is reported as
    [FloatingPointError] (numpy would continue with inf or nan and a
    RuntimeWarning): a result [Ok _] certifies that no division by zero was
    performed. *)
Definition np_div (x y : R) : result R :=
  if Req_dec_T y 0 then Raise FloatingPointError else Ok (x / y)%R.

(** [round(r)]: the nearest integer, a tie going to the even neighbour. *)
Definition py_round (r : R) : Z :=
  let f := Int_part r in
  let d := (r - IZR f)%R in
  if Rlt_dec d (/ 2) then f
  else if Rlt_dec (/ 2) d then (f + 1)%Z
  else if Z.even f then f else (f + 1)%Z.

(** [int(round(v))]; a string cannot be rounded. *)
Definition int_round (v : Value) : result Z :=
  match v with
  | VInt z => Ok z
  | VFloat r => Ok (py_round r)
  | VStr _ => Raise TypeError
  end.

(** [str(z)] for an integer. *)
Definition str_of_int (z : Z) : string := NilZero.string_of_int (Z.to_int z).

(** [a[0]] on a two-dimensional array, given as the list of its rows. *)
Definition row0 (a : list (list Value)) : result (list Value) :=
  match a with
  | [] => Raise IndexError
  | r :: _ => Ok r
  end.

(** [np.mean] of a non-empty list of scores. *)
Definition np_mean (l : list R) : R :=
  (fold_right Rplus 0 l / INR (length l))%R.

(** Modelled from the spec: [cartesian_product] of
    optml.bayesian_optimizer.optimizers, which is not among the sources:
    "the full combinatorial grid of all possible value combinations
    (cartesian product across categorical ParameterSpecs)". *)
Fixpoint cartesian_product (arrays : list (list Value)) : list (list Value) :=
  match arrays with
  | [] => [[]]
  | a :: rest => flat_map (fun v => map (cons v) (cartesian_product rest)) a
  end.

(** The first element of [l] whose score is not exceeded by any other. *)
Fixpoint argmax {A} (l : list (A * R)) : option (A * R) :=
  match l with
  | [] => None
  | (a, v) :: l' =>
      match argmax l' with
      | Some (b, w) => if Rlt_dec v w then Some (b, w) else Some (a, v)
      | None => Some (a, v)
      end
  end.

(** ** The optimizer object *)

(** The attributes fixed by [__init__]. *)
Record BayesianOptimizer : Type := {
  hyperparams : list Param;
  start_vals : option (gmap string Value);
  acquisition_function : string;
  n_restarts_optimizer : Z;
  normalize : bool;
  exploration_control : R;
  model_module : string
}.

(** The result of one acquisition maximisation: [{'success': ..., 'x': ...}]. *)
Record Minimized : Type := {
  m_success : bool;
  m_x : list Value
}.

(** What a run leaves behind besides its result: warnings, and the calls
    made to the collaborators, in order. *)
Inductive Event : Type :=
  | EvWarning (msg : string)
  | EvMaximize (start : list (list Value))
  | EvSurrogateFit (xs : list (list Value)) (ys : list R)
  | EvEvaluate (params : gmap string Value).

(** The attributes that change during a run, the position [rng] in the
    stream of random draws, and the trace of events. *)
Record State : Type := {
  hyperparam_history : list (R * gmap string Value);
  success : option bool;
  non_convergence_count : Z;
  rng : nat;
  trace : list Event
}.

(** Code outside this file.  A collaborator is a function of its arguments
    (and, where it draws random numbers, of the position in the random
    stream); it returns a value, except for [minimize], whose objective may
    raise.  An exception raised inside the user's model, the score function
    or the regressor would end the run and has no counterpart here. *)
Record Collaborators : Type := {
  ndarray : Type;
  indices : Type;
  Model : Type;
  GP : Type;
  (* optml.optimizer_base *)
  get_random_values_arr : nat -> list (list Value);
  get_random_values_dict : nat -> gmap string Value;
  get_kfold_split : Z -> ndarray -> list (indices * indices);
  xgboost_train_predict :
    gmap string Value -> ndarray -> ndarray -> ndarray -> ndarray -> Value -> ndarray;
  build_fit_predict : gmap string Value -> ndarray -> ndarray -> ndarray -> ndarray;
  get_best_params_and_model : list (R * gmap string Value) -> gmap string Value * Model;
  (* numpy and the builtins *)
  np_take : ndarray -> indices -> ndarray;
  float_repr : R -> string;
  (* the score function given to the constructor *)
  eval_func : ndarray -> ndarray -> R;
  (* GaussianProcessRegressorWithCategorical *)
  gp_fit : list (list Value) -> list R -> GP;
  predict : GP -> list Value -> R * R;
  (* scipy.optimize.minimize, method L-BFGS-B *)
  minimize :
    (list Value -> result R) -> list (list Value) -> list (R * R) -> result Minimized;
  (* MixedAnnealer(self, optimizer).anneal() *)
  anneal :
    BayesianOptimizer -> list (R * gmap string Value) -> GP -> nat ->
    gmap string Value * npfloat
}.

(** ** Methods: state and exceptions *)

Definition M (A : Type) : Type := State -> result A * State.

Definition ret {A} (a : A) : M A := fun s => (Ok a, s).

Definition raise {A} (e : PyError) : M A := fun s => (Raise e, s).

Definition lift {A} (r : result A) : M A := fun s => (r, s).

Definition bind {A B} (m : M A) (k : A -> M B) : M B :=
  fun s =>
    match m s with
    | (Ok a, s') => k a s'
    | (Raise e, s') => (Raise e, s')
    end.

Declare Scope M_scope.
Delimit Scope M_scope with M.
Bind Scope M_scope with M.
Notation "x <- c ;; k" := (bind c (fun x => k))
  (at level 100, c at next level, right associativity) : M_scope.
Notation "c ;;; k" := (bind c (fun _ => k))
  (at level 100, right associativity) : M_scope.

Definition get_history : M (list (R * gmap string Value)) :=
  fun s => (Ok (hyperparam_history s), s).

Definition emit (e : Event) : M unit :=
  fun s => (Ok tt,
            {| hyperparam_history := hyperparam_history s; success := success s;
               non_convergence_count := non_convergence_count s; rng := rng s;
               trace := trace s ++ [e] |}).

(** [self.success = b] *)
Definition set_success (b : bool) : M unit :=
  fun s => (Ok tt,
            {| hyperparam_history := hyperparam_history s; success := Some b;
               non_convergence_count := non_convergence_count s; rng := rng s;
               trace := trace s |}).

(** [self.non_convergence_count = n] *)
Definition set_non_convergence_count (n : Z) : M unit :=
  fun s => (Ok tt,
            {| hyperparam_history := hyperparam_history s; success := success s;
               non_convergence_count := n; rng := rng s; trace := trace s |}).

(** [self.non_convergence_count += 1] *)
Definition incr_non_convergence_count : M unit :=
  fun s => (Ok tt,
            {| hyperparam_history := hyperparam_history s; success := success s;
               non_convergence_count := (non_convergence_count s + 1)%Z;
               rng := rng s; trace := trace s |}).

(** [self.hyperparam_history.append(entry)] *)
Definition append_history (entry : R * gmap string Value) : M unit :=
  fun s => (Ok tt,
            {| hyperparam_history := hyperparam_history s ++ [entry];
               success := success s;
               non_convergence_count := non_convergence_count s; rng := rng s;
               trace := trace s |}).

(** One draw from the random generator: the draw is a function of the
    position in the stream, which then advances. *)
Definition random_draw {A} (f : nat -> A) : M A :=
  fun s => (Ok (f (rng s)),
            {| hyperparam_history := hyperparam_history s; success := success s;
               non_convergence_count := non_convergence_count s;
               rng := S (rng s); trace := trace s |}).

(** [warnings.warn(msg)] *)
Definition warn (msg : string) : M unit := emit (EvWarning msg).

(** [[f(x) for x in l]] where [f] may raise. *)
Fixpoint map_result {A B} (f : A -> result B) (l : list A) : result (list B) :=
  match l with
  | [] => Ok []
  | a :: l' =>
      (b <- f a ;;
       bs <- map_result f l' ;;
       Ok (b :: bs))%py
  end.

(** Modelled from the spec: [get_default_values_arr] of optml.optimizer_base,
    which is not among the sources: the "declared default start point" (the
    [start_vals] given to the constructor) in array form, as the one row of
    a two-dimensional array. *)
Definition get_default_values_arr (hps : list Param) (start : gmap string Value)
    : result (list (list Value)) :=
  (row <- _param_dict_to_arr hps start ;; Ok [row])%py.

(** Modelled from the spec: [get_default_values_dict] of optml.optimizer_base,
    which is not among the sources: the "declared default start point" in
    dictionary form. *)
Definition get_default_values_dict (start : gmap string Value) : gmap string Value :=
  start.

Section Optimizer.

Variable ext : Collaborators.
Variable self : BayesianOptimizer.

(** *** [get_type_of_optimization], [set_hyperparam_bounds] *)

Definition n_categorical : nat :=
  length (filter (fun hp => param_type hp = "categorical") (hyperparams self)).

Definition optimization_type : string :=
  if decide (n_categorical = length (hyperparams self)) then "categorical"
  else if decide (0 < n_categorical) then "mixed"
  else "numerical".

Definition bounds_arr : list (R * R) :=
  map (fun hp => (lower hp, upper hp))
      (filter (fun hp => param_type hp <> "categorical") (hyperparams self)).

(** *** Acquisition functions

    [history] is [self.hyperparam_history]; [predict] returns the pair of
    [mu[0]] and [std[0]] for the single query point. *)

Definition upper_confidence_bound (optimizer : GP ext) (x : list Value) : result R :=
  let '(mu, std) := predict ext optimizer x in
  Ok (mu + 1.96 * std)%R.

Definition expected_improvement (history : list (R * gmap string Value))
    (optimizer : GP ext) (x : list Value) : result R :=
  let '(mu, std) := predict ext optimizer x in
  (current_best <- py_max (map fst history) ;;
   if Req_dec_T std 0 then Ok 0%R
   else
     gamma <- np_div (mu - current_best) std ;;
     Ok (std * (gamma * Norm.norm_cdf gamma + Norm.norm_pdf gamma))%R)%py.

Definition generalized_expected_improvement (history : list (R * gmap string Value))
    (optimizer : GP ext) (x : list Value) (xi : R) : result R :=
  let '(mu, std) := predict ext optimizer x in
  if Req_dec_T std 0 then Ok 0%R
  else
    (current_best <- py_max (map fst history) ;;
     gamma <- np_div (mu - current_best - xi) std ;;
     Ok ((mu - current_best - xi) * Norm.norm_cdf gamma + std * Norm.norm_pdf gamma)%R)%py.

Definition probability_of_improvement (history : list (R * gmap string Value))
    (optimizer : GP ext) (x : list Value) : result R :=
  let '(mu, std) := predict ext optimizer x in
  (current_best <- py_max (map fst history) ;;
   if Req_dec_T std 0 then Ok 0%R
   else
     gamma <- np_div (mu - current_best) std ;;
     Ok (Norm.norm_cdf gamma))%py.

(** [lambda x: -1 * f(x)] *)
Definition negated (f : list Value -> result R) (x : list Value) : result R :=
  (v <- f x ;; Ok (-1 * v)%R)%py.

(** *** Maximising the acquisition function *)

Definition optimize_continuous_problem (history : list (R * gmap string Value))
    (optimizer : GP ext) (start : list (list Value)) : result Minimized :=
  if decide (acquisition_function self = "expected_improvement") then
    minimize ext (negated (expected_improvement history optimizer)) start bounds_arr
  else if decide (acquisition_function self = "upper_confidence_bound") then
    minimize ext (negated (upper_confidence_bound optimizer)) start bounds_arr
  else if decide (acquisition_function self = "probability_of_improvement") then
    minimize ext (negated (probability_of_improvement history optimizer)) start bounds_arr
  else if decide (acquisition_function self = "generalized_expected_improvement") then
    minimize ext
      (negated (fun x => generalized_expected_improvement history optimizer x
                           (exploration_control self)))
      start bounds_arr
  else Raise (UnboundLocalError "minimized").

(** The acquisition function named by [self.acquisition_function]; a name
    outside the four recognised ones selects nothing. *)
Definition acquisition (history : list (R * gmap string Value))
    (optimizer : GP ext) (x : list Value) : result R :=
  if decide (acquisition_function self = "expected_improvement") then
    expected_improvement history optimizer x
  else if decide (acquisition_function self = "upper_confidence_bound") then
    upper_confidence_bound optimizer x
  else if decide (acquisition_function self = "probability_of_improvement") then
    probability_of_improvement history optimizer x
  else if decide (acquisition_function self = "generalized_expected_improvement") then
    generalized_expected_improvement history optimizer x (exploration_control self)
  else Raise ValueError.

(** The grid of a categorical problem. *)
Definition param_grid : list (list Value) := map possible_values (hyperparams self).

(** Modelled from the spec: [CategoricalMaximizer(self, optimizer).find_max()]
    of optml.bayesian_optimizer.optimizers, which is not among the sources:
    "evaluate acquisition at every grid point and return the maximizer
    exactly".  The result is in dictionary form, as its caller expects. *)
Definition find_max (history : list (R * gmap string Value)) (optimizer : GP ext)
    : result (gmap string Value) :=
  let grid := cartesian_product param_grid in
  (scores <- map_result (acquisition history optimizer) grid ;;
   match argmax (combine grid scores) with
   | Some (best, _) => Ok (_param_arr_to_dict (hyperparams self) best)
   | None => Raise ValueError
   end)%py.

(** [MixedAnnealer(self, optimizer).anneal()]: a stochastic search, which
    returns the state reached and its score. *)
Definition run_anneal (optimizer : GP ext) : M (gmap string Value * npfloat) :=
  (history <- get_history ;;
   random_draw (anneal ext self history optimizer))%M.

Definition optimize_categorical_problem (optimizer : GP ext) (start : list (list Value))
    : M Minimized :=
  let n_combinations := length (cartesian_product param_grid) in
  (p <- (if decide (1000 < n_combinations) then
           result <- run_anneal optimizer ;;
           ret (if isnan (snd result) then false else true, fst result)
         else
           history <- get_history ;;
           max_vals <- lift (find_max history optimizer) ;;
           ret (true, max_vals)) ;;
   x <- lift (_param_dict_to_arr (hyperparams self) (snd p)) ;;
   ret {| m_success := fst p; m_x := x |})%M.

Definition optimize_mixed_problem (optimizer : GP ext) (start : list (list Value))
    : M Minimized :=
  (result <- run_anneal optimizer ;;
   let success := if isnan (snd result) then false else true in
   x <- lift (_param_dict_to_arr (hyperparams self) (fst result)) ;;
   ret {| m_success := success; m_x := x |})%M.

(** *** [get_next_hyperparameters] *)

(** [str(v)] *)
Definition py_str (v : Value) : string :=
  match v with
  | VStr s => s
  | VInt z => str_of_int z
  | VFloat r => float_repr ext r
  end.

(** The body of [for hp, v in zip(self.hyperparams, minimized['x'])]. *)
Fixpoint new_params_loop (hps : list Param) (x : list Value)
    (new_params : gmap string Value) : result (gmap string Value) :=
  match hps, x with
  | hp :: hps', v :: x' =>
      if decide (param_type hp = "integer") then
        (n <- int_round v ;;
         new_params_loop hps' x' (<[name hp := VInt n]> new_params))%py
      else if decide (param_type hp = "categorical") then
        new_params_loop hps' x' (<[name hp := VStr (py_str v)]> new_params)
      else
        new_params_loop hps' x' (<[name hp := v]> new_params)
  | _, _ => Ok new_params
  end.

(** The start vector of one attempt (lines 296 to 299). *)
Definition draw_start_vals : M (list (list Value)) :=
  match start_vals self with
  | None => random_draw (get_random_values_arr ext)
  | Some d => lift (get_default_values_arr (hyperparams self) d)
  end.

(** The dispatch on the type of problem (lines 300 to 305). *)
Definition maximize (optimizer : GP ext) (start : list (list Value)) : M Minimized :=
  (if decide (optimization_type = "numerical") then
     history <- get_history ;;
     lift (optimize_continuous_problem history optimizer start)
   else if decide (optimization_type = "categorical") then
     optimize_categorical_problem optimizer start
   else
     optimize_mixed_problem optimizer start)%M.

(** The [for ... else] over [range(self.n_restarts_optimizer)], with [n]
    attempts left.  [start] is the local variable [start_vals], unbound
    until the first attempt assigns it.  Each attempt is recorded in the
    trace together with its start vector. *)
Fixpoint restart_loop (optimizer : GP ext) (n : nat) (start : option (list (list Value)))
    : M (gmap string Value) :=
  match n with
  | S n' =>
      (sv <- draw_start_vals ;;
       emit (EvMaximize sv) ;;;
       minimized <- maximize optimizer sv ;;
       set_success (m_success minimized) ;;;
       if m_success minimized then
         lift (new_params_loop (hyperparams self) (m_x minimized) ∅)
       else
         restart_loop optimizer n' (Some sv))%M
  | O =>
      (set_success false ;;;
       warn "optimizer did not converge! Continuing with randomly sampled data..." ;;;
       incr_non_convergence_count ;;;
       match start with
       | None => raise (UnboundLocalError "start_vals")
       | Some sv =>
           row <- lift (row0 sv) ;;
           ret (dict_of_zip (hyperparams self) row ∅)
       end)%M
  end.

Definition get_next_hyperparameters (optimizer : GP ext) : M (gmap string Value) :=
  restart_loop optimizer (Z.to_nat (n_restarts_optimizer self)) None.

(** *** [_fit_and_score_model] *)

(** The loop over the folds: [scores] is the list built so far and [score]
    the local variable assigned at the end of each round. *)
Fixpoint score_folds (params : gmap string Value) (X_train y_train : ndarray ext)
    (splits : list (indices ext * indices ext)) (scores : list R) (score : option R)
    : result (option R) :=
  match splits with
  | [] => Ok score
  | (train_idxs, test_idxs) :: splits' =>
      (y_pred <-
         (if decide (model_module self = "xgboost") then
            n_estimators <- getitem params "n_estimators" ;;
            Ok (xgboost_train_predict ext params
                  (np_take ext X_train train_idxs) (np_take ext y_train train_idxs)
                  (np_take ext X_train test_idxs) (np_take ext y_train test_idxs)
                  n_estimators)
          else
            Ok (build_fit_predict ext params
                  (np_take ext X_train train_idxs) (np_take ext y_train train_idxs)
                  (np_take ext X_train test_idxs))) ;;
       let scores' := (scores ++ [eval_func ext (np_take ext y_train test_idxs) y_pred])%list in
       score_folds params X_train y_train splits' scores' (Some (np_mean scores')))%py
  end.

Definition _fit_and_score_model (params : gmap string Value)
    (X_train y_train X_test y_test : ndarray ext) (n_folds : option Z) : M R :=
  (emit (EvEvaluate params) ;;;
   lift
     match n_folds with
     | Some k =>
         (score <- score_folds params X_train y_train
                     (get_kfold_split ext k X_train) [] None ;;
          match score with
          | Some v => Ok v
          | None => Raise (UnboundLocalError "score")
          end)%py
     | None =>
         (y_pred <-
            (if decide (model_module self = "xgboost") then
               n_estimators <- getitem params "n_estimators" ;;
               Ok (xgboost_train_predict ext params X_train y_train X_test y_test
                     n_estimators)
             else
               Ok (build_fit_predict ext params X_train y_train X_test)) ;;
          Ok (eval_func ext y_test y_pred))%py
     end)%M.

(** *** [_normalize_params] *)

(** [l[mask]] for a Python list [l] and a numpy boolean array [mask]:
    [self.hyperparams] is a list ("a list of Parameter instances"), and a
    list takes only integers and slices as indices. *)
Definition list_getitem_mask {A} (l : list A) (mask : list bool) : result (list A) :=
  Raise TypeError.

(** [l > n] for a Python list [l] and an integer [n]: the two are not
    ordered. *)
Definition list_gt_int (l : list R) (n : Z) : result (list bool) :=
  Raise TypeError.

(** [l[np.newaxis, mask]] for a Python list [l]: a tuple is no list index. *)
Definition list_getitem_tuple (l : list R) (mask : list bool) : result (list R) :=
  Raise TypeError.

(** [v - m] for an element of an object array. *)
Definition np_sub (v : Value) (m : R) : result Value :=
  match v with
  | VInt z => Ok (VFloat (IZR z - m))
  | VFloat r => Ok (VFloat (r - m))
  | VStr _ => Raise TypeError
  end.

(** [v / m] for an element of an object array. *)
Definition np_truediv (v : Value) (m : R) : result Value :=
  match v with
  | VInt z => (q <- np_div (IZR z) m ;; Ok (VFloat q))%py
  | VFloat r => (q <- np_div r m ;; Ok (VFloat q))%py
  | VStr _ => Raise TypeError
  end.

Fixpoint zip_result {A B C} (f : A -> B -> result C) (l : list A) (k : list B)
    : result (list C) :=
  match l, k with
  | a :: l', b :: k' =>
      (c <- f a b ;;
       cs <- zip_result f l' k' ;;
       Ok (c :: cs))%py
  | _, _ => Ok []
  end.

(** One row of [x[mask, :] -= means]: [means], of shape (k,), is broadcast
    along the columns of the selected rows, which needs k columns or k = 1. *)
Definition isub_row (means : list R) (row : list Value) (selected : bool)
    : result (list Value) :=
  if decide (length means = length row) then
    if selected then zip_result np_sub row means else Ok row
  else
    match means with
    | [m] => if selected then map_result (fun v => np_sub v m) row else Ok row
    | _ => Raise ValueError
    end.

(** [x[mask, :] -= means]: a boolean mask on the rows must have one entry
    per row. *)
Definition np_isub_rows (x : list (list Value)) (mask : list bool) (means : list R)
    : result (list (list Value)) :=
  if decide (length mask = length x) then zip_result (isub_row means) x mask
  else Raise IndexError.

(** One row of [x[:, mask] = x[:, mask] / divisors]. *)
Fixpoint idiv_row (row : list Value) (mask : list bool) (divisors : list R)
    : result (list Value) :=
  match row, mask with
  | v :: row', true :: mask' =>
      match divisors with
      | d :: divisors' =>
          (q <- np_truediv v d ;;
           rest <- idiv_row row' mask' divisors' ;;
           Ok (q :: rest))%py
      | [] => Raise ValueError
      end
  | v :: row', false :: mask' =>
      (rest <- idiv_row row' mask' divisors ;; Ok (v :: rest))%py
  | _, _ => Ok []
  end.

(** Lines 385 to 395, given the value [selected] of
    [self.hyperparams[numeric_idxs]]. *)
Definition normalize_selected (numeric_idxs : list bool) (selected : list Param)
    (x : list (list Value)) : result (list (list Value)) :=
  let means := map (fun hp => ((upper hp - lower hp) / 2)%R) selected in
  (x <- np_isub_rows x numeric_idxs means ;;
   let ranges :=
     map (fun p : Param * bool =>
            if snd p then (upper (fst p) - lower (fst p))%R else 0%R)
         (combine (hyperparams self) numeric_idxs) in
   mask <- list_gt_int ranges 0 ;;
   divisors <- list_getitem_tuple ranges mask ;;
   map_result (fun row => idiv_row row mask divisors) x)%py.

Definition _normalize_params (x : list (list Value)) : result (list (list Value)) :=
  let numeric_idxs :=
    map (fun hp => bool_decide (param_type hp ∈ ["integer"; "continuous"]))
        (hyperparams self) in
  (selected <- list_getitem_mask (hyperparams self) numeric_idxs ;;
   normalize_selected numeric_idxs selected x)%py.

(** *** [fit] *)

(** The body of [for i in range(n_iters)]. *)
Definition fit_iteration (X_train y_train X_test y_test : ndarray ext)
    (n_folds : option Z) (i : nat) : M unit :=
  (new_hyperparams <-
     (if decide (0 < i) then
        history <- get_history ;;
        xs <- lift (map_result (_param_dict_to_arr (hyperparams self)) (map snd history)) ;;
        xs <- (if normalize self then lift (_normalize_params xs) else ret xs) ;;
        let ys := map fst history in
        emit (EvSurrogateFit xs ys) ;;;
        get_next_hyperparameters (gp_fit ext xs ys)
      else
        match start_vals self with
        | None => random_draw (get_random_values_dict ext)
        | Some d => ret (get_default_values_dict d)
        end) ;;
   score <- _fit_and_score_model new_hyperparams X_train y_train X_test y_test n_folds ;;
   append_history (score, new_hyperparams))%M.

Fixpoint fit_loop (X_train y_train X_test y_test : ndarray ext) (n_folds : option Z)
    (rounds : list nat) : M unit :=
  match rounds with
  | [] => ret tt
  | i :: rounds' =>
      (fit_iteration X_train y_train X_test y_test n_folds i ;;;
       fit_loop X_train y_train X_test y_test n_folds rounds')%M
  end.

(** The test of the arguments at the entry of [fit] (lines 415 to 421); the
    result is the pair of [X_test] and [y_test] used from there on. *)
Definition check_test_data (X_train y_train : ndarray ext)
    (X_test y_test : option (ndarray ext)) (n_folds : option Z)
    : result (ndarray ext * ndarray ext) :=
  match X_test, y_test with
  | None, None => Ok (X_train, y_train)
  | None, Some _ | Some _, None =>
      Raise (MissingValueException "Need to provide 'X_test' and 'y_test'")
  | Some xt, Some yt =>
      match n_folds with
      | Some _ => Raise (PyException "Provide either 'X_test' and 'y_test' or 'n_folds'")
      | None => Ok (xt, yt)
      end
  end.

Definition fit (X_train y_train : ndarray ext) (X_test y_test : option (ndarray ext))
    (n_iters : Z) (n_folds : option Z) : M (gmap string Value * Model ext) :=
  (test <- lift (check_test_data X_train y_train X_test y_test n_folds) ;;
   set_non_convergence_count 0 ;;;
   fit_loop X_train y_train (fst test) (snd test) n_folds (seq 0 (Z.to_nat n_iters)) ;;;
   history <- get_history ;;
   ret (get_best_params_and_model ext history))%M.

End Optimizer.

(** ** Sample collaborators

    A small concrete environment for running the definitions.  The surrogate
    reads the posterior off the query point ([[mean; std]]), the optimizers
    return [x] (or [proposal]) and converge or not as [converges] says, and
    every model evaluation scores 1. *)

Definition sample_ext (converges : bool) (proposal : gmap string Value)
    (x : list Value) : Collaborators := {|
  ndarray := list R;
  indices := unit;
  Model := gmap string Value;
  GP := unit;
  get_random_values_arr := fun k => [[VFloat (INR k)]];
  get_random_values_dict := fun k => {[ "a" := VFloat (INR k) ]};
  get_kfold_split := fun _ _ => [(tt, tt)];
  xgboost_train_predict := fun _ _ _ _ y _ => y;
  build_fit_predict := fun _ _ _ xt => xt;
  get_best_params_and_model := fun history =>
    match history with
    | (_, params) :: _ => (params, params)
    | [] => (∅, ∅)
    end;
  np_take := fun a _ => a;
  float_repr := fun _ => "0.0";
  eval_func := fun _ _ => 1%R;
  gp_fit := fun _ _ => tt;
  predict := fun _ q =>
    match q with
    | [VFloat mean; VFloat std] => (mean, std)
    | _ => (0%R, 1%R)
    end;
  minimize := fun _ _ _ => Ok {| m_success := converges; m_x := x |};
  anneal := fun _ _ _ _ => (proposal, if converges then Num 1 else NaN)
|}.

Definition continuous_param (n : string) (lo hi : R) : Param :=
  {| name := n; param_type := "continuous"; lower := lo; upper := hi;
     possible_values := [] |}.

Definition integer_param (n : string) (lo hi : R) : Param :=
  {| name := n; param_type := "integer"; lower := lo; upper := hi;
     possible_values := [] |}.

Definition categorical_param (n : string) (values : list Value) : Param :=
  {| name := n; param_type := "categorical"; lower := 0; upper := 0;
     possible_values := values |}.

Definition sample_optimizer (hps : list Param) (start : option (gmap string Value))
    (restarts : Z) : BayesianOptimizer :=
  {| hyperparams := hps; start_vals := start;
     acquisition_function := "expected_improvement";
     n_restarts_optimizer := restarts; normalize := false;
     exploration_control := 0.01; model_module := "sklearn" |}.

Definition initial_state : State :=
  {| hyperparam_history := []; success := None; non_convergence_count := 0;
     rng := 0; trace := [] |}.

Definition one_entry : list (R * gmap string Value) := [(0%R, ∅)].

(** ** The normalisation as the specification words it

    "Center and scale only the numeric coordinates of each ParameterVector
    by (range/2) and range respectively; categorical coordinates are left
    untouched"; "ranges of zero are excluded from the division". *)

Definition normalize_coordinate (hp : Param) (v : Value) : result Value :=
  if bool_decide (param_type hp ∈ ["integer"; "continuous"]) then
    (centered <- np_sub v ((upper hp - lower hp) / 2) ;;
     if Rlt_dec 0 (upper hp - lower hp) then np_truediv centered (upper hp - lower hp)
     else Ok centered)%py
  else Ok v.

Definition normalize_as_specified (hps : list Param) (x : list (list Value))
    : result (list (list Value)) :=
  map_result (fun row => zip_result normalize_coordinate hps row) x.

(** ** Runs of the restart loop *)

(** Each of the [n] attempts made from state [s] on returns
    [success = False]. *)
Fixpoint all_attempts_fail (ext : Collaborators) (self : BayesianOptimizer)
    (optimizer : GP ext) (n : nat) (s : State) : Prop :=
  match n with
  | O => True
  | S n' =>
      exists sv s1 m s2,
        draw_start_vals ext self s = (Ok sv, s1)
        /\ maximize ext self optimizer sv (snd (emit (EvMaximize sv) s1)) = (Ok m, s2)
        /\ m_success m = false
        /\ all_attempts_fail ext self optimizer n' (snd (set_success false s2))
  end.

(** What the [else] branch of the restart loop returns when the local
    variable [start_vals] holds [start]. *)
Definition fallback_result (hps : list Param) (start : option (list (list Value)))
    : result (gmap string Value) :=
  match start with
  | None => Raise (UnboundLocalError "start_vals")
  | Some sv => (row <- row0 sv ;; Ok (dict_of_zip hps row ∅))%py
  end.

Definition non_convergence_warning : string :=
  "optimizer did not converge! Continuing with randomly sampled data...".

(** The type of the values that a categorical parameter declares. *)
Definition declared_value_type (hp : Param) : option PyType :=
  match possible_values hp with
  | v :: _ => Some (type_of v)
  | [] => None
  end.

(** The claim of C4 for categorical parameters as it is stated: the
    proposal of a successful attempt holds, for a categorical parameter, a
    value of the parameter's declared value type. *)
Definition categorical_cast_to_declared_type (ext : Collaborators)
    (self : BayesianOptimizer) : Prop :=
  forall (optimizer : GP ext) (s s' : State) (proposal : gmap string Value),
    get_next_hyperparameters ext self optimizer s = (Ok proposal, s') ->
    success s' = Some true ->
    forall hp t v,
      hp ∈ hyperparams self ->
      param_type hp = "categorical" ->
      declared_value_type hp = Some t ->
      proposal !! name hp = Some v ->
      type_of v = t.

(** A mixed problem: a categorical parameter with integer values and a
    continuous one. *)
Definition mixed_optimizer : BayesianOptimizer :=
  sample_optimizer
    [categorical_param "c" [VInt 1; VInt 2]; continuous_param "n" 0 1] None 1.

Definition mixed_ext : Collaborators :=
  sample_ext true (<["c" := VInt 1]> (<["n" := VFloat 0]> ∅)) [].

(** ** Runs of [fit] *)

(** The best score among the first [k] entries of the history: the
    [current_best] of the acquisition functions after [k] iterations. *)
Definition best_so_far (history : list (R * gmap string Value)) (k : nat) : result R :=
  py_max (map fst (take k history)).

(** The point evaluated by iteration 0. *)
Definition start_point (ext : Collaborators) (self : BayesianOptimizer) (s : State)
    : gmap string Value :=
  match start_vals self with
  | None => get_random_values_dict ext (rng s)
  | Some d => get_default_values_dict d
  end.

(** A vector that the success branch of [get_next_hyperparameters] can
    convert: one value per hyperparameter, a number where the parameter is
    an integer. *)
Definition convertible (hps : list Param) (x : list Value) : Prop :=
  length hps <= length x
  /\ forall i hp v,
       hps !! i = Some hp -> x !! i = Some v -> param_type hp = "integer" ->
       exists n, int_round v = Ok n.

(** Conditions under which no step of the loop raises: the collaborators
    return well-formed values, the input normalisation is off, and at least
    one attempt is made per iteration. *)
Record run_conditions (ext : Collaborators) (self : BayesianOptimizer)
    (X_train : ndarray ext) (n_folds : option Z) : Prop := {
  rc_normalize : normalize self = false;
  rc_restarts : (1 <= n_restarts_optimizer self)%Z;
  rc_model : model_module self <> "xgboost";
  rc_folds : forall k, n_folds = Some k -> get_kfold_split ext k X_train <> [];
  rc_random_dict :
    forall k hp, hp ∈ hyperparams self ->
                 is_Some (get_random_values_dict ext k !! name hp);
  rc_start_dict :
    forall d hp, start_vals self = Some d -> hp ∈ hyperparams self ->
                 is_Some (d !! name hp);
  rc_random_arr :
    forall k, exists row rest,
      get_random_values_arr ext k = row :: rest
      /\ length (hyperparams self) <= length row;
  rc_maximize :
    forall optimizer start s,
      hyperparam_history s <> [] ->
      exists m s',
        maximize ext self optimizer start s = (Ok m, s')
        /\ (m_success m = true -> convertible (hyperparams self) (m_x m))
}.

(** ** Sample problems *)

(** One continuous parameter, two restarts, random start points. *)
Definition one_param_optimizer : BayesianOptimizer :=
  sample_optimizer [continuous_param "a" 0 10] None 2.

(** The same with user-supplied start values. *)
Definition started_optimizer : BayesianOptimizer :=
  sample_optimizer [continuous_param "a" 0 10] (Some {[ "a" := VFloat 5 ]}) 2.

(** Collaborators whose optimizers never converge, and collaborators whose
    optimizers always propose 5. *)
Definition failing_ext : Collaborators := sample_ext false ∅ [].
Definition converging_ext : Collaborators := sample_ext true ∅ [VFloat 5].

(** Two categorical parameters of three values each: a grid of 9 points. *)
Definition grid_optimizer : BayesianOptimizer :=
  {| hyperparams :=
       [categorical_param "kernel" [VStr "linear"; VStr "rbf"; VStr "poly"];
        categorical_param "solver" [VStr "lbfgs"; VStr "sgd"; VStr "adam"]];
     start_vals := None;
     acquisition_function := "upper_confidence_bound";
     n_restarts_optimizer := 10; normalize := false;
     exploration_control := 0.01; model_module := "sklearn" |}.

(** Eleven categorical parameters of two values each: a grid of 2048
    points; the annealer proposes 0 everywhere and scores it [nan]. *)
Definition big_grid_names : list string :=
  ["p0"; "p1"; "p2"; "p3"; "p4"; "p5"; "p6"; "p7"; "p8"; "p9"; "p10"].

Definition big_grid_optimizer : BayesianOptimizer :=
  sample_optimizer
    (map (fun n => categorical_param n [VInt 0; VInt 1]) big_grid_names) None 1.

Definition big_grid_ext : Collaborators :=
  sample_ext false (list_to_map (map (fun n => (n, VInt 0)) big_grid_names)) [].

(** A state after one recorded evaluation. *)
Definition later_state : State :=
  {| hyperparam_history := [(1%R, {[ "a" := VFloat 3 ]})]; success := None;
     non_convergence_count := 0; rng := 0; trace := [] |}.

(** The claim of C3 as it is stated: at a query point with standard
    deviation 0 each of the four acquisition functions returns 0. *)
Definition zero_at_std_zero (ext : Collaborators)
    (history : list (R * gmap string Value))
    (optimizer : GP ext) (x : list Value) (xi : R) : Prop :=
  snd (predict ext optimizer x) = 0%R ->
  upper_confidence_bound ext optimizer x = Ok 0%R
  /\ expected_improvement ext history optimizer x = Ok 0%R
  /\ generalized_expected_improvement ext history optimizer x xi = Ok 0%R
  /\ probability_of_improvement ext history optimizer x = Ok 0%R.

(** ** What a method leaves unchanged *)

(** [respects rel m]: every run of [m], whether it returns or raises,
    relates the state before to the state after. *)
Definition respects (rel : State -> State -> Prop) {A} (m : M A) : Prop :=
  forall s r s', m s = (r, s') -> rel s s'.

(** Only the position in the random stream may change. *)
Definition rng_only (s s' : State) : Prop :=
  hyperparam_history s' = hyperparam_history s
  /\ success s' = success s
  /\ non_convergence_count s' = non_convergence_count s
  /\ trace s' = trace s.

(** The history is kept and the trace is extended. *)
Definition quiet (s s' : State) : Prop :=
  hyperparam_history s' = hyperparam_history s
  /\ exists evs, trace s' = trace s ++ evs.

(** Both the history and the trace are extended: nothing recorded is
    reordered or removed. *)
Definition extends (s s' : State) : Prop :=
  (exists new, hyperparam_history s' = hyperparam_history s ++ new)
  /\ exists evs, trace s' = trace s ++ evs.

(** The value of the local variable [start_vals] after the attempts that
    started from [starts]. *)
Definition last_start (start : option (list (list Value)))
    (starts : list (list (list Value))) : option (list (list Value)) :=
  match last starts with
  | Some sv => Some sv
  | None => start
  end.

(** Every hyperparameter name is a key of [params]. *)
Definition all_names (self : BayesianOptimizer) (params : gmap string Value) : Prop :=
  forall hp, hp ∈ hyperparams self -> is_Some (params !! name hp).

(** Every entry of the history has a value for each hyperparameter. *)
Definition keys_ok (self : BayesianOptimizer) (s : State) : Prop :=
  Forall (fun entry => all_names self (snd entry)) (hyperparam_history s).

(** ** The remaining methods *)

(** The kernels among which [choose_kernel] selects. *)
Inductive Kernel : Type :=
  | HammingKernel
  | WeightedHammingKernel
  | Matern.

(** [choose_kernel] *)
Definition choose_kernel (self : BayesianOptimizer) : Kernel :=
  if decide (optimization_type self = "categorical") then HammingKernel
  else if decide (optimization_type self = "mixed") then WeightedHammingKernel
  else Matern.


(** ** Reading a trace *)

Definition is_warning (e : Event) : bool :=
  match e with EvWarning _ => true | _ => false end.

Definition is_maximize (e : Event) : bool :=
  match e with EvMaximize _ => true | _ => false end.

Definition is_surrogate_fit (e : Event) : bool :=
  match e with EvSurrogateFit _ _ => true | _ => false end.

Definition is_evaluate (e : Event) : bool :=
  match e with EvEvaluate _ => true | _ => false end.

(** The number of events of one kind. *)
Fixpoint count_events (p : Event -> bool) (evs : list Event) : nat :=
  match evs with
  | [] => 0
  | e :: evs' => (if p e then 1 else 0) + count_events p evs'
  end.

(** The arguments of the calls of [optimizer.fit], in order. *)
Fixpoint surrogate_fits (evs : list Event) : list (list (list Value) * list R) :=
  match evs with
  | [] => []
  | EvSurrogateFit xs ys :: evs' => (xs, ys) :: surrogate_fits evs'
  | _ :: evs' => surrogate_fits evs'
  end.

(** The warning of the [else] branch of the restart loop, when it ran. *)
Definition warning_events (warned : bool) : list Event :=
  if warned then [EvWarning non_convergence_warning] else [].

(** The state after one random draw. *)
Definition after_draw (s : State) : State :=
  {| hyperparam_history := hyperparam_history s; success := success s;
     non_convergence_count := non_convergence_count s; rng := S (rng s);
     trace := trace s |}.

(** A numerical problem whose acquisition function has a name that
    [optimize_continuous_problem] does not know. *)
Definition misnamed_optimizer : BayesianOptimizer :=
  {| hyperparams := [continuous_param "a" 0 10]; start_vals := None;
     acquisition_function := "thompson_sampling";
     n_restarts_optimizer := 2; normalize := false;
     exploration_control := 0.01; model_module := "sklearn" |}.

(** One continuous parameter and no restart at all. *)
Definition no_restart_optimizer : BayesianOptimizer :=
  sample_optimizer [continuous_param "a" 0 10] None 0.

(** The score of one fold for a model other than xgboost (lines 364 to
    367). *)
Definition fold_score (ext : Collaborators) (params : gmap string Value)
    (X_train y_train : ndarray ext) (split : indices ext * indices ext) : R :=
  eval_func ext (np_take ext y_train split.2)
    (build_fit_predict ext params
       (np_take ext X_train split.1) (np_take ext y_train split.1)
       (np_take ext X_train split.2)).

(** The parameter dictionaries on which the model was evaluated, in
    order. *)
Fixpoint evaluations (evs : list Event) : list (gmap string Value) :=
  match evs with
  | [] => []
  | EvEvaluate params :: evs' => params :: evaluations evs'
  | _ :: evs' => evaluations evs'
  end.

(** The history is kept and the trace is extended by events other than
    evaluations of the model. *)
Definition no_evaluation (s s' : State) : Prop :=
  hyperparam_history s' = hyperparam_history s
  /\ exists evs, trace s' = trace s ++ evs /\ evaluations evs = [].
(** * Properties *)

(** ** The builtins on sample values *)

Lemma Int_part_between (r : R) (z : Z) :
  (IZR z <= r < IZR z + 1)%R -> Int_part r = z.
Proof.
  intros [Hlo Hhi]. unfold Int_part.
  assert (Hup : up r = (z + 1)%Z); [|lia].
  symmetry. apply tech_up; rewrite plus_IZR; lra.
Qed.

Example py_round_tie_down : py_round 2.5 = 2%Z.
Proof.
  unfold py_round. rewrite (Int_part_between 2.5 2) by lra.
  destruct (Rlt_dec _ _); [lra|]. destruct (Rlt_dec _ _); [lra|]. reflexivity.
Qed.

Example py_round_tie_up : py_round 3.5 = 4%Z.
Proof.
  unfold py_round. rewrite (Int_part_between 3.5 3) by lra.
  destruct (Rlt_dec _ _); [lra|]. destruct (Rlt_dec _ _); [lra|]. reflexivity.
Qed.

Example py_round_up : py_round 2.6 = 3%Z.
Proof.
  unfold py_round. rewrite (Int_part_between 2.6 2) by lra.
  destruct (Rlt_dec _ _); [lra|]. destruct (Rlt_dec _ _); [reflexivity|lra].
Qed.

Example str_of_int_samples : str_of_int 12 = "12" /\ str_of_int (-5) = "-5".
Proof. split; reflexivity. Qed.

Example cartesian_product_sample :
  cartesian_product [[VInt 1; VInt 2]; [VStr "a"]]
  = [[VInt 1; VStr "a"]; [VInt 2; VStr "a"]].
Proof. reflexivity. Qed.

Example optimization_type_samples :
  optimization_type
    (sample_optimizer
       [categorical_param "a" []; categorical_param "b" []; categorical_param "c" []]
       None 1) = "categorical"
  /\ optimization_type
       (sample_optimizer
          [categorical_param "a" []; categorical_param "b" []; continuous_param "c" 0 1]
          None 1) = "mixed"
  /\ optimization_type
       (sample_optimizer [continuous_param "a" 0 1; integer_param "b" 0 5] None 1)
     = "numerical".
Proof. repeat split; reflexivity. Qed.

(** ** Array form and dictionary form *)

Section ConversionFacts.

Variable hyperparams : list Param.

Lemma dict_of_zip_not_in (hps : list Param) (values : list Value)
    (acc : gmap string Value) (k : string) :
  k ∉ map name hps -> dict_of_zip hps values acc !! k = acc !! k.
Proof.
  revert values acc. induction hps as [|hp hps IH]; intros values acc Hk; [done|].
  destruct values as [|v values]; [done|]. simpl.
  rewrite IH by set_solver. apply lookup_insert_ne. set_solver.
Qed.

Lemma dict_of_zip_agree (hps : list Param) (values : list Value)
    (acc d : gmap string Value) (k : string) :
  Forall2 (fun hp v => d !! name hp = Some v) hps values ->
  dict_of_zip hps values acc !! k
  = if decide (k ∈ map name hps) then d !! k else acc !! k.
Proof.
  intros H. revert acc. induction H as [|hp v hps values Hv _ IH]; intros acc; [done|].
  simpl. rewrite IH. destruct (decide (k ∈ map name hps)) as [Hin|Hin].
  - rewrite decide_True by set_solver. done.
  - destruct (decide (k = name hp)) as [->|Hne].
    + rewrite decide_True by set_solver. by rewrite lookup_insert_eq.
    + rewrite decide_False by set_solver. by rewrite lookup_insert_ne.
Qed.

Lemma dict_to_arr_from_Forall2 (hps : list Param) (d : gmap string Value)
    (values : list Value) :
  dict_to_arr_from hps d = Ok values
  <-> Forall2 (fun hp v => d !! name hp = Some v) hps values.
Proof.
  revert values. induction hps as [|hp hps IH]; intros values; simpl.
  - split; [intros [= <-]; constructor | intros H; by inversion H].
  - unfold getitem. destruct (d !! name hp) as [v|] eqn:Hv; simpl.
    + destruct (dict_to_arr_from hps d) as [rest|e] eqn:Hrest; simpl.
      * split.
        -- intros [= <-]. constructor; [done | by apply IH].
        -- intros H. inversion H as [|? v' ? rest' Hv' Hrest']; subst.
           apply IH in Hrest'. congruence.
      * split; [done|]. intros H. inversion H as [|? v' ? rest' Hv' Hrest']; subst.
        apply IH in Hrest'. congruence.
    + split; [done|]. intros H. inversion H; congruence.
Qed.

Lemma dict_of_zip_Forall2 (hps : list Param) (values : list Value)
    (acc : gmap string Value) :
  NoDup (map name hps) -> length values = length hps ->
  Forall2 (fun hp v => dict_of_zip hps values acc !! name hp = Some v) hps values.
Proof.
  revert values acc. induction hps as [|hp hps IH]; intros [|v values] acc Hnd Hlen;
    simpl in Hlen; try discriminate; [constructor|].
  apply NoDup_cons in Hnd as [Hhp Hnd]. simpl in *. constructor.
  - rewrite dict_of_zip_not_in by done. apply lookup_insert_eq.
  - apply IH; [done | lia].
Qed.

Lemma dict_to_arr_keys (d : gmap string Value) :
  (forall hp, hp ∈ hyperparams -> is_Some (d !! name hp)) ->
  exists arr, _param_dict_to_arr hyperparams d = Ok arr.
Proof.
  unfold _param_dict_to_arr. induction hyperparams as [|hp hps IH]; intros H; simpl.
  - by eexists.
  - destruct (H hp) as [v Hv]; [set_solver|]. unfold getitem. rewrite Hv. simpl.
    destruct IH as [rest ->]; [intros; apply H; set_solver|]. by eexists.
Qed.

Lemma arr_dict_arr (a : list Value) :
  NoDup (map name hyperparams) -> length a = length hyperparams ->
  _param_dict_to_arr hyperparams (_param_arr_to_dict hyperparams a) = Ok a.
Proof.
  intros Hnd Hlen. apply dict_to_arr_from_Forall2.
  by apply dict_of_zip_Forall2.
Qed.

(** C9. Converting a dictionary whose keys are exactly the hyperparameter
    names to array form and back gives the same dictionary, and converting
    an array with one value per hyperparameter to dictionary form and back
    gives the same array (for pairwise distinct names); in both the value
    at position [i] of the array is the value of the [i]-th hyperparameter's
    name in the dictionary. *)
Theorem param_dict_arr_round_trip :
  (forall d : gmap string Value,
     dom d = list_to_set (map name hyperparams) ->
     exists arr,
       _param_dict_to_arr hyperparams d = Ok arr
       /\ _param_arr_to_dict hyperparams arr = d
       /\ forall i hp, hyperparams !! i = Some hp -> arr !! i = d !! name hp)
  /\ (NoDup (map name hyperparams) ->
      forall a : list Value,
        length a = length hyperparams ->
        _param_dict_to_arr hyperparams (_param_arr_to_dict hyperparams a) = Ok a
        /\ forall i hp, hyperparams !! i = Some hp ->
                        _param_arr_to_dict hyperparams a !! name hp = a !! i).
Proof.
  split.
  - intros d Hdom.
    destruct (dict_to_arr_keys d) as [arr Harr].
    { intros hp Hhp. apply elem_of_dom. rewrite Hdom.
      apply elem_of_list_to_set, list_elem_of_fmap. eauto. }
    exists arr. split; [done|].
    pose proof Harr as HF. apply dict_to_arr_from_Forall2 in HF. split.
    + apply map_eq. intros k. unfold _param_arr_to_dict.
      rewrite (dict_of_zip_agree _ _ _ d) by done.
      destruct (decide (k ∈ map name hyperparams)) as [Hin|Hin]; [done|].
      rewrite lookup_empty. symmetry. apply not_elem_of_dom. rewrite Hdom.
      by rewrite elem_of_list_to_set.
    + intros i hp Hi. destruct (Forall2_lookup_l _ _ _ _ _ HF Hi) as (v & Hv & Hd).
      by rewrite Hv, Hd.
  - intros Hnd a Hlen.
    pose proof (dict_of_zip_Forall2 hyperparams a ∅ Hnd Hlen) as HF. split.
    + by apply dict_to_arr_from_Forall2.
    + intros i hp Hi. destruct (Forall2_lookup_l _ _ _ _ _ HF Hi) as (v & Hv & Hd).
      unfold _param_arr_to_dict. by rewrite Hv, Hd.
Qed.

End ConversionFacts.

(** ** Acquisition functions *)

Lemma py_max_cons (x : R) (l : list R) : py_max (x :: l) = Ok (fold_left Rmax l x).
Proof. reflexivity. Qed.

Lemma py_max_nonempty (l : list R) : l <> [] -> exists best, py_max l = Ok best.
Proof. destruct l as [|x l]; [done|]. intros _. by eexists. Qed.

Lemma np_div_nonzero (x y : R) : y <> 0%R -> np_div x y = Ok (x / y)%R.
Proof. intros H. unfold np_div. by destruct (Req_dec_T y 0). Qed.

Lemma np_div_zero (x : R) : np_div x 0 = Raise FloatingPointError.
Proof. unfold np_div. by destruct (Req_dec_T 0 0). Qed.

Section AcquisitionFacts.

Variable ext : Collaborators.

Lemma expected_improvement_value (history : list (R * gmap string Value))
    (optimizer : GP ext) (x : list Value) (mu std best : R) :
  predict ext optimizer x = (mu, std) ->
  py_max (map fst history) = Ok best ->
  std <> 0%R ->
  expected_improvement ext history optimizer x
  = Ok (std * Norm.ei_kernel ((mu - best) / std))%R.
Proof.
  intros Hp Hb Hs. unfold expected_improvement. rewrite Hp, Hb. simpl.
  destruct (Req_dec_T std 0) as [|_]; [done|].
  by rewrite np_div_nonzero.
Qed.

End AcquisitionFacts.

(** C8. For a fixed standard deviation [std > 0] and a fixed history (hence
    a fixed best observed score), the value computed by
    [expected_improvement], which is std * (gamma * Phi(gamma) + phi(gamma))
    with gamma = (mean - best) / std, does not decrease when the posterior
    mean grows. *)
Theorem expected_improvement_monotone_in_mean (ext : Collaborators)
    (history : list (R * gmap string Value))
    (optimizer1 optimizer2 : GP ext) (x1 x2 : list Value) (mean1 mean2 std : R) :
  history <> [] ->
  predict ext optimizer1 x1 = (mean1, std) ->
  predict ext optimizer2 x2 = (mean2, std) ->
  (0 < std)%R ->
  (mean1 <= mean2)%R ->
  exists best v1 v2,
    py_max (map fst history) = Ok best
    /\ expected_improvement ext history optimizer1 x1 = Ok v1
    /\ expected_improvement ext history optimizer2 x2 = Ok v2
    /\ v1 = (let gamma := (mean1 - best) / std in
             std * (gamma * Norm.norm_cdf gamma + Norm.norm_pdf gamma))%R
    /\ v2 = (let gamma := (mean2 - best) / std in
             std * (gamma * Norm.norm_cdf gamma + Norm.norm_pdf gamma))%R
    /\ (v1 <= v2)%R.
Proof.
  intros Hh Hp1 Hp2 Hstd Hle.
  destruct (py_max_nonempty (map fst history)) as [best Hbest].
  { by destruct history. }
  assert (Hne : std <> 0%R) by lra.
  exists best. eexists. eexists.
  split; [done|].
  split; [by apply expected_improvement_value|].
  split; [by apply expected_improvement_value|].
  split; [reflexivity|]. split; [reflexivity|].
  apply Rmult_le_compat_l; [lra|].
  apply Norm.ei_kernel_increasing.
  unfold Rdiv. apply Rmult_le_compat_r; [|lra].
  left. by apply Rinv_0_lt_compat.
Qed.

Lemma expected_improvement_monotone_in_mean_witness :
  exists best v1 v2,
    py_max (map fst one_entry) = Ok best
    /\ expected_improvement (sample_ext true ∅ []) one_entry tt [VFloat 0; VFloat 1] = Ok v1
    /\ expected_improvement (sample_ext true ∅ []) one_entry tt [VFloat 1; VFloat 1] = Ok v2
    /\ v1 = (let gamma := (0 - best) / 1 in
             1 * (gamma * Norm.norm_cdf gamma + Norm.norm_pdf gamma))%R
    /\ v2 = (let gamma := (1 - best) / 1 in
             1 * (gamma * Norm.norm_cdf gamma + Norm.norm_pdf gamma))%R
    /\ (v1 <= v2)%R.
Proof.
  apply (expected_improvement_monotone_in_mean (sample_ext true ∅ []) one_entry
           tt tt [VFloat 0; VFloat 1] [VFloat 1; VFloat 1] 0 1 1).
  - discriminate.
  - reflexivity.
  - reflexivity.
  - lra.
  - lra.
Defined.

Section StdZero.

Variable ext : Collaborators.

Lemma expected_improvement_no_zero_division history optimizer x :
  expected_improvement ext history optimizer x <> Raise FloatingPointError.
Proof.
  unfold expected_improvement. destruct (predict ext optimizer x) as [mu std].
  destruct (py_max (map fst history)) as [best|e] eqn:Hb; simpl.
  - destruct (Req_dec_T std 0); [done|]. by rewrite np_div_nonzero.
  - destruct history; simpl in Hb; [by injection Hb as <- | done].
Qed.

Lemma generalized_expected_improvement_no_zero_division history optimizer x xi :
  generalized_expected_improvement ext history optimizer x xi <> Raise FloatingPointError.
Proof.
  unfold generalized_expected_improvement. destruct (predict ext optimizer x) as [mu std].
  destruct (Req_dec_T std 0); [done|].
  destruct (py_max (map fst history)) as [best|e] eqn:Hb; simpl.
  - by rewrite np_div_nonzero.
  - destruct history; simpl in Hb; [by injection Hb as <- | done].
Qed.

Lemma probability_of_improvement_no_zero_division history optimizer x :
  probability_of_improvement ext history optimizer x <> Raise FloatingPointError.
Proof.
  unfold probability_of_improvement. destruct (predict ext optimizer x) as [mu std].
  destruct (py_max (map fst history)) as [best|e] eqn:Hb; simpl.
  - destruct (Req_dec_T std 0); [done|]. by rewrite np_div_nonzero.
  - destruct history; simpl in Hb; [by injection Hb as <- | done].
Qed.

(** C3, amended.  At a query point whose predicted standard deviation is 0:
    [expected_improvement], [generalized_expected_improvement] and
    [probability_of_improvement] return exactly 0 on a non-empty history
    ([generalized_expected_improvement] on every history), and none of the
    three ever divides by a zero standard deviation;
    [upper_confidence_bound] has no such branch and no division, and
    returns mean + 1.96 * 0, the posterior mean. *)
Theorem acquisition_at_std_zero (history : list (R * gmap string Value))
    (optimizer : GP ext) (x : list Value) (xi : R) :
  snd (predict ext optimizer x) = 0%R ->
  (history <> [] ->
   expected_improvement ext history optimizer x = Ok 0%R
   /\ probability_of_improvement ext history optimizer x = Ok 0%R)
  /\ generalized_expected_improvement ext history optimizer x xi = Ok 0%R
  /\ upper_confidence_bound ext optimizer x = Ok (fst (predict ext optimizer x))
  /\ (forall h o q,
        expected_improvement ext h o q <> Raise FloatingPointError
        /\ generalized_expected_improvement ext h o q xi <> Raise FloatingPointError
        /\ probability_of_improvement ext h o q <> Raise FloatingPointError).
Proof.
  intros Hstd.
  unfold expected_improvement, probability_of_improvement,
    generalized_expected_improvement, upper_confidence_bound.
  destruct (predict ext optimizer x) as [mu std]. simpl in Hstd. subst std.
  repeat split.
  - destruct (py_max_nonempty (map fst history)) as [best ->]; [by destruct history|].
    simpl. by destruct (Req_dec_T 0 0).
  - destruct (py_max_nonempty (map fst history)) as [best ->]; [by destruct history|].
    simpl. by destruct (Req_dec_T 0 0).
  - by destruct (Req_dec_T 0 0).
  - simpl. f_equal. lra.
  - apply expected_improvement_no_zero_division.
  - apply generalized_expected_improvement_no_zero_division.
  - apply probability_of_improvement_no_zero_division.
Qed.

End StdZero.

Lemma acquisition_at_std_zero_witness :
  let ext := sample_ext true ∅ [] in
  let history := one_entry in
  let x := [VFloat 1; VFloat 0] in
  (history <> [] ->
   expected_improvement ext history tt x = Ok 0%R
   /\ probability_of_improvement ext history tt x = Ok 0%R)
  /\ generalized_expected_improvement ext history tt x 0.01 = Ok 0%R
  /\ upper_confidence_bound ext tt x = Ok (fst (predict ext tt x))
  /\ (forall h o q,
        expected_improvement ext h o q <> Raise FloatingPointError
        /\ generalized_expected_improvement ext h o q 0.01 <> Raise FloatingPointError
        /\ probability_of_improvement ext h o q <> Raise FloatingPointError).
Proof.
  intros ext history x.
  apply (acquisition_at_std_zero ext history tt x 0.01). reflexivity.
Defined.

(** C3 as stated fails for [upper_confidence_bound]: with a posterior mean
    of 1 and a standard deviation of 0 it returns 1. *)
Lemma upper_confidence_bound_std_zero_counterexample :
  ~ zero_at_std_zero (sample_ext true ∅ []) one_entry tt [VFloat 1; VFloat 0] 0.01.
Proof.
  unfold zero_at_std_zero. intros H. destruct (H eq_refl) as [Hucb _].
  unfold upper_confidence_bound in Hucb. simpl in Hucb.
  injection Hucb as Hucb. lra.
Qed.

(** ** Reasoning about methods *)

Lemma bind_ok {A B} (m : M A) (k : A -> M B) (s s1 : State) (a : A) :
  m s = (Ok a, s1) -> bind m k s = k a s1.
Proof. intros H. unfold bind. by rewrite H. Qed.

Lemma bind_raise {A B} (m : M A) (k : A -> M B) (s s1 : State) (e : PyError) :
  m s = (Raise e, s1) -> bind m k s = (Raise e, s1).
Proof. intros H. unfold bind. by rewrite H. Qed.

Lemma bind_inv {A B} (m : M A) (k : A -> M B) (s s' : State) (r : result B) :
  bind m k s = (r, s') ->
  (exists a s1, m s = (Ok a, s1) /\ k a s1 = (r, s'))
  \/ (exists e, m s = (Raise e, s') /\ r = Raise e).
Proof.
  unfold bind. destruct (m s) as [[a|e] s1]; intros H.
  - left. by exists a, s1.
  - right. exists e. by injection H as <- <-.
Qed.

Lemma bind_emit {B} (e : Event) (k : unit -> M B) (s : State) :
  bind (emit e) k s = k tt (snd (emit e s)).
Proof. reflexivity. Qed.

Lemma bind_set_success {B} (b : bool) (k : unit -> M B) (s : State) :
  bind (set_success b) k s = k tt (snd (set_success b s)).
Proof. reflexivity. Qed.

Lemma bind_get_history {B} (k : list (R * gmap string Value) -> M B) (s : State) :
  bind get_history k s = k (hyperparam_history s) s.
Proof. reflexivity. Qed.

Lemma bind_lift_ok {A B} (a : A) (k : A -> M B) (s : State) :
  bind (lift (Ok a)) k s = k a s.
Proof. reflexivity. Qed.

Lemma bind_ret {A B} (a : A) (k : A -> M B) (s : State) :
  bind (ret a) k s = k a s.
Proof. reflexivity. Qed.

Lemma lift_inv {A} (r0 r : result A) (s s' : State) :
  lift r0 s = (r, s') -> r = r0 /\ s' = s.
Proof. unfold lift. by intros [= <- <-]. Qed.

(** ** The test of the arguments of [fit] *)

(** C2. [fit] raises [MissingValueException] when exactly one of [X_test]
    and [y_test] is [None], and an exception about the conflicting
    configuration when both are given together with [n_folds]; in both cases
    nothing has happened yet (the state, and with it the trace of model
    evaluations, is unchanged).  When both are [None] the test passes and
    the run proceeds with the training data in the place of the test data. *)
Theorem fit_checks_test_data (ext : Collaborators) (self : BayesianOptimizer)
    (X_train y_train : ndarray ext) (X_test y_test : option (ndarray ext))
    (n_iters : Z) (n_folds : option Z) (s : State) :
  ((X_test = None /\ y_test <> None) \/ (X_test <> None /\ y_test = None) ->
   fit ext self X_train y_train X_test y_test n_iters n_folds s
   = (Raise (MissingValueException "Need to provide 'X_test' and 'y_test'"), s))
  /\ (X_test <> None -> y_test <> None -> n_folds <> None ->
      fit ext self X_train y_train X_test y_test n_iters n_folds s
      = (Raise (PyException "Provide either 'X_test' and 'y_test' or 'n_folds'"), s))
  /\ (X_test = None -> y_test = None ->
      check_test_data ext X_train y_train X_test y_test n_folds = Ok (X_train, y_train)
      /\ fit ext self X_train y_train X_test y_test n_iters n_folds s
         = (set_non_convergence_count 0 ;;;
            fit_loop ext self X_train y_train X_train y_train n_folds
              (seq 0 (Z.to_nat n_iters)) ;;;
            history <- get_history ;;
            ret (get_best_params_and_model ext history))%M s).
Proof.
  split; [|split].
  - intros [[-> Hy]|[Hx ->]]; unfold fit; apply bind_raise; unfold lift.
    + by destruct y_test.
    + by destruct X_test.
  - intros Hx Hy Hn. unfold fit. apply bind_raise. unfold lift.
    by destruct X_test, y_test, n_folds.
  - intros -> ->. split; reflexivity.
Qed.

Lemma fit_checks_test_data_witness :
  let ext := sample_ext true ∅ [] in
  let self := sample_optimizer [continuous_param "a" 0 10] None 2 in
  fit ext self [] [] None (Some []) 10 None initial_state
  = (Raise (MissingValueException "Need to provide 'X_test' and 'y_test'"), initial_state)
  /\ fit ext self [] [] (Some []) (Some []) 10 (Some 3%Z) initial_state
     = (Raise (PyException "Provide either 'X_test' and 'y_test' or 'n_folds'"),
        initial_state)
  /\ check_test_data ext [] [] None None (Some 3%Z) = Ok ([], []).
Proof.
  intros ext self. split; [|split].
  - apply (fit_checks_test_data ext self [] [] None (Some []) 10 None initial_state).
    left. split; [reflexivity | discriminate].
  - apply (fit_checks_test_data ext self [] [] (Some []) (Some []) 10 (Some 3%Z)
             initial_state); discriminate.
  - apply (fit_checks_test_data ext self [] [] None None 10 (Some 3%Z) initial_state);
      reflexivity.
Defined.

(** ** Normalisation *)

(** [_normalize_params] raises [TypeError] on every input: its second
    statement indexes the list [self.hyperparams] by a boolean array. *)
Lemma normalize_params_raises (self : BayesianOptimizer) (x : list (list Value)) :
  _normalize_params self x = Raise TypeError.
Proof. reflexivity. Qed.

(** Whatever the indexing of the second statement yields, the last
    statement raises: [ranges] is a Python list, which is neither compared
    with 0 nor indexed by a tuple. *)
Lemma normalize_selected_raises (self : BayesianOptimizer) (numeric_idxs : list bool)
    (selected : list Param) (x : list (list Value)) :
  exists e, normalize_selected self numeric_idxs selected x = Raise e.
Proof.
  unfold normalize_selected. destruct (np_isub_rows _ _ _) as [x'|e]; simpl; by eexists.
Qed.

(** C7, at the input of the claim: one continuous parameter with lower = 0
    and upper = 10, and the point 5.  The specified normalisation gives 0
    for that coordinate; [_normalize_params] raises [TypeError], and so does
    [fit] with [normalize=True] in its second iteration, after one entry
    has been recorded. *)
Theorem normalize_params_example :
  let self :=
    {| hyperparams := [continuous_param "a" 0 10]; start_vals := None;
       acquisition_function := "expected_improvement"; n_restarts_optimizer := 10;
       normalize := true; exploration_control := 0.01; model_module := "sklearn" |} in
  normalize_as_specified (hyperparams self) [[VFloat 5]] = Ok [[VFloat 0]]
  /\ _normalize_params self [[VFloat 5]] = Raise TypeError
  /\ exists s',
       fit (sample_ext true ∅ [VFloat 5]) self [] [] None None 2 None initial_state
       = (Raise TypeError, s')
       /\ length (hyperparam_history s') = 1.
Proof.
  intros self. split; [|split; [reflexivity|]].
  - unfold normalize_as_specified, normalize_coordinate. simpl.
    destruct (Rlt_dec 0 (10 - 0)) as [_|H]; [|lra].
    unfold np_truediv. rewrite np_div_nonzero by lra. simpl.
    do 4 f_equal. lra.
  - eexists. split; reflexivity.
Qed.

(** ** What a method leaves unchanged *)

#[local] Instance rng_only_preorder : PreOrder rng_only.
Proof.
  split.
  - by intros s.
  - intros s1 s2 s3 (H1 & H2 & H3 & H4) (H1' & H2' & H3' & H4').
    unfold rng_only. by rewrite H1', H2', H3', H4'.
Qed.

#[local] Instance quiet_preorder : PreOrder quiet.
Proof.
  split.
  - intros s. split; [done|]. exists []. by rewrite app_nil_r.
  - intros s1 s2 s3 [H1 [e1 H1']] [H2 [e2 H2']]. split; [congruence|].
    exists (e1 ++ e2). by rewrite H2', H1', app_assoc.
Qed.

#[local] Instance extends_preorder : PreOrder extends.
Proof.
  split.
  - intros s. split; exists []; by rewrite app_nil_r.
  - intros s1 s2 s3 [[n1 H1] [e1 H1']] [[n2 H2] [e2 H2']]. split.
    + exists (n1 ++ n2). by rewrite H2, H1, app_assoc.
    + exists (e1 ++ e2). by rewrite H2', H1', app_assoc.
Qed.

Lemma rng_only_quiet (s s' : State) : rng_only s s' -> quiet s s'.
Proof.
  intros (H & _ & _ & Ht). split; [done|]. exists []. by rewrite app_nil_r.
Qed.

Lemma quiet_extends (s s' : State) : quiet s s' -> extends s s'.
Proof. intros [H Ht]. split; [|done]. exists []. by rewrite app_nil_r. Qed.

Section Respects.

Context (rel : State -> State -> Prop) `{!PreOrder rel}.

Lemma respects_ret {A} (a : A) : respects rel (ret a).
Proof. intros s r s' [= <- <-]. reflexivity. Qed.

Lemma respects_raise {A} (e : PyError) : respects rel (@raise A e).
Proof. intros s r s' [= <- <-]. reflexivity. Qed.

Lemma respects_lift {A} (r0 : result A) : respects rel (lift r0).
Proof. intros s r s' [= <- <-]. reflexivity. Qed.

Lemma respects_get_history : respects rel get_history.
Proof. intros s r s' [= <- <-]. reflexivity. Qed.

Lemma respects_bind {A B} (m : M A) (k : A -> M B) :
  respects rel m -> (forall a, respects rel (k a)) -> respects rel (bind m k).
Proof.
  intros Hm Hk s r s' H. apply bind_inv in H as [(a & s1 & H1 & H2)|(e & H1 & _)].
  - transitivity s1; [by eapply Hm | by eapply Hk].
  - by eapply Hm.
Qed.

End Respects.

Lemma respects_weaken (rel rel' : State -> State -> Prop) {A} (m : M A) :
  (forall s s', rel s s' -> rel' s s') -> respects rel m -> respects rel' m.
Proof. intros Hw Hm s r s' H. eapply Hw, Hm, H. Qed.

Lemma random_draw_rng_only {A} (f : nat -> A) : respects rng_only (random_draw f).
Proof. by intros s r s' [= <- <-]. Qed.

Lemma emit_quiet (e : Event) : respects quiet (emit e).
Proof. intros s r s' [= <- <-]. split; [done|]. by exists [e]. Qed.

Lemma set_success_quiet (b : bool) : respects quiet (set_success b).
Proof.
  intros s r s' [= <- <-]. split; [done|]. exists []. simpl. by rewrite app_nil_r.
Qed.

Lemma incr_quiet : respects quiet incr_non_convergence_count.
Proof.
  intros s r s' [= <- <-]. split; [done|]. exists []. simpl. by rewrite app_nil_r.
Qed.

Lemma set_count_quiet (n : Z) : respects quiet (set_non_convergence_count n).
Proof.
  intros s r s' [= <- <-]. split; [done|]. exists []. simpl. by rewrite app_nil_r.
Qed.

Lemma append_history_extends (entry : R * gmap string Value) :
  respects extends (append_history entry).
Proof.
  intros s r s' [= <- <-]. split; [by exists [entry]|]. exists []. by rewrite app_nil_r.
Qed.

Section GetNextFacts.

Variable ext : Collaborators.
Variable self : BayesianOptimizer.

Lemma run_anneal_rng_only (optimizer : GP ext) :
  respects rng_only (run_anneal ext self optimizer).
Proof.
  unfold run_anneal. apply respects_bind; [apply _ | apply respects_get_history, _ |].
  intros h. apply random_draw_rng_only.
Qed.

Lemma optimize_categorical_problem_rng_only (optimizer : GP ext) start :
  respects rng_only (optimize_categorical_problem ext self optimizer start).
Proof.
  unfold optimize_categorical_problem.
  apply respects_bind; [apply _ | |].
  - destruct (decide _).
    + apply respects_bind; [apply _ | apply run_anneal_rng_only |].
      intros p. apply respects_ret, _.
    + apply respects_bind; [apply _ | apply respects_get_history, _ |].
      intros h. apply respects_bind; [apply _ | apply respects_lift, _ |].
      intros d. apply respects_ret, _.
  - intros p. apply respects_bind; [apply _ | apply respects_lift, _ |].
    intros x. apply respects_ret, _.
Qed.

Lemma optimize_mixed_problem_rng_only (optimizer : GP ext) start :
  respects rng_only (optimize_mixed_problem ext self optimizer start).
Proof.
  unfold optimize_mixed_problem.
  apply respects_bind; [apply _ | apply run_anneal_rng_only |].
  intros p. apply respects_bind; [apply _ | apply respects_lift, _ |].
  intros x. apply respects_ret, _.
Qed.

Lemma draw_start_vals_rng_only : respects rng_only (draw_start_vals ext self).
Proof.
  unfold draw_start_vals. destruct (start_vals self).
  - apply respects_lift, _.
  - apply random_draw_rng_only.
Qed.

Lemma maximize_rng_only (optimizer : GP ext) start :
  respects rng_only (maximize ext self optimizer start).
Proof.
  unfold maximize. repeat destruct (decide _).
  - apply respects_bind; [apply _ | apply respects_get_history, _ |].
    intros h. apply respects_lift, _.
  - apply optimize_categorical_problem_rng_only.
  - apply optimize_mixed_problem_rng_only.
Qed.

End GetNextFacts.

(** ** The fallback of [get_next_hyperparameters] *)

Section Fallback.

Variable ext : Collaborators.
Variable self : BayesianOptimizer.

Lemma draw_start_vals_nonempty (s s1 : State) (sv : list (list Value)) :
  (forall k, get_random_values_arr ext k <> []) ->
  draw_start_vals ext self s = (Ok sv, s1) -> sv <> [].
Proof.
  intros Hrows. unfold draw_start_vals. destruct (start_vals self) as [d|].
  - unfold lift, get_default_values_arr.
    destruct (_param_dict_to_arr (hyperparams self) d); simpl; [|done].
    by intros [= <- _].
  - unfold random_draw. intros [= <- _]. apply Hrows.
Qed.

Lemma restart_loop_zero (optimizer : GP ext) (start : option (list (list Value)))
    (s : State) :
  exists s',
    restart_loop ext self optimizer 0 start s
    = (fallback_result (hyperparams self) start, s')
    /\ trace s' = trace s ++ [EvWarning non_convergence_warning]
    /\ non_convergence_count s' = (non_convergence_count s + 1)%Z
    /\ success s' = Some false
    /\ hyperparam_history s' = hyperparam_history s.
Proof.
  eexists. split.
  - simpl. unfold bind. simpl. destruct start as [sv|]; [|reflexivity].
    unfold lift, fallback_result. destruct (row0 sv); reflexivity.
  - done.
Qed.

Lemma restart_loop_all_fail (optimizer : GP ext) (n : nat) :
  forall (start : option (list (list Value))) (s : State),
    all_attempts_fail ext self optimizer n s ->
    exists starts s',
      restart_loop ext self optimizer n start s
      = (fallback_result (hyperparams self) (last_start start starts), s')
      /\ length starts = n
      /\ Forall (fun sv => exists s0 s1, draw_start_vals ext self s0 = (Ok sv, s1)) starts
      /\ trace s' = trace s ++ map EvMaximize starts ++ [EvWarning non_convergence_warning]
      /\ non_convergence_count s' = (non_convergence_count s + 1)%Z
      /\ success s' = Some false
      /\ hyperparam_history s' = hyperparam_history s.
Proof.
  induction n as [|n IH]; intros start s Hfail.
  - destruct (restart_loop_zero optimizer start s) as (s' & H & Ht & Hc & Hs & Hh).
    exists [], s'. by repeat split.
  - destruct Hfail as (sv & s1 & m & s2 & Hdraw & Hmax & Hm & Hrest).
    destruct (IH (Some sv) _ Hrest) as (starts & s' & H & Hlen & Hall & Ht & Hc & Hs & Hh).
    exists (sv :: starts), s'.
    destruct (draw_start_vals_rng_only ext self _ _ _ Hdraw) as (Hh1 & _ & Hc1 & Ht1).
    destruct (maximize_rng_only ext self _ _ _ _ _ Hmax) as (Hh2 & _ & Hc2 & Ht2).
    simpl in Hh2, Hc2, Ht2.
    repeat split.
    + cbn [restart_loop]. rewrite (bind_ok _ _ _ _ _ Hdraw), bind_emit.
      rewrite (bind_ok _ _ _ _ _ Hmax), bind_set_success, Hm, H.
      do 2 f_equal. unfold last_start. rewrite last_cons. by destruct (last starts).
    + simpl. by rewrite Hlen.
    + constructor; [by exists s, s1 | done].
    + rewrite Ht. simpl. rewrite Ht2, Ht1. by rewrite <- app_assoc.
    + rewrite Hc. simpl. by rewrite Hc2, Hc1.
    + done.
    + rewrite Hh. simpl. by rewrite Hh2, Hh1.
Qed.

Lemma fit_and_score_model_effect (params : gmap string Value)
    (X_train y_train X_test y_test : ndarray ext) (n_folds : option Z)
    (s s' : State) (r : result R) :
  _fit_and_score_model ext self params X_train y_train X_test y_test n_folds s = (r, s') ->
  s' = snd (emit (EvEvaluate params) s).
Proof.
  unfold _fit_and_score_model, bind. simpl. unfold lift. by intros [= _ <-].
Qed.

(** The iteration once the surrogate is refitted: propose, evaluate, record. *)
Lemma fit_iteration_later (X_train y_train X_test y_test : ndarray ext)
    (n_folds : option Z) (i : nat) (s0 : State) (xs : list (list Value)) :
  0 < i ->
  normalize self = false ->
  map_result (_param_dict_to_arr (hyperparams self)) (map snd (hyperparam_history s0))
  = Ok xs ->
  fit_iteration ext self X_train y_train X_test y_test n_folds i s0
  = (new_hyperparams <-
       get_next_hyperparameters ext self
         (gp_fit ext xs (map fst (hyperparam_history s0))) ;;
     score <- _fit_and_score_model ext self new_hyperparams
                X_train y_train X_test y_test n_folds ;;
     append_history (score, new_hyperparams))%M
      (snd (emit (EvSurrogateFit xs (map fst (hyperparam_history s0))) s0)).
Proof.
  intros Hi Hnorm Hxs. unfold fit_iteration.
  rewrite decide_True by done. rewrite Hnorm.
  unfold bind at 1. rewrite bind_get_history, Hxs, bind_lift_ok, bind_ret, bind_emit.
  reflexivity.
Qed.

End Fallback.

(** ** The proposal of a successful attempt *)

Lemma py_round_nearest (r : R) : (Rabs (IZR (py_round r) - r) <= / 2)%R.
Proof.
  unfold py_round. destruct (base_Int_part r) as [Hlo Hhi].
  apply Rabs_le.
  destruct (Rlt_dec (r - IZR (Int_part r)) (/ 2)) as [H1|H1]; [lra|].
  destruct (Rlt_dec (/ 2) (r - IZR (Int_part r))) as [H2|H2].
  - rewrite plus_IZR. lra.
  - destruct (Z.even (Int_part r)); [lra|]. rewrite plus_IZR. lra.
Qed.

Section Proposal.

Variable ext : Collaborators.
Variable self : BayesianOptimizer.

Lemma new_params_loop_not_in (hps : list Param) (x : list Value)
    (acc r : gmap string Value) (k : string) :
  new_params_loop ext hps x acc = Ok r -> k ∉ map name hps -> r !! k = acc !! k.
Proof.
  revert x acc. induction hps as [|hp hps IH]; intros x acc H Hk.
  - simpl in H. by injection H as <-.
  - destruct x as [|v x]; [simpl in H; by injection H as <-|].
    simpl in H. assert (Hne : name hp <> k) by set_solver.
    assert (Hk' : k ∉ map name hps) by set_solver.
    repeat destruct (decide _).
    + destruct (int_round v) as [n|]; [|done]. simpl in H.
      rewrite (IH _ _ H Hk'). by apply lookup_insert_ne.
    + rewrite (IH _ _ H Hk'). by apply lookup_insert_ne.
    + rewrite (IH _ _ H Hk'). by apply lookup_insert_ne.
Qed.

Lemma new_params_loop_lookup (hps : list Param) (x : list Value)
    (acc r : gmap string Value) :
  NoDup (map name hps) ->
  new_params_loop ext hps x acc = Ok r ->
  forall i hp v,
    hps !! i = Some hp -> x !! i = Some v ->
    r !! name hp
    = Some (if decide (param_type hp = "integer") then
              match int_round v with Ok n => VInt n | Raise _ => v end
            else if decide (param_type hp = "categorical") then VStr (py_str ext v)
            else v)
    /\ (param_type hp = "integer" -> exists n, int_round v = Ok n).
Proof.
  revert x acc. induction hps as [|hp0 hps IH]; intros x acc Hnd H i hp v Hi Hv; [done|].
  destruct x as [|v0 x]; [done|].
  apply NoDup_cons in Hnd as [Hhp0 Hnd]. simpl in H.
  destruct i as [|i].
  - injection Hi as <-. injection Hv as <-.
    repeat destruct (decide _).
    + destruct (int_round v0) as [n|]; [|done]. simpl in H.
      rewrite (new_params_loop_not_in _ _ _ _ _ H Hhp0), lookup_insert_eq. eauto.
    + rewrite (new_params_loop_not_in _ _ _ _ _ H Hhp0), lookup_insert_eq. done.
    + rewrite (new_params_loop_not_in _ _ _ _ _ H Hhp0), lookup_insert_eq. done.
  - simpl in Hi, Hv.
    repeat destruct (decide (param_type hp0 = _)).
    + destruct (int_round v0) as [n|]; [|done]. simpl in H. by eapply IH.
    + by eapply IH.
    + by eapply IH.
Qed.

(** A proposal that is returned with [self.success] set comes from an
    attempt that succeeded. *)
Lemma restart_loop_success_inv (optimizer : GP ext) (n : nat) :
  forall (start : option (list (list Value))) (s s' : State)
         (proposal : gmap string Value),
    restart_loop ext self optimizer n start s = (Ok proposal, s') ->
    success s' = Some true ->
    exists sv s1 m s2,
      maximize ext self optimizer sv s1 = (Ok m, s2)
      /\ m_success m = true
      /\ new_params_loop ext (hyperparams self) (m_x m) ∅ = Ok proposal.
Proof.
  induction n as [|n IH]; intros start s s' proposal H Hs.
  - destruct (restart_loop_zero ext self optimizer start s) as (s0 & H0 & _ & _ & Hs0 & _).
    rewrite H0 in H. injection H as _ <-. congruence.
  - cbn [restart_loop] in H.
    apply bind_inv in H as [(sv & s1 & Hdraw & H)|(e & _ & He)]; [|done].
    rewrite bind_emit in H.
    apply bind_inv in H as [(m & s2 & Hmax & H)|(e & _ & He)]; [|done].
    rewrite bind_set_success in H.
    destruct (m_success m) eqn:Hm.
    + apply lift_inv in H as [H _]. by eexists sv, _, m, s2.
    + by eapply IH.
Qed.

End Proposal.

(** C4, amended.  When an attempt of [get_next_hyperparameters] succeeds,
    the proposal maps the name of each hyperparameter (names being pairwise
    distinct) to: the nearest integer of the value ([int(round(v))]) for an
    integer parameter; the value converted by [str] for a categorical
    parameter, whatever the type of the parameter's declared values, hence
    the value itself when it is a string already; and the value unchanged
    for any other parameter. *)
Theorem successful_proposal (ext : Collaborators) (self : BayesianOptimizer)
    (optimizer : GP ext) (s s' : State) (proposal : gmap string Value) :
  NoDup (map name (hyperparams self)) ->
  get_next_hyperparameters ext self optimizer s = (Ok proposal, s') ->
  success s' = Some true ->
  exists sv s1 m s2,
    maximize ext self optimizer sv s1 = (Ok m, s2)
    /\ m_success m = true
    /\ forall i hp v,
         hyperparams self !! i = Some hp -> m_x m !! i = Some v ->
         (param_type hp = "integer" ->
          exists n,
            proposal !! name hp = Some (VInt n)
            /\ int_round v = Ok n
            /\ (forall r, v = VFloat r -> (Rabs (IZR n - r) <= / 2)%R)
            /\ (forall z, v = VInt z -> n = z))
         /\ (param_type hp = "categorical" ->
             proposal !! name hp = Some (VStr (py_str ext v))
             /\ (forall str, v = VStr str -> proposal !! name hp = Some v))
         /\ (param_type hp <> "integer" -> param_type hp <> "categorical" ->
             proposal !! name hp = Some v).
Proof.
  intros Hnd H Hs.
  destruct (restart_loop_success_inv ext self optimizer _ _ _ _ _ H Hs)
    as (sv & s1 & m & s2 & Hmax & Hm & Hloop).
  exists sv, s1, m, s2. split; [done|]. split; [done|].
  intros i hp v Hi Hv.
  destruct (new_params_loop_lookup ext _ _ _ _ Hnd Hloop i hp v Hi Hv) as [Hl Hint].
  split; [|split].
  - intros Ht. destruct (Hint Ht) as [n Hn]. exists n.
    rewrite Hl, decide_True, Hn by done. split; [done|]. split; [done|]. split.
    + intros r ->. injection Hn as <-. apply py_round_nearest.
    + intros z ->. by injection Hn as <-.
  - intros Ht. rewrite Hl, decide_False, decide_True by (done || congruence).
    split; [done|]. by intros str ->.
  - intros Hni Hnc. by rewrite Hl, !decide_False.
Qed.

Lemma mixed_run :
  exists s',
    get_next_hyperparameters mixed_ext mixed_optimizer tt initial_state
    = (Ok (<["n" := VFloat 0]> (<["c" := VStr "1"]> ∅)), s')
    /\ success s' = Some true.
Proof. eexists. split; reflexivity. Qed.

Lemma successful_proposal_witness :
  exists s' sv s1 m s2,
    success s' = Some true
    /\ maximize mixed_ext mixed_optimizer tt sv s1 = (Ok m, s2)
    /\ m_success m = true
    /\ forall i hp v,
         hyperparams mixed_optimizer !! i = Some hp -> m_x m !! i = Some v ->
         param_type hp = "categorical" ->
         (<["n" := VFloat 0]> (<["c" := VStr "1"]> ∅) : gmap string Value) !! name hp
         = Some (VStr (py_str mixed_ext v)).
Proof.
  destruct mixed_run as (s' & Hrun & Hs).
  destruct (successful_proposal mixed_ext mixed_optimizer tt initial_state s' _
              ltac:(repeat constructor; set_solver) Hrun Hs)
    as (sv & s1 & m & s2 & Hmax & Hm & Hall).
  exists s', sv, s1, m, s2. repeat split; try done.
  intros i hp v Hi Hv Hc. by apply (Hall i hp v Hi Hv).
Defined.

(** C4 as stated fails for a categorical parameter whose declared values
    are integers: the annealer proposes the declared value 1 and the
    proposal holds the string "1". *)
Lemma categorical_str_counterexample :
  ~ categorical_cast_to_declared_type mixed_ext mixed_optimizer.
Proof.
  intros H. destruct mixed_run as (s' & Hrun & Hs).
  specialize (H tt _ _ _ Hrun Hs (categorical_param "c" [VInt 1; VInt 2]) TInt
                (VStr "1")).
  discriminate H.
  - set_solver.
  - reflexivity.
  - reflexivity.
  - reflexivity.
Qed.

(** ** Restarts when start values are supplied *)

Section DefaultStart.

Variable ext : Collaborators.
Variable self : BayesianOptimizer.
Variable d : gmap string Value.
Hypothesis Hstart : start_vals self = Some d.

Lemma draw_start_vals_default (s : State) :
  draw_start_vals ext self s = (get_default_values_arr (hyperparams self) d, s).
Proof. unfold draw_start_vals. by rewrite Hstart. Qed.

Local Ltac starts_done :=
  repeat split;
  first [ done | by left | by right | simpl; lia
        | by repeat constructor | by constructor | idtac ].

Lemma restart_loop_default_starts (optimizer : GP ext) (n : nat) :
  forall (start : option (list (list Value))) (s s' : State)
         (r : result (gmap string Value)),
    restart_loop ext self optimizer n start s = (r, s') ->
    exists starts tail,
      trace s' = trace s ++ map EvMaximize starts ++ tail
      /\ (tail = [] \/ tail = [EvWarning non_convergence_warning])
      /\ length starts <= n
      /\ Forall (fun sv => get_default_values_arr (hyperparams self) d = Ok sv) starts.
Proof.
  induction n as [|n IH]; intros start s s' r H.
  - destruct (restart_loop_zero ext self optimizer start s) as (s0 & H0 & Ht & _).
    rewrite H0 in H. injection H as _ <-.
    exists [], [EvWarning non_convergence_warning]. starts_done.
  - cbn [restart_loop] in H.
    apply bind_inv in H as [(sv & s1 & Hdraw & H)|(e & Hdraw & _)].
    2: { rewrite draw_start_vals_default in Hdraw. injection Hdraw as _ <-.
         exists [], []. rewrite app_nil_r. starts_done. }
    rewrite draw_start_vals_default in Hdraw. injection Hdraw as Hsv <-.
    rewrite bind_emit in H.
    apply bind_inv in H as [(m & s2 & Hmax & H)|(e & Hmax & _)].
    2: { destruct (maximize_rng_only ext self _ _ _ _ _ Hmax) as (_ & _ & _ & Ht).
         exists [sv], []. rewrite Ht. simpl. starts_done. }
    destruct (maximize_rng_only ext self _ _ _ _ _ Hmax) as (_ & _ & _ & Ht).
    rewrite bind_set_success in H. destruct (m_success m).
    + apply lift_inv in H as [_ ->].
      exists [sv], []. simpl. rewrite Ht. simpl. starts_done.
    + apply IH in H as (starts & tail & Ht' & Htail & Hlen & Hall).
      exists (sv :: starts), tail. rewrite Ht'. simpl. rewrite Ht. simpl.
      rewrite <- app_assoc. starts_done.
Qed.

End DefaultStart.

(** C10. When [start_vals] was supplied at construction, each restart
    attempt of [get_next_hyperparameters] takes its start vector from
    [get_default_values_arr] and draws nothing from the random generator:
    the start vectors of all the attempts of one call are the same. *)
Theorem restarts_share_default_start (ext : Collaborators) (self : BayesianOptimizer)
    (d : gmap string Value) (optimizer : GP ext) (s s' : State)
    (r : result (gmap string Value)) :
  start_vals self = Some d ->
  get_next_hyperparameters ext self optimizer s = (r, s') ->
  (forall s0,
     draw_start_vals ext self s0 = (get_default_values_arr (hyperparams self) d, s0))
  /\ exists starts tail,
       trace s' = trace s ++ map EvMaximize starts ++ tail
       /\ (tail = [] \/ tail = [EvWarning non_convergence_warning])
       /\ length starts <= Z.to_nat (n_restarts_optimizer self)
       /\ Forall (fun sv => get_default_values_arr (hyperparams self) d = Ok sv) starts
       /\ forall sv1 sv2, sv1 ∈ starts -> sv2 ∈ starts -> sv1 = sv2.
Proof.
  intros Hstart H. split; [intros s0; by apply draw_start_vals_default|].
  destruct (restart_loop_default_starts ext self d Hstart optimizer _ _ _ _ _ H)
    as (starts & tail & Ht & Htail & Hlen & Hall).
  exists starts, tail. repeat split; try done.
  intros sv1 sv2 H1 H2. rewrite Forall_forall in Hall.
  pose proof (Hall _ H1) as E1. pose proof (Hall _ H2) as E2. congruence.
Qed.

(** ** The categorical problem *)

Lemma argmax_None {A} (l : list (A * R)) : argmax l = None -> l = [].
Proof.
  destruct l as [|[a v] l]; [done|]. simpl.
  destruct (argmax l) as [[b w]|]; [|done]. by destruct (Rlt_dec v w).
Qed.

Lemma argmax_Some {A} (l : list (A * R)) (a : A) (v : R) :
  argmax l = Some (a, v) ->
  (a, v) ∈ l /\ forall b w, (b, w) ∈ l -> (w <= v)%R.
Proof.
  revert a v. induction l as [|[a0 v0] l IH]; intros a v H; [done|].
  simpl in H. destruct (argmax l) as [[b w]|] eqn:Hl.
  - destruct (IH b w eq_refl) as [Hin Hmax].
    destruct (Rlt_dec v0 w) as [Hlt|Hge]; injection H as <- <-.
    + split; [set_solver|]. intros b' w' [[= -> ->]|Hin']%elem_of_cons; [lra | eauto].
    + split; [set_solver|]. intros b' w' [[= -> ->]|Hin']%elem_of_cons; [lra|].
      specialize (Hmax _ _ Hin'). lra.
  - apply argmax_None in Hl as ->. injection H as <- <-.
    split; [set_solver|]. intros b' w' [[= -> ->]|Hin']%elem_of_cons; [lra | set_solver].
Qed.

Lemma map_result_Forall2 {A B} (f : A -> result B) (l : list A) (ys : list B) :
  map_result f l = Ok ys <-> Forall2 (fun x y => f x = Ok y) l ys.
Proof.
  revert ys. induction l as [|x l IH]; intros ys; simpl.
  - split; [intros [= <-]; constructor | intros H; by inversion H].
  - destruct (f x) as [y|e] eqn:Hx; simpl.
    + destruct (map_result f l) as [ys'|e] eqn:Hl; simpl.
      * split.
        -- intros [= <-]. constructor; [done | by apply IH].
        -- intros H. inversion H as [|? y' ? ys'' Hy Hys]; subst.
           apply IH in Hys. congruence.
      * split; [done|]. intros H. inversion H as [|? y' ? ys'' Hy Hys]; subst.
        apply IH in Hys. congruence.
    + split; [done|]. intros H. inversion H; congruence.
Qed.

Lemma map_result_total {A B} (f : A -> result B) (l : list A) :
  (forall x, x ∈ l -> exists y, f x = Ok y) -> exists ys, map_result f l = Ok ys.
Proof.
  induction l as [|x l IH]; intros H; simpl; [by eexists|].
  destruct (H x) as [y ->]; [set_solver|]. simpl.
  destruct IH as [ys ->]; [intros; apply H; set_solver|]. by eexists.
Qed.

Lemma cartesian_product_length (arrays : list (list Value)) (g : list Value) :
  g ∈ cartesian_product arrays -> length g = length arrays.
Proof.
  revert g. induction arrays as [|a arrays IH]; intros g Hg; simpl in Hg.
  - apply list_elem_of_singleton in Hg as ->. done.
  - apply list_elem_of_In, in_flat_map in Hg as (v & _ & Hg).
    apply in_map_iff in Hg as (g' & <- & Hg'). simpl. f_equal.
    apply IH. by apply list_elem_of_In.
Qed.

Section Categorical.

Variable ext : Collaborators.
Variable self : BayesianOptimizer.

Lemma find_max_spec (history : list (R * gmap string Value)) (optimizer : GP ext)
    (max_vals : gmap string Value) :
  find_max ext self history optimizer = Ok max_vals ->
  exists best v,
    max_vals = _param_arr_to_dict (hyperparams self) best
    /\ best ∈ cartesian_product (param_grid self)
    /\ acquisition ext self history optimizer best = Ok v
    /\ forall g, g ∈ cartesian_product (param_grid self) ->
                 exists w, acquisition ext self history optimizer g = Ok w /\ (w <= v)%R.
Proof.
  unfold find_max.
  destruct (map_result _ _) as [scores|e] eqn:Hscores; simpl; [|done].
  apply map_result_Forall2 in Hscores.
  destruct (argmax _) as [[best v]|] eqn:Hmax; [|done]. intros [= <-].
  apply argmax_Some in Hmax as [Hin Hmax].
  exists best, v. split; [done|].
  apply list_elem_of_lookup in Hin as [i Hi].
  apply lookup_zip_with_Some in Hi as (g & w & [= <- <-] & Hg & Hw).
  split; [by eapply list_elem_of_lookup_2|]. split.
  - by destruct (Forall2_lookup_l _ _ _ _ _ Hscores Hg) as (w' & Hw' & ?); simplify_eq.
  - intros g' [j Hj]%list_elem_of_lookup.
    destruct (Forall2_lookup_l _ _ _ _ _ Hscores Hj) as (w' & Hw' & Hacq).
    exists w'. split; [done|]. apply (Hmax g').
    apply list_elem_of_lookup. exists j. apply lookup_zip_with_Some. eauto.
Qed.

Lemma find_max_total (history : list (R * gmap string Value)) (optimizer : GP ext) :
  cartesian_product (param_grid self) <> [] ->
  (forall g, g ∈ cartesian_product (param_grid self) ->
             exists w, acquisition ext self history optimizer g = Ok w) ->
  exists max_vals, find_max ext self history optimizer = Ok max_vals.
Proof.
  intros Hne Hacq. unfold find_max.
  destruct (map_result_total _ _ Hacq) as [scores Hscores]. rewrite Hscores. simpl.
  destruct (argmax _) as [[best v]|] eqn:Hmax; [by eexists|].
  apply argmax_None in Hmax. apply map_result_Forall2, Forall2_length in Hscores.
  destruct (cartesian_product (param_grid self)), scores; done.
Qed.

Lemma grid_point_round_trip (g : list Value) :
  NoDup (map name (hyperparams self)) ->
  g ∈ cartesian_product (param_grid self) ->
  _param_dict_to_arr (hyperparams self) (_param_arr_to_dict (hyperparams self) g) = Ok g.
Proof.
  intros Hnd Hg. apply (arr_dict_arr (hyperparams self)); [done|].
  apply cartesian_product_length in Hg. unfold param_grid in Hg.
  by rewrite length_map in Hg.
Qed.

End Categorical.

(** C6. [optimize_categorical_problem]: when the grid (the cartesian
    product of the parameters' value sets) has at most 1000 points, the
    acquisition function is evaluated at every grid point and a result
    carries [success = True] and a grid point whose acquisition value no
    other grid point exceeds; when the grid has more than 1000 points the
    annealer is run instead, and [success] is [False] exactly when the
    score returned by the annealer is not a number. *)
Theorem optimize_categorical_problem_spec (ext : Collaborators)
    (self : BayesianOptimizer) (optimizer : GP ext) (start : list (list Value))
    (s : State) :
  let grid := cartesian_product (param_grid self) in
  let acq := acquisition ext self (hyperparam_history s) optimizer in
  (length grid <= 1000 ->
   (forall m s',
      optimize_categorical_problem ext self optimizer start s = (Ok m, s') ->
      s' = s
      /\ m_success m = true
      /\ (forall g, g ∈ grid -> exists w, acq g = Ok w)
      /\ (NoDup (map name (hyperparams self)) ->
          m_x m ∈ grid
          /\ exists v, acq (m_x m) = Ok v
                       /\ forall g, g ∈ grid -> exists w, acq g = Ok w /\ (w <= v)%R))
   /\ (NoDup (map name (hyperparams self)) ->
       grid <> [] ->
       (forall g, g ∈ grid -> exists w, acq g = Ok w) ->
       exists m, optimize_categorical_problem ext self optimizer start s = (Ok m, s)))
  /\ (1000 < length grid ->
      let result := anneal ext self (hyperparam_history s) optimizer (rng s) in
      optimize_categorical_problem ext self optimizer start s
      = lift (x <- _param_dict_to_arr (hyperparams self) (fst result) ;;
              Ok {| m_success := negb (isnan (snd result)); m_x := x |})%py
          (snd (random_draw (anneal ext self (hyperparam_history s) optimizer) s))
      /\ forall m s',
           optimize_categorical_problem ext self optimizer start s = (Ok m, s') ->
           (m_success m = false <-> isnan (snd result) = true)
           /\ _param_dict_to_arr (hyperparams self) (fst result) = Ok (m_x m)
           /\ rng s' = S (rng s)).
Proof.
  intros grid acq. split.
  - intros Hsmall. split.
    + intros m s' H. unfold optimize_categorical_problem in H.
      rewrite decide_False in H by (fold grid; lia).
      unfold bind at 1 in H. rewrite bind_get_history in H.
      destruct (find_max ext self (hyperparam_history s) optimizer)
        as [max_vals|e] eqn:Hmax.
      2: { by rewrite (bind_raise _ _ _ s e) in H. }
      rewrite bind_lift_ok in H. unfold ret at 1 in H. simpl in H.
      destruct (_param_dict_to_arr (hyperparams self) max_vals) as [x|e] eqn:Hx.
      2: { by rewrite (bind_raise _ _ _ s e) in H. }
      rewrite bind_lift_ok in H. injection H as <- <-.
      destruct (find_max_spec ext self _ _ _ Hmax) as (best & v & -> & Hin & Hv & Hall).
      split; [done|]. split; [done|]. split.
      * intros g Hg. destruct (Hall g Hg) as (w & Hw & _). eauto.
      * intros Hnd. simpl. rewrite (grid_point_round_trip self best Hnd Hin) in Hx.
        injection Hx as <-. split; [done|]. exists v. split; [done|]. exact Hall.
    + intros Hnd Hne Hacq. unfold optimize_categorical_problem.
      rewrite decide_False by (fold grid; lia).
      destruct (find_max_total ext self (hyperparam_history s) optimizer Hne Hacq)
        as [max_vals Hmax].
      destruct (find_max_spec ext self _ _ _ Hmax) as (best & v & -> & Hin & _).
      unfold bind at 1. rewrite bind_get_history, Hmax, bind_lift_ok. unfold ret at 1.
      simpl. rewrite (grid_point_round_trip self best Hnd Hin), bind_lift_ok.
      by eexists.
  - intros Hbig result.
    assert (Heq : optimize_categorical_problem ext self optimizer start s
      = lift (x <- _param_dict_to_arr (hyperparams self) (fst result) ;;
              Ok {| m_success := negb (isnan (snd result)); m_x := x |})%py
          (snd (random_draw (anneal ext self (hyperparam_history s) optimizer) s))).
    { unfold optimize_categorical_problem.
      rewrite decide_True by (fold grid; lia).
      unfold bind at 1. unfold bind at 1. unfold run_anneal.
      rewrite bind_get_history. unfold random_draw at 1. unfold ret at 1. simpl.
      fold result. unfold bind, lift. simpl.
      destruct (_param_dict_to_arr (hyperparams self) result.1); simpl; [|done].
      by destruct (isnan result.2). }
    split; [exact Heq|].
    intros m s' H. rewrite Heq in H. unfold lift in H.
    destruct (_param_dict_to_arr (hyperparams self) result.1) as [x|e]; simpl in H; [|done].
    injection H as <- <-. simpl. split; [|done].
    by destruct (isnan result.2).
Qed.

(** ** The loop of [fit] *)

Section Loop.

Variable ext : Collaborators.
Variable self : BayesianOptimizer.

Lemma restart_loop_quiet (optimizer : GP ext) (n : nat) :
  forall start, respects quiet (restart_loop ext self optimizer n start).
Proof.
  induction n as [|n IH]; intros start; cbn [restart_loop].
  - apply respects_bind; [apply _ | apply set_success_quiet |]. intros _.
    apply respects_bind; [apply _ | apply emit_quiet |]. intros _.
    apply respects_bind; [apply _ | apply incr_quiet |]. intros _.
    destruct start as [sv|]; [|apply respects_raise, _].
    apply respects_bind; [apply _ | apply respects_lift, _ |]. intros row.
    apply respects_ret, _.
  - apply respects_bind; [apply _ | |].
    { eapply respects_weaken; [apply rng_only_quiet | apply draw_start_vals_rng_only]. }
    intros sv. apply respects_bind; [apply _ | apply emit_quiet |]. intros _.
    apply respects_bind; [apply _ | |].
    { eapply respects_weaken; [apply rng_only_quiet | apply maximize_rng_only]. }
    intros m. apply respects_bind; [apply _ | apply set_success_quiet |]. intros _.
    destruct (m_success m); [apply respects_lift, _ | apply IH].
Qed.

Lemma get_next_hyperparameters_quiet (optimizer : GP ext) :
  respects quiet (get_next_hyperparameters ext self optimizer).
Proof. apply restart_loop_quiet. Qed.

Lemma fit_and_score_model_quiet params (X_train y_train X_test y_test : ndarray ext)
    n_folds :
  respects quiet
    (_fit_and_score_model ext self params X_train y_train X_test y_test n_folds).
Proof.
  intros s r s' H. apply fit_and_score_model_effect in H as ->.
  split; [done|]. by eexists.
Qed.

(** The proposal of an iteration: from the surrogate for i > 0, the start
    point for i = 0. *)
Lemma proposal_quiet (i : nat) :
  respects quiet
    (if decide (0 < i) then
       history <- get_history ;;
       xs <- lift (map_result (_param_dict_to_arr (hyperparams self)) (map snd history)) ;;
       xs <- (if normalize self then lift (_normalize_params self xs) else ret xs) ;;
       emit (EvSurrogateFit xs (map fst history)) ;;;
       get_next_hyperparameters ext self (gp_fit ext xs (map fst history))
     else
       match start_vals self with
       | None => random_draw (get_random_values_dict ext)
       | Some d => ret (get_default_values_dict d)
       end)%M.
Proof.
  destruct (decide (0 < i)).
  - apply respects_bind; [apply _ | apply respects_get_history, _ |]. intros h.
    apply respects_bind; [apply _ | apply respects_lift, _ |]. intros xs.
    apply respects_bind; [apply _ | |].
    { destruct (normalize self); [apply respects_lift, _ | apply respects_ret, _]. }
    intros xs'. apply respects_bind; [apply _ | apply emit_quiet |]. intros _.
    apply get_next_hyperparameters_quiet.
  - destruct (start_vals self); [apply respects_ret, _|].
    eapply respects_weaken; [apply rng_only_quiet | apply random_draw_rng_only].
Qed.

(** An iteration appends exactly one entry when it completes and none when
    it raises. *)
Lemma fit_iteration_effect (X_train y_train X_test y_test : ndarray ext)
    (n_folds : option Z) (i : nat) (s s' : State) (r : result unit) :
  fit_iteration ext self X_train y_train X_test y_test n_folds i s = (r, s') ->
  (exists evs, trace s' = trace s ++ evs)
  /\ ((r = Ok tt
       /\ exists score params,
            hyperparam_history s' = hyperparam_history s ++ [(score, params)])
      \/ ((exists e, r = Raise e) /\ hyperparam_history s' = hyperparam_history s)).
Proof.
  unfold fit_iteration. intros H.
  apply bind_inv in H as [(p & s1 & Hp & H)|(e & Hp & ->)].
  2: { apply proposal_quiet in Hp as [Hh Ht]. split; [done|]. right. by eauto. }
  apply proposal_quiet in Hp as [Hh1 [e1 Ht1]].
  apply bind_inv in H as [(score & s2 & Hs & H)|(e & Hs & ->)].
  2: { apply fit_and_score_model_quiet in Hs as [Hh2 [e2 Ht2]]. split.
       - exists (e1 ++ e2). by rewrite Ht2, Ht1, app_assoc.
       - right. split; [by eauto | congruence]. }
  apply fit_and_score_model_quiet in Hs as [Hh2 [e2 Ht2]].
  injection H as <- <-. simpl. split.
  - exists (e1 ++ e2). by rewrite Ht2, Ht1, app_assoc.
  - left. split; [done|]. exists score, p. by rewrite Hh2, Hh1.
Qed.

Lemma fit_loop_effect (X_train y_train X_test y_test : ndarray ext)
    (n_folds : option Z) (rounds : list nat) :
  forall (s s' : State) (r : result unit),
    fit_loop ext self X_train y_train X_test y_test n_folds rounds s = (r, s') ->
    (exists evs, trace s' = trace s ++ evs)
    /\ exists new,
         hyperparam_history s' = hyperparam_history s ++ new
         /\ length new <= length rounds
         /\ (r = Ok tt -> length new = length rounds)
         /\ ((exists e, r = Raise e) -> length new < length rounds).
Proof.
  induction rounds as [|i rounds IH]; intros s s' r H.
  - injection H as <- <-. split; [exists []; by rewrite app_nil_r|].
    exists []. rewrite app_nil_r. repeat split; try done. by intros [e He].
  - cbn [fit_loop] in H.
    apply bind_inv in H as [([] & s1 & Hi & H)|(e & Hi & ->)].
    + apply fit_iteration_effect in Hi as [[e1 Ht1] [[_ (score & p & Hh1)]|[[e He] _]]];
        [|done].
      apply IH in H as [[e2 Ht2] (new & Hh2 & Hle & Hok & Herr)]. split.
      * exists (e1 ++ e2). by rewrite Ht2, Ht1, app_assoc.
      * exists ((score, p) :: new). rewrite Hh2, Hh1, <- app_assoc. simpl.
        repeat split; auto with lia. intros He. specialize (Herr He). lia.
    + apply fit_iteration_effect in Hi as [Ht [[Hr _]|[_ Hh]]]; [done|].
      split; [done|]. exists []. rewrite app_nil_r. simpl.
      repeat split; auto with lia. done.
Qed.

End Loop.

(** *** The best score so far *)

Lemma fold_left_Rmax_le (l : list R) (x : R) : (x <= fold_left Rmax l x)%R.
Proof.
  revert x. induction l as [|y l IH]; intros x; simpl; [lra|].
  etransitivity; [apply (Rmax_l x y) | apply IH].
Qed.

Lemma py_max_app (l l' : list R) (b : R) :
  py_max l = Ok b -> py_max (l ++ l') = Ok (fold_left Rmax l' b).
Proof.
  destruct l as [|x l]; [done|]. simpl. intros [= <-]. by rewrite fold_left_app.
Qed.

Lemma best_so_far_monotone (history : list (R * gmap string Value)) (k1 k2 : nat) :
  history <> [] -> 1 <= k1 -> k1 <= k2 ->
  exists b1 b2,
    best_so_far history k1 = Ok b1 /\ best_so_far history k2 = Ok b2 /\ (b1 <= b2)%R.
Proof.
  intros Hne H1 H12. unfold best_so_far.
  destruct (py_max_nonempty (map fst (take k1 history))) as [b1 Hb1].
  { destruct history, k1; simpl; (done || lia). }
  exists b1, (fold_left Rmax (map fst (drop k1 (take k2 history))) b1).
  split; [done|]. split; [|apply fold_left_Rmax_le].
  assert (E : take k2 history = take k1 history ++ drop k1 (take k2 history)).
  { pose proof (take_drop k1 (take k2 history)) as E.
    by rewrite take_take, Nat.min_l in E. }
  rewrite E at 1. rewrite map_app. by apply py_max_app.
Qed.

(** *** When no step raises *)

Lemma dict_of_zip_mono (hps : list Param) (values : list Value)
    (acc : gmap string Value) (k : string) :
  is_Some (acc !! k) -> is_Some (dict_of_zip hps values acc !! k).
Proof.
  revert values acc. induction hps as [|hp hps IH]; intros [|v values] acc H; try done.
  simpl. apply IH. destruct (decide (name hp = k)) as [->|Hne].
  - by rewrite lookup_insert_eq.
  - by rewrite lookup_insert_ne.
Qed.

Lemma dict_of_zip_keys (hps : list Param) (values : list Value)
    (acc : gmap string Value) (hp : Param) :
  length hps <= length values -> hp ∈ hps ->
  is_Some (dict_of_zip hps values acc !! name hp).
Proof.
  revert values acc. induction hps as [|hp0 hps IH]; intros [|v values] acc Hlen Hin;
    simpl in Hlen; try (by inversion Hin); try lia.
  simpl. apply elem_of_cons in Hin as [->|Hin].
  - apply dict_of_zip_mono. by rewrite lookup_insert_eq.
  - apply IH; [lia | done].
Qed.

Section Totality.

Variable ext : Collaborators.
Variable self : BayesianOptimizer.

Lemma new_params_loop_mono (hps : list Param) (x : list Value)
    (acc p : gmap string Value) (k : string) :
  new_params_loop ext hps x acc = Ok p -> is_Some (acc !! k) -> is_Some (p !! k).
Proof.
  revert x acc. induction hps as [|hp hps IH]; intros [|v x] acc H Hk;
    simpl in H; try (by injection H as <-).
  assert (Hins : forall w, is_Some (<[name hp := w]> acc !! k)).
  { intros w. destruct (decide (name hp = k)) as [->|Hne].
    - by rewrite lookup_insert_eq.
    - by rewrite lookup_insert_ne. }
  repeat destruct (decide _).
  - destruct (int_round v) as [n|]; [|done]. simpl in H. by eapply IH.
  - by eapply IH.
  - by eapply IH.
Qed.

Lemma new_params_loop_total (hps : list Param) (x : list Value)
    (acc : gmap string Value) :
  convertible hps x ->
  exists p, new_params_loop ext hps x acc = Ok p
            /\ forall hp, hp ∈ hps -> is_Some (p !! name hp).
Proof.
  revert x acc. induction hps as [|hp hps IH]; intros x acc [Hlen Hint].
  - exists acc. split; [by destruct x|]. intros hp Hhp. by inversion Hhp.
  - destruct x as [|v x]; [simpl in Hlen; lia|].
    assert (Hconv : convertible hps x).
    { split; [simpl in Hlen; lia|]. intros i hp' v' Hi Hv. by apply (Hint (S i)). }
    assert (Hstep : forall w,
              new_params_loop ext hps x (<[name hp := w]> acc) = Ok
                (match new_params_loop ext hps x (<[name hp := w]> acc) with
                 | Ok p => p | Raise _ => acc end)
              /\ forall hp', hp' ∈ hp :: hps ->
                   is_Some ((match new_params_loop ext hps x (<[name hp := w]> acc) with
                             | Ok p => p | Raise _ => acc end) !! name hp')).
    { intros w. destruct (IH x (<[name hp := w]> acc) Hconv) as (p & Hp & Hkeys).
      rewrite Hp. split; [done|]. intros hp' [->|Hin]%elem_of_cons; [|by apply Hkeys].
      eapply new_params_loop_mono; [exact Hp|]. by rewrite lookup_insert_eq. }
    simpl. repeat destruct (decide _).
    + destruct (Hint 0 hp v eq_refl eq_refl) as [n Hn]; [done|]. rewrite Hn. simpl.
      destruct (Hstep (VInt n)) as [E Hk]. eauto.
    + destruct (Hstep (VStr (py_str ext v))) as [E Hk]. eauto.
    + destruct (Hstep v) as [E Hk]. eauto.
Qed.

Lemma score_folds_total (params : gmap string Value) (X_train y_train : ndarray ext)
    (splits : list (indices ext * indices ext)) :
  model_module self <> "xgboost" ->
  forall scores score,
    exists r, score_folds ext self params X_train y_train splits scores score = Ok r
              /\ (splits <> [] \/ is_Some score -> is_Some r).
Proof.
  intros Hmodel.
  induction splits as [|[tr te] splits IH]; intros scores score; simpl.
  - exists score. split; [done|]. by intros [?|?].
  - rewrite decide_False by done. simpl.
    edestruct IH as (r & -> & Hr). exists r. split; [done|]. intros _. apply Hr. by right.
Qed.

Lemma scoring_total (params : gmap string Value)
    (X_train y_train X_test y_test : ndarray ext) (folds : option Z) (s : State) :
  model_module self <> "xgboost" ->
  (forall k, folds = Some k -> get_kfold_split ext k X_train <> []) ->
  exists score,
    _fit_and_score_model ext self params X_train y_train X_test y_test folds s
    = (Ok score, snd (emit (EvEvaluate params) s)).
Proof.
  intros Hmodel Hfolds. unfold _fit_and_score_model. rewrite bind_emit. unfold lift.
  destruct folds as [k|].
  - destruct (score_folds_total params X_train y_train (get_kfold_split ext k X_train)
                Hmodel [] None) as (r & -> & Hr).
    destruct Hr as [v ->]; [left; by apply Hfolds|]. by eexists.
  - rewrite decide_False by done. by eexists.
Qed.

Variable X_train : ndarray ext.
Variable n_folds : option Z.
Hypothesis Hrc : run_conditions ext self X_train n_folds.

Lemma all_names_to_arr (params : gmap string Value) :
  all_names self params ->
  exists arr, _param_dict_to_arr (hyperparams self) params = Ok arr
              /\ length arr = length (hyperparams self).
Proof.
  intros H. destruct (dict_to_arr_keys (hyperparams self) params H) as [arr Harr].
  exists arr. split; [done|].
  apply dict_to_arr_from_Forall2, Forall2_length in Harr. done.
Qed.

Lemma draw_start_vals_total (s : State) :
  exists row rest s1,
    draw_start_vals ext self s = (Ok (row :: rest), s1)
    /\ length (hyperparams self) <= length row
    /\ hyperparam_history s1 = hyperparam_history s.
Proof.
  unfold draw_start_vals. destruct (start_vals self) as [d|] eqn:Hd.
  - destruct (all_names_to_arr d) as (arr & Harr & Hlen).
    { intros hp Hhp. by eapply rc_start_dict. }
    exists arr, [], s. unfold lift, get_default_values_arr. rewrite Harr. simpl.
    split; [done|]. split; [lia | done].
  - destruct (rc_random_arr _ _ _ _ Hrc (rng s)) as (row & rest & Hrow & Hlen).
    exists row, rest. eexists. unfold random_draw. rewrite Hrow. by repeat split.
Qed.

Lemma restart_loop_total (optimizer : GP ext) (n : nat) :
  forall (start : option (list (list Value))) (s : State),
    hyperparam_history s <> [] ->
    (n = 0 -> exists row rest,
                start = Some (row :: rest) /\ length (hyperparams self) <= length row) ->
    exists p s',
      restart_loop ext self optimizer n start s = (Ok p, s') /\ all_names self p.
Proof.
  induction n as [|n IH]; intros start s Hh Hstart.
  - destruct (Hstart eq_refl) as (row & rest & -> & Hlen).
    destruct (restart_loop_zero ext self optimizer (Some (row :: rest)) s)
      as (s' & H & _).
    exists (dict_of_zip (hyperparams self) row ∅), s'. split; [exact H|].
    intros hp Hhp. by apply dict_of_zip_keys.
  - destruct (draw_start_vals_total s) as (row & rest & s1 & Hdraw & Hlen & Hh1).
    destruct (rc_maximize _ _ _ _ Hrc optimizer (row :: rest)
                (snd (emit (EvMaximize (row :: rest)) s1)))
      as (m & s2 & Hmax & Hconv).
    { simpl. congruence. }
    cbn [restart_loop]. rewrite (bind_ok _ _ _ _ _ Hdraw), bind_emit.
    rewrite (bind_ok _ _ _ _ _ Hmax), bind_set_success.
    destruct (m_success m) eqn:Hm.
    + destruct (new_params_loop_total (hyperparams self) (m_x m) ∅ (Hconv eq_refl))
        as (p & Hp & Hkeys).
      exists p. eexists. unfold lift. rewrite Hp. done.
    + apply IH.
      * simpl. destruct (maximize_rng_only ext self _ _ _ _ _ Hmax) as (-> & _).
        simpl. congruence.
      * intros _. by exists row, rest.
Qed.

Lemma get_next_hyperparameters_total (optimizer : GP ext) (s : State) :
  hyperparam_history s <> [] ->
  exists p s', get_next_hyperparameters ext self optimizer s = (Ok p, s') /\ all_names self p.
Proof.
  intros Hh. apply restart_loop_total; [done|].
  pose proof (rc_restarts _ _ _ _ Hrc). lia.
Qed.

Lemma fit_and_score_model_total (params : gmap string Value)
    (y_train X_test y_test : ndarray ext) (s : State) :
  exists score,
    _fit_and_score_model ext self params X_train y_train X_test y_test n_folds s
    = (Ok score, snd (emit (EvEvaluate params) s)).
Proof.
  apply scoring_total; [apply (rc_model _ _ _ _ Hrc) | apply (rc_folds _ _ _ _ Hrc)].
Qed.

Lemma history_to_arrays (s : State) :
  keys_ok self s ->
  exists xs, map_result (_param_dict_to_arr (hyperparams self))
               (map snd (hyperparam_history s)) = Ok xs.
Proof.
  intros Hk. apply map_result_total. intros p [[score p'] [-> Hin]]%list_elem_of_fmap.
  unfold keys_ok in Hk. rewrite Forall_forall in Hk.
  destruct (all_names_to_arr p' (Hk _ Hin)) as (arr & Harr & _). eauto.
Qed.

Lemma start_point_all_names (s : State) : all_names self (start_point ext self s).
Proof.
  intros hp Hhp. unfold start_point. destruct (start_vals self) as [d|] eqn:Hd.
  - by eapply rc_start_dict.
  - by eapply rc_random_dict.
Qed.

Lemma fit_iteration_total (y_train X_test y_test : ndarray ext) (i : nat) (s : State) :
  keys_ok self s ->
  (0 < i -> hyperparam_history s <> []) ->
  exists s',
    fit_iteration ext self X_train y_train X_test y_test n_folds i s = (Ok tt, s')
    /\ keys_ok self s' /\ hyperparam_history s' <> [].
Proof.
  intros Hk Hh.
  assert (Hfinish : forall p s1,
            all_names self p -> hyperparam_history s1 = hyperparam_history s ->
            exists s',
              (score <- _fit_and_score_model ext self p X_train y_train X_test y_test
                          n_folds ;;
               append_history (score, p))%M s1 = (Ok tt, s')
              /\ keys_ok self s' /\ hyperparam_history s' <> []).
  { intros p s1 Hp Hh1.
    destruct (fit_and_score_model_total p y_train X_test y_test s1) as [score Hscore].
    eexists. rewrite (bind_ok _ _ _ _ _ Hscore). split; [reflexivity|]. simpl. split.
    - unfold keys_ok. simpl. rewrite Hh1. apply Forall_app. split; [done|].
      by apply Forall_singleton.
    - by destruct (hyperparam_history s1). }
  destruct (decide (0 < i)) as [Hi|Hi].
  - destruct (history_to_arrays s Hk) as [xs Hxs].
    rewrite (fit_iteration_later ext self _ _ _ _ _ _ _ xs) by
      (done || apply (rc_normalize _ _ _ _ Hrc)).
    destruct (get_next_hyperparameters_total
                (gp_fit ext xs (map fst (hyperparam_history s)))
                (snd (emit (EvSurrogateFit xs (map fst (hyperparam_history s))) s)))
      as (p & s1 & Hget & Hp).
    { simpl. by apply Hh. }
    rewrite (bind_ok _ _ _ _ _ Hget). apply Hfinish; [done|].
    by apply get_next_hyperparameters_quiet in Hget as [-> _].
  - unfold fit_iteration. rewrite decide_False by done.
    pose proof (start_point_all_names s) as Hp. unfold start_point in Hp.
    destruct (start_vals self) as [d|].
    + rewrite bind_ret. by apply Hfinish.
    + unfold bind at 1. unfold random_draw at 1. by apply Hfinish.
Qed.

Lemma fit_loop_total (y_train X_test y_test : ndarray ext) (n : nat) :
  forall (k : nat) (s : State),
    keys_ok self s ->
    (0 < k -> hyperparam_history s <> []) ->
    exists s',
      fit_loop ext self X_train y_train X_test y_test n_folds (seq k n) s = (Ok tt, s').
Proof.
  induction n as [|n IH]; intros k s Hk Hh; [by eexists|].
  destruct (fit_iteration_total y_train X_test y_test k s Hk Hh) as (s1 & Hi & Hk1 & Hh1).
  destruct (IH (S k) s1 Hk1 (fun _ => Hh1)) as [s' Hs'].
  exists s'. simpl. by rewrite (bind_ok _ _ _ _ _ Hi).
Qed.

End Totality.

(** *** The first iteration *)

Section FirstIteration.

Variable ext : Collaborators.
Variable self : BayesianOptimizer.

Lemma fit_iteration_zero_effect (X_train y_train X_test y_test : ndarray ext)
    (n_folds : option Z) (s s' : State) (r : result unit) :
  fit_iteration ext self X_train y_train X_test y_test n_folds 0 s = (r, s') ->
  trace s' = trace s ++ [EvEvaluate (start_point ext self s)]
  /\ (r = Ok tt ->
      exists score,
        hyperparam_history s'
        = hyperparam_history s ++ [(score, start_point ext self s)]).
Proof.
  unfold fit_iteration. rewrite decide_False by lia. intros H.
  assert (Hrest : forall s1,
            trace s1 = trace s -> hyperparam_history s1 = hyperparam_history s ->
            (score <- _fit_and_score_model ext self (start_point ext self s)
                        X_train y_train X_test y_test n_folds ;;
             append_history (score, start_point ext self s))%M s1 = (r, s') ->
            trace s' = trace s ++ [EvEvaluate (start_point ext self s)]
            /\ (r = Ok tt ->
                exists score,
                  hyperparam_history s'
                  = hyperparam_history s ++ [(score, start_point ext self s)])).
  { intros s1 Ht Hh H1.
    apply bind_inv in H1 as [(score & s2 & Hs & H1)|(e & Hs & ->)].
    - apply fit_and_score_model_effect in Hs as ->. injection H1 as <- <-. simpl.
      rewrite Ht, Hh. split; [done|]. intros _. by exists score.
    - apply fit_and_score_model_effect in Hs as ->. simpl. by rewrite Ht. }
  unfold start_point in *. destruct (start_vals self) as [d|].
  - rewrite bind_ret in H. by apply (Hrest s).
  - unfold bind at 1 in H. unfold random_draw at 1 in H. by eapply Hrest; [| |exact H].
Qed.

Lemma fit_loop_first (X_train y_train X_test y_test : ndarray ext)
    (n_folds : option Z) (n : nat) (s s' : State) (r : result unit) :
  fit_loop ext self X_train y_train X_test y_test n_folds (seq 0 (S n)) s = (r, s') ->
  (exists evs, trace s' = trace s ++ EvEvaluate (start_point ext self s) :: evs)
  /\ (r = Ok tt ->
      exists score rest,
        hyperparam_history s'
        = hyperparam_history s ++ (score, start_point ext self s) :: rest).
Proof.
  cbn [seq fit_loop]. intros H.
  apply bind_inv in H as [([] & s1 & Hi & H)|(e & Hi & ->)].
  - apply fit_iteration_zero_effect in Hi as [Ht1 Hh1].
    destruct (Hh1 eq_refl) as [score Hh1'].
    apply fit_loop_effect in H as [[evs Ht2] (new & Hh2 & _)]. split.
    + exists evs. by rewrite Ht2, Ht1, <- app_assoc.
    + intros _. exists score, new. by rewrite Hh2, Hh1', <- app_assoc.
  - apply fit_iteration_zero_effect in Hi as [Ht1 _]. split; [by exists []|done].
Qed.

End FirstIteration.

(** C5. A call to [fit] with [n_iters >= 1] only appends to the history,
    one [(score, params)] entry per completed iteration, and never more
    than [n_iters]; when it returns, exactly [n_iters] entries have been
    appended (so a history that started empty has [n_iters] entries), the
    first of them is the random or default start point, evaluated before
    the surrogate is consulted at all, and the best score over the first k
    entries does not decrease with k.  The call does return when the
    arguments pass the entry test and the collaborators are well behaved. *)
Theorem fit_history_growth (ext : Collaborators) (self : BayesianOptimizer)
    (X_train y_train : ndarray ext) (X_test y_test : option (ndarray ext))
    (n_iters : Z) (n_folds : option Z) (s s' : State)
    (r : result (gmap string Value * Model ext)) :
  (1 <= n_iters)%Z ->
  fit ext self X_train y_train X_test y_test n_iters n_folds s = (r, s') ->
  (exists evs, trace s' = trace s ++ evs)
  /\ (exists new,
        hyperparam_history s' = hyperparam_history s ++ new
        /\ length new <= Z.to_nat n_iters
        /\ (forall best, r = Ok best ->
              length new = Z.to_nat n_iters
              /\ (hyperparam_history s = [] ->
                  length (hyperparam_history s') = Z.to_nat n_iters)
              /\ (exists score evs,
                    new !! 0 = Some (score, start_point ext self s)
                    /\ trace s'
                       = trace s ++ EvEvaluate (start_point ext self s) :: evs)
              /\ forall k1 k2, 1 <= k1 -> k1 <= k2 ->
                   exists b1 b2,
                     best_so_far new k1 = Ok b1 /\ best_so_far new k2 = Ok b2
                     /\ (b1 <= b2)%R))
  /\ (forall testX testY (i : nat) (s1 s2 : State),
        fit_iteration ext self X_train y_train testX testY n_folds i s1 = (Ok tt, s2) ->
        exists score params,
          hyperparam_history s2 = hyperparam_history s1 ++ [(score, params)])
  /\ (hyperparam_history s = [] ->
      (exists test, check_test_data ext X_train y_train X_test y_test n_folds = Ok test) ->
      run_conditions ext self X_train n_folds ->
      exists best, r = Ok best).
Proof.
  intros Hn H.
  assert (Hiter : forall testX testY (i : nat) (s1 s2 : State),
            fit_iteration ext self X_train y_train testX testY n_folds i s1 = (Ok tt, s2) ->
            exists score params,
              hyperparam_history s2 = hyperparam_history s1 ++ [(score, params)]).
  { intros testX testY i s1 s2 Hi.
    by apply fit_iteration_effect in Hi as [_ [[_ ?]|[[e ?] _]]]. }
  unfold fit in H.
  apply bind_inv in H as [(test & s0 & Hcheck & H)|(e & Hcheck & ->)].
  2: { apply lift_inv in Hcheck as [Hcheck ->].
       split; [exists []; by rewrite app_nil_r|]. split.
       - exists []. rewrite app_nil_r. split; [done|]. split; [simpl; lia|].
         by intros best.
       - split; [exact Hiter|]. intros _ [test Htest] _. congruence. }
  apply lift_inv in Hcheck as [Hcheck ->].
  unfold bind at 1 in H. unfold set_non_convergence_count at 1 in H.
  destruct (Z.to_nat n_iters) as [|n] eqn:Hnat; [lia|].
  apply bind_inv in H as [([] & s1 & Hloop & H)|(e & Hloop & ->)].
  - rewrite bind_get_history in H. injection H as <- <-.
    pose proof (fit_loop_first ext self _ _ _ _ _ _ _ _ _ Hloop) as [[evs Ht] Hfirst].
    destruct (Hfirst eq_refl) as (score & rest & Hh).
    apply fit_loop_effect in Hloop as [_ (new & Hh' & Hle & Hok & _)].
    simpl in Ht, Hh, Hh'. rewrite length_seq in Hle, Hok.
    assert (Hnew : new = (score, start_point ext self s) :: rest).
    { rewrite Hh in Hh'. by apply app_inv_head in Hh'. }
    split; [by eexists|]. split.
    + exists new. split; [done|]. split; [done|]. intros best _.
      split; [by apply Hok|]. split.
      { intros Hempty. rewrite Hh', Hempty. simpl. by apply Hok. }
      split.
      { exists score, evs. rewrite Hnew. split; [done|]. exact Ht. }
      intros k1 k2 H1 H12. apply best_so_far_monotone; [by rewrite Hnew | done | done].
    + split; [exact Hiter|]. intros _ _ _. by eexists.
  - pose proof Hloop as Hloop'.
    apply fit_loop_effect in Hloop as [Ht (new & Hh' & Hle & _ & Herr)].
    simpl in Ht, Hh'. rewrite length_seq in Hle.
    split; [done|]. split.
    + exists new. split; [done|]. split; [done|]. by intros best.
    + split; [exact Hiter|]. intros Hempty _ Hrc.
      destruct (fit_loop_total ext self X_train n_folds Hrc y_train test.1 test.2
                  (S n) 0
                  {| hyperparam_history := hyperparam_history s; success := success s;
                     non_convergence_count := 0; rng := rng s; trace := trace s |})
        as [s2 Hs2].
      * unfold keys_ok. simpl. rewrite Hempty. constructor.
      * lia.
      * rewrite Hs2 in Hloop'. done.
Qed.

(** ** Concrete runs *)

Lemma param_dict_arr_round_trip_witness :
  let hps := [continuous_param "a" 0 10; integer_param "b" 1 5] in
  (exists arr,
     _param_dict_to_arr hps (<["a" := VFloat 2]> (<["b" := VInt 3]> ∅)) = Ok arr
     /\ _param_arr_to_dict hps arr = <["a" := VFloat 2]> (<["b" := VInt 3]> ∅))
  /\ _param_dict_to_arr hps (_param_arr_to_dict hps [VFloat 2; VInt 3])
     = Ok [VFloat 2; VInt 3].
Proof.
  intros hps. destruct (param_dict_arr_round_trip hps) as [Hd Ha]. split.
  - destruct (Hd (<["a" := VFloat 2]> (<["b" := VInt 3]> ∅))) as (arr & H1 & H2 & _).
    + set_solver.
    + by exists arr.
  - apply Ha; [repeat constructor; set_solver | reflexivity].
Defined.

(** With no restart at all the [else] branch runs at once and reads the
    local variable [start_vals], which no attempt has assigned. *)
Remark zero_restarts_raise (ext : Collaborators) (self : BayesianOptimizer)
    (optimizer : GP ext) (s : State) :
  (n_restarts_optimizer self <= 0)%Z ->
  exists s',
    get_next_hyperparameters ext self optimizer s
    = (Raise (UnboundLocalError "start_vals"), s')
    /\ trace s' = trace s ++ [EvWarning non_convergence_warning]
    /\ non_convergence_count s' = (non_convergence_count s + 1)%Z.
Proof.
  intros Hn. unfold get_next_hyperparameters.
  replace (Z.to_nat (n_restarts_optimizer self)) with 0 by lia.
  destruct (restart_loop_zero ext self optimizer None s) as (s' & H & Ht & Hc & _).
  by exists s'.
Qed.

Lemma restarts_share_default_start_witness :
  exists r s' starts tail,
    get_next_hyperparameters failing_ext started_optimizer tt later_state = (r, s')
    /\ trace s' = trace later_state ++ map EvMaximize starts ++ tail
    /\ Forall (fun sv => get_default_values_arr (hyperparams started_optimizer)
                           {[ "a" := VFloat 5 ]} = Ok sv) starts.
Proof.
  destruct (get_next_hyperparameters failing_ext started_optimizer tt later_state)
    as [r s'] eqn:E.
  destruct (restarts_share_default_start failing_ext started_optimizer
              {[ "a" := VFloat 5 ]} tt later_state s' r eq_refl E)
    as (_ & starts & tail & Ht & _ & _ & Hall & _).
  by exists r, s', starts, tail.
Defined.

Lemma optimize_categorical_problem_spec_witness :
  exists m,
    optimize_categorical_problem converging_ext grid_optimizer tt [] initial_state
    = (Ok m, initial_state)
    /\ m_success m = true
    /\ m_x m ∈ cartesian_product (param_grid grid_optimizer).
Proof.
  destruct (optimize_categorical_problem_spec converging_ext grid_optimizer tt []
              initial_state) as [Hsmall _].
  destruct Hsmall as [Hres Htot]; [simpl; lia|].
  assert (Hnd : NoDup (map name (hyperparams grid_optimizer)))
    by (repeat constructor; set_solver).
  destruct Htot as [m Hm].
  - exact Hnd.
  - discriminate.
  - intros g _. unfold acquisition. simpl. unfold upper_confidence_bound.
    destruct (predict converging_ext tt g). by eexists.
  - exists m. destruct (Hres m _ Hm) as (_ & Hs & _ & Hx).
    split; [done|]. split; [done|]. by apply Hx.
Defined.

Lemma sample_run_conditions :
  run_conditions converging_ext one_param_optimizer [] None.
Proof.
  split.
  - reflexivity.
  - simpl. lia.
  - discriminate.
  - discriminate.
  - intros k hp ->%list_elem_of_singleton. simpl. by rewrite lookup_singleton_eq.
  - discriminate.
  - intros k. eexists _, _. split; [reflexivity|]. simpl. lia.
  - intros optimizer start s _. eexists _, _. split; [reflexivity|].
    intros _. split; [simpl; lia|].
    intros [|i] hp v Hhp Hv; simpl in Hhp; [|done]. by injection Hhp as <-.
Qed.

Lemma fit_history_growth_witness :
  exists best s',
    fit converging_ext one_param_optimizer [] [] None None 5 None initial_state
    = (Ok best, s')
    /\ length (hyperparam_history s') = 5.
Proof.
  destruct (fit converging_ext one_param_optimizer [] [] None None 5 None initial_state)
    as [r s'] eqn:E.
  destruct (fit_history_growth converging_ext one_param_optimizer [] [] None None 5
              None initial_state s' r ltac:(lia) E)
    as (_ & (new & Hh & _ & Hok) & _ & Htot).
  destruct Htot as [best ->].
  - reflexivity.
  - by eexists.
  - apply sample_run_conditions.
  - exists best, s'. split; [done|].
    destruct (Hok best eq_refl) as (_ & Hlen & _). by apply Hlen.
Defined.

(** The grid of eleven two-valued parameters has 2048 points: the annealer
    is run, and its score [nan] gives [success = False]. *)
Lemma cartesian_product_count (arrays : list (list Value)) :
  length (cartesian_product arrays)
  = fold_right (fun a n => length a * n) 1 arrays.
Proof.
  induction arrays as [|a arrays IH]; [done|]. simpl. rewrite <- IH.
  induction a as [|v a IHa]; [done|]. simpl.
  by rewrite length_app, length_map, IHa.
Qed.

Example annealing_branch_run :
  exists m s',
    optimize_categorical_problem big_grid_ext big_grid_optimizer tt [] initial_state
    = (Ok m, s')
    /\ m_success m = false
    /\ rng s' = 1.
Proof.
  destruct (optimize_categorical_problem_spec big_grid_ext big_grid_optimizer tt []
              initial_state) as [_ Hbig].
  destruct Hbig as [Heq Hres].
  { rewrite cartesian_product_count. simpl. lia. }
  destruct (optimize_categorical_problem big_grid_ext big_grid_optimizer tt []
              initial_state) as [[m|e] s'] eqn:E.
  - exists m, s'. destruct (Hres m s' eq_refl) as (Hs & _ & Hrng).
    split; [done|]. split; [by apply Hs | done].
  - by inversion Heq.
Qed.

(** * Further properties *)

(** ** The kind of problem and its kernel *)

Section ProblemKind.

Variable self : BayesianOptimizer.

Lemma n_categorical_le : n_categorical self <= length (hyperparams self).
Proof. unfold n_categorical. apply length_filter. Qed.

Lemma n_categorical_all :
  n_categorical self = length (hyperparams self)
  <-> Forall (fun hp => param_type hp = "categorical") (hyperparams self).
Proof.
  unfold n_categorical. induction (hyperparams self) as [|hp hps IH]; [done|].
  rewrite filter_cons. pose proof (length_filter (fun hp => param_type hp = "categorical") hps).
  destruct (decide (param_type hp = "categorical")) as [Hc|Hc]; simpl.
  - rewrite Forall_cons. split.
    + intros H'. split; [done|]. apply IH. lia.
    + intros [_ H']. apply IH in H'. lia.
  - split; [lia|]. intros H'. by inversion H'.
Qed.

Lemma n_categorical_none :
  n_categorical self = 0
  <-> Forall (fun hp => param_type hp <> "categorical") (hyperparams self).
Proof.
  unfold n_categorical. induction (hyperparams self) as [|hp hps IH]; [done|].
  rewrite filter_cons.
  destruct (decide (param_type hp = "categorical")) as [Hc|Hc]; simpl.
  - split; [lia|]. intros H'. by inversion H'.
  - rewrite Forall_cons. rewrite IH. naive_solver.
Qed.

Lemma n_categorical_some :
  0 < n_categorical self
  <-> Exists (fun hp => param_type hp = "categorical") (hyperparams self).
Proof.
  unfold n_categorical. induction (hyperparams self) as [|hp hps IH].
  - simpl. split; [lia | intros H; inversion H].
  - rewrite filter_cons, Exists_cons.
    destruct (decide (param_type hp = "categorical")) as [Hc|Hc]; simpl.
    + split; [by left | lia].
    + rewrite IH. naive_solver.
Qed.

Lemma n_categorical_not_all :
  n_categorical self < length (hyperparams self)
  <-> Exists (fun hp => param_type hp <> "categorical") (hyperparams self).
Proof.
  unfold n_categorical. induction (hyperparams self) as [|hp hps IH].
  - simpl. split; [lia | intros H; inversion H].
  - rewrite filter_cons, Exists_cons.
    pose proof (length_filter (fun hp => param_type hp = "categorical") hps).
    destruct (decide (param_type hp = "categorical")) as [Hc|Hc]; simpl.
    + split.
      * intros Hlt. right. apply IH. lia.
      * intros [?|Hex]; [done|]. apply IH in Hex. lia.
    + split; [by left | lia].
Qed.

Lemma optimization_type_cases :
  (optimization_type self = "categorical"
   <-> n_categorical self = length (hyperparams self))
  /\ (optimization_type self = "numerical"
      <-> 0 < length (hyperparams self) /\ n_categorical self = 0)
  /\ (optimization_type self = "mixed"
      <-> 0 < n_categorical self /\ n_categorical self < length (hyperparams self)).
Proof.
  pose proof n_categorical_le as Hle. unfold optimization_type.
  destruct (decide (n_categorical self = length (hyperparams self))) as [H1|H1].
  - repeat split; intros; destruct_and?; first [done | lia].
  - destruct (decide (0 < n_categorical self)) as [H2|H2].
    + repeat split; intros; destruct_and?; first [done | lia].
    + repeat split; intros; destruct_and?; first [done | lia].
Qed.

(** X1. The problem is "categorical" exactly when every hyperparameter is
    categorical, which includes the case of no hyperparameter at all;
    "numerical" exactly when there is a hyperparameter and none is
    categorical; "mixed" exactly when some are categorical and some are
    not.  [choose_kernel] picks the Hamming, Matern and weighted Hamming
    kernel in these three cases. *)
Theorem optimization_type_classification :
  (optimization_type self = "categorical"
   <-> Forall (fun hp => param_type hp = "categorical") (hyperparams self))
  /\ (optimization_type self = "numerical"
      <-> hyperparams self <> []
          /\ Forall (fun hp => param_type hp <> "categorical") (hyperparams self))
  /\ (optimization_type self = "mixed"
      <-> Exists (fun hp => param_type hp = "categorical") (hyperparams self)
          /\ Exists (fun hp => param_type hp <> "categorical") (hyperparams self))
  /\ (choose_kernel self = HammingKernel <-> optimization_type self = "categorical")
  /\ (choose_kernel self = Matern <-> optimization_type self = "numerical")
  /\ (choose_kernel self = WeightedHammingKernel <-> optimization_type self = "mixed").
Proof.
  pose proof n_categorical_le as Hle.
  rewrite <- n_categorical_all, <- n_categorical_none, <- n_categorical_some,
    <- n_categorical_not_all.
  assert (Hlen : hyperparams self <> [] <-> 0 < length (hyperparams self)).
  { destruct (hyperparams self); simpl; split; (done || lia). }
  rewrite Hlen. unfold choose_kernel, optimization_type.
  destruct (decide (n_categorical self = length (hyperparams self))) as [H1|H1].
  - rewrite decide_True by done.
    repeat split; intros; destruct_and?; first [done | lia].
  - destruct (decide (0 < n_categorical self)) as [H2|H2].
    + rewrite decide_False, decide_True by done.
      repeat split; intros; destruct_and?; first [done | lia].
    + rewrite !decide_False by done.
      repeat split; intros; destruct_and?; first [done | lia].
Qed.

End ProblemKind.

(** ** The bounds of the numeric parameters *)

Lemma length_filter_split {A} (P : A -> Prop) `{!forall x, Decision (P x)} (l : list A) :
  length (filter P l) + length (filter (fun x => ~ P x) l) = length l.
Proof.
  induction l as [|x l IH]; [done|]. rewrite !filter_cons.
  destruct (decide (P x)); [rewrite decide_False by tauto|rewrite decide_True by tauto];
    simpl; lia.
Qed.

(** X2. [bounds_arr] has one row per non-categorical hyperparameter, in
    the order of [hyperparams]: in a numerical problem, where it is passed
    to the minimizer next to the start vector, row i holds the bounds of
    hyperparameter i; in a categorical problem it is empty; in a mixed
    problem it is shorter than the parameter vector. *)
Theorem bounds_arr_rows (self : BayesianOptimizer) :
  length (bounds_arr self) + n_categorical self = length (hyperparams self)
  /\ (forall row, row ∈ bounds_arr self ->
        exists hp, hp ∈ hyperparams self /\ param_type hp <> "categorical"
                   /\ row = (lower hp, upper hp))
  /\ (optimization_type self = "numerical" ->
      forall i hp, hyperparams self !! i = Some hp ->
                   bounds_arr self !! i = Some (lower hp, upper hp))
  /\ (optimization_type self = "categorical" -> bounds_arr self = [])
  /\ (optimization_type self = "mixed" ->
      0 < length (bounds_arr self) < length (hyperparams self)).
Proof.
  assert (Hlen : length (bounds_arr self) + n_categorical self
                 = length (hyperparams self)).
  { unfold bounds_arr, n_categorical. rewrite length_map.
    pose proof (length_filter_split (fun hp => param_type hp = "categorical")
                  (hyperparams self)). lia. }
  destruct (optimization_type_cases self) as (Hc & Hn & Hm).
  split; [exact Hlen|]. split; [|split; [|split]].
  - intros row Hrow. unfold bounds_arr in Hrow.
    apply list_elem_of_fmap in Hrow as (hp & -> & Hhp).
    apply list_elem_of_filter in Hhp as [Hp Hin]. by exists hp.
  - intros Hnum i hp Hi. apply Hn in Hnum as [Hpos Hall].
    apply (proj1 (n_categorical_none self)) in Hall.
    unfold bounds_arr. rewrite list_lookup_fmap.
    assert (Hf : filter (fun hp => param_type hp <> "categorical") (hyperparams self)
                 = hyperparams self).
    { clear Hi Hlen Hc Hn Hm Hpos. induction Hall as [|x l Hx _ IH]; [done|].
      by rewrite filter_cons, decide_True, IH. }
    by rewrite Hf, Hi.
  - intros Hcat. apply Hc in Hcat.
    destruct (bounds_arr self); [done|]. simpl in Hlen. lia.
  - intros Hmix. apply Hm in Hmix as [H1 H2]. lia.
Qed.

(** ** Array form and dictionary form, beyond the well-formed case *)

Section ConversionEdges.

Variable hyperparams : list Param.

Lemma dict_to_arr_from_ext (hps : list Param) (d d' : gmap string Value) :
  (forall hp, hp ∈ hps -> d !! name hp = d' !! name hp) ->
  dict_to_arr_from hps d = dict_to_arr_from hps d'.
Proof.
  induction hps as [|hp hps IH]; intros H; [done|]. simpl. unfold getitem.
  rewrite <- (H hp) by set_solver. rewrite IH; [done|]. intros; apply H; set_solver.
Qed.

Lemma dict_to_arr_from_raise (hps : list Param) (d : gmap string Value) (e : PyError) :
  dict_to_arr_from hps d = Raise e ->
  exists i hp,
    hps !! i = Some hp /\ d !! name hp = None /\ e = KeyError (name hp)
    /\ forall j hp', j < i -> hps !! j = Some hp' -> is_Some (d !! name hp').
Proof.
  induction hps as [|hp hps IH]; [done|]. simpl. unfold getitem.
  destruct (d !! name hp) as [v|] eqn:Hv; simpl.
  - destruct (dict_to_arr_from hps d) as [rest|e'] eqn:Hrest; simpl; [done|].
    intros [= <-]. destruct (IH eq_refl) as (i & hp' & Hi & Hd & He & Hbefore).
    exists (S i), hp'. repeat split; try done.
    intros [|j] hp'' Hj Hl; simpl in Hl.
    + injection Hl as <-. by rewrite Hv.
    + apply (Hbefore j); [lia | done].
  - intros [= <-]. exists 0, hp. repeat split; try done. intros j hp' Hj. lia.
Qed.

(** X3. [_param_dict_to_arr] returns exactly when every hyperparameter
    name is a key of the dictionary; otherwise it raises [KeyError] for the
    first hyperparameter, in the order of [hyperparams], whose name is
    missing.  The result has one value per hyperparameter, and keys of the
    dictionary that name no hyperparameter have no influence. *)
Theorem param_dict_to_arr_keys (d : gmap string Value) :
  ((exists arr, _param_dict_to_arr hyperparams d = Ok arr)
   <-> forall hp, hp ∈ hyperparams -> is_Some (d !! name hp))
  /\ (forall arr, _param_dict_to_arr hyperparams d = Ok arr ->
                  length arr = length hyperparams)
  /\ (forall e, _param_dict_to_arr hyperparams d = Raise e ->
        exists i hp,
          hyperparams !! i = Some hp /\ d !! name hp = None /\ e = KeyError (name hp)
          /\ forall j hp', j < i -> hyperparams !! j = Some hp' ->
                           is_Some (d !! name hp'))
  /\ (forall d' : gmap string Value,
        (forall hp, hp ∈ hyperparams -> d !! name hp = d' !! name hp) ->
        _param_dict_to_arr hyperparams d = _param_dict_to_arr hyperparams d').
Proof.
  split; [|split; [|split]].
  - split.
    + intros [arr Harr] hp Hhp. apply dict_to_arr_from_Forall2 in Harr.
      apply list_elem_of_lookup in Hhp as [i Hi].
      destruct (Forall2_lookup_l _ _ _ _ _ Harr Hi) as (v & _ & Hv). by rewrite Hv.
    + apply dict_to_arr_keys.
  - intros arr Harr. apply dict_to_arr_from_Forall2, Forall2_length in Harr. done.
  - intros e. apply dict_to_arr_from_raise.
  - apply dict_to_arr_from_ext.
Qed.

Lemma dict_of_zip_dom (hps : list Param) (values : list Value)
    (acc : gmap string Value) :
  dom (dict_of_zip hps values acc)
  = dom acc ∪ list_to_set (map name (take (length values) hps)).
Proof.
  revert values acc. induction hps as [|hp hps IH]; intros [|v values] acc; simpl.
  - set_solver.
  - set_solver.
  - set_solver.
  - rewrite IH, dom_insert_L. set_solver.
Qed.

Lemma dict_of_zip_take (hps : list Param) (values : list Value)
    (acc : gmap string Value) :
  dict_of_zip hps values acc = dict_of_zip hps (take (length hps) values) acc.
Proof.
  revert values acc. induction hps as [|hp hps IH]; intros [|v values] acc; simpl;
    try done.
Qed.

Lemma dict_of_zip_not_in_take (hps : list Param) (values : list Value)
    (acc : gmap string Value) (k : string) :
  k ∉ map name (take (length values) hps) ->
  dict_of_zip hps values acc !! k = acc !! k.
Proof.
  revert values acc. induction hps as [|hp hps IH]; intros [|v values] acc Hk;
    simpl in *; try done.
  rewrite IH by set_solver. apply lookup_insert_ne. set_solver.
Qed.

Lemma dict_of_zip_last_wins (hps : list Param) (values : list Value)
    (acc : gmap string Value) (i : nat) (hp : Param) (v : Value) :
  hps !! i = Some hp -> values !! i = Some v ->
  (forall j hp', i < j -> j < length values -> hps !! j = Some hp' ->
                 name hp' <> name hp) ->
  dict_of_zip hps values acc !! name hp = Some v.
Proof.
  revert values acc i.
  induction hps as [|hp0 hps IH]; intros [|v0 values] acc i Hi Hv Hlater; try done.
  destruct i as [|i]; simpl in *.
  - injection Hi as ->. injection Hv as ->.
    rewrite dict_of_zip_not_in_take; [apply lookup_insert_eq|].
    intros Hin. apply list_elem_of_fmap in Hin as (hp' & Heq & Hin).
    apply list_elem_of_lookup in Hin as [j Hj].
    apply lookup_take_Some in Hj as [Hj Hlt].
    apply (Hlater (S j) hp'); [lia | lia | done | done].
  - apply (IH values _ i); [done | done |].
    intros j hp' Hij Hj Hl. apply (Hlater (S j) hp'); [lia | lia | done].
Qed.

(** X4. [_param_arr_to_dict] never raises: it pairs the hyperparameters
    with the values as far as both go.  Its keys are the names of the first
    [len(param_arr)] hyperparameters, values beyond the last hyperparameter
    are dropped, and where a name occurs more than once the value at its
    last paired position is kept. *)
Theorem param_arr_to_dict_pairs (a : list Value) :
  dom (_param_arr_to_dict hyperparams a)
  = list_to_set (map name (take (length a) hyperparams))
  /\ _param_arr_to_dict hyperparams a
     = _param_arr_to_dict hyperparams (take (length hyperparams) a)
  /\ forall i hp v,
       hyperparams !! i = Some hp -> a !! i = Some v ->
       (forall j hp', i < j -> j < length a -> hyperparams !! j = Some hp' ->
                      name hp' <> name hp) ->
       _param_arr_to_dict hyperparams a !! name hp = Some v.
Proof.
  unfold _param_arr_to_dict. split; [|split].
  - rewrite dict_of_zip_dom. set_solver.
  - apply dict_of_zip_take.
  - intros i hp v. apply dict_of_zip_last_wins.
Qed.

(** X5. Converting a dictionary that has a value for every hyperparameter
    name to array form and back keeps exactly the entries whose key is a
    hyperparameter name: the round trip is the projection of the dictionary
    onto the hyperparameter names. *)
Theorem dict_arr_dict_projection (d : gmap string Value) :
  (forall hp, hp ∈ hyperparams -> is_Some (d !! name hp)) ->
  exists arr,
    _param_dict_to_arr hyperparams d = Ok arr
    /\ _param_arr_to_dict hyperparams arr
       = filter (fun kv => kv.1 ∈ map name hyperparams) d.
Proof.
  intros Hkeys. destruct (dict_to_arr_keys hyperparams d Hkeys) as [arr Harr].
  exists arr. split; [done|].
  apply dict_to_arr_from_Forall2 in Harr.
  apply map_eq. intros k. unfold _param_arr_to_dict.
  rewrite (dict_of_zip_agree _ _ _ d) by done.
  destruct (decide (k ∈ map name hyperparams)) as [Hin|Hin].
  - destruct (d !! k) as [v|] eqn:Hv.
    + symmetry. by apply map_lookup_filter_Some.
    + symmetry. apply map_lookup_filter_None. left. done.
  - rewrite lookup_empty. symmetry. apply map_lookup_filter_None. right.
    intros v _. done.
Qed.

End ConversionEdges.

Lemma dict_of_zip_const (hps : list Param) (values : list Value)
    (acc : gmap string Value) (k : string) (w : Value) :
  Forall (fun v => v = w) values -> length values = length hps ->
  k ∈ map name hps -> dict_of_zip hps values acc !! k = Some w.
Proof.
  revert values acc. induction hps as [|hp hps IH]; intros [|v values] acc Hall Hlen Hk;
    simpl in *; try done; [by inversion Hk|].
  apply Forall_cons in Hall as [-> Hall].
  destruct (decide (k ∈ map name hps)) as [Hin|Hin].
  - apply IH; [done | lia | done].
  - rewrite dict_of_zip_not_in by done.
    assert (k = name hp) as -> by set_solver. apply lookup_insert_eq.
Qed.

Lemma dict_of_zip_acc_irrelevant (hps : list Param) (values : list Value)
    (acc acc' : gmap string Value) (k : string) :
  length values = length hps -> k ∈ map name hps ->
  dict_of_zip hps values acc !! k = dict_of_zip hps values acc' !! k.
Proof.
  revert values acc acc'.
  induction hps as [|hp hps IH]; intros [|v values] acc acc' Hlen Hk;
    simpl in *; try done; [by inversion Hk|].
  destruct (decide (k ∈ map name hps)) as [Hin|Hin].
  - apply IH; [lia | done].
  - rewrite !dict_of_zip_not_in by done.
    assert (k = name hp) as -> by set_solver. by rewrite !lookup_insert_eq.
Qed.

Lemma repeated_name_breaks_round_trip (hps : list Param) :
  ~ NoDup (map name hps) ->
  exists a, length a = length hps
            /\ _param_dict_to_arr hps (_param_arr_to_dict hps a) <> Ok a.
Proof.
  induction hps as [|hp hps IH]; intros Hnd; [by destruct Hnd; constructor|].
  unfold _param_dict_to_arr, _param_arr_to_dict in *.
  destruct (decide (name hp ∈ map name hps)) as [Hin|Hin].
  - exists (VInt 1 :: replicate (length hps) (VInt 0)). split.
    { simpl. by rewrite length_replicate. }
    simpl. unfold getitem.
    rewrite (dict_of_zip_const _ _ _ _ (VInt 0)); [| |by rewrite length_replicate|done].
    2: { apply Forall_forall. by intros v [-> _]%elem_of_replicate. }
    simpl. by destruct (dict_to_arr_from hps _).
  - destruct IH as (a & Hlen & Ha).
    { intros Hnd'. apply Hnd. simpl. by apply NoDup_cons. }
    exists (VInt 0 :: a). split; [simpl; lia|].
    simpl. unfold getitem.
    destruct (dict_of_zip hps a (<[name hp:=VInt 0]> ∅) !! name hp); simpl; [|done].
    rewrite (dict_to_arr_from_ext hps _ (dict_of_zip hps a ∅)).
    2: { intros hp' Hhp'. apply dict_of_zip_acc_irrelevant; [done|].
         apply list_elem_of_fmap. eauto. }
    destruct (dict_to_arr_from hps (dict_of_zip hps a ∅)) as [r|e]; simpl; [|done].
    intros [= _ ->]. by apply Ha.
Qed.

(** X6. Converting an array to dictionary form and back gives the array
    again for every array with one value per hyperparameter if and only if
    the hyperparameter names are pairwise distinct. *)
Theorem array_round_trip_iff_distinct_names (hyperparams : list Param) :
  (forall a : list Value,
     length a = length hyperparams ->
     _param_dict_to_arr hyperparams (_param_arr_to_dict hyperparams a) = Ok a)
  <-> NoDup (map name hyperparams).
Proof.
  split.
  - intros Hrt. destruct (decide (NoDup (map name hyperparams))) as [|Hnd]; [done|].
    destruct (repeated_name_breaks_round_trip hyperparams Hnd) as (a & Hlen & Ha).
    by destruct Ha; apply Hrt.
  - intros Hnd a Hlen. by apply arr_dict_arr.
Qed.

Lemma dict_arr_dict_projection_witness :
  let hps := [continuous_param "a" 0 10; integer_param "b" 1 5] in
  let d : gmap string Value :=
    <["a" := VFloat 2]> (<["b" := VInt 3]> (<["c" := VStr "x"]> ∅)) in
  exists arr,
    _param_dict_to_arr hps d = Ok arr
    /\ _param_arr_to_dict hps arr = filter (fun kv => kv.1 ∈ map name hps) d.
Proof.
  intros hps d. apply (dict_arr_dict_projection hps d).
  intros hp Hin.
  apply elem_of_cons in Hin as [->|Hin]; [by eexists|].
  apply elem_of_cons in Hin as [->|Hin]; [by eexists|].
  by apply elem_of_nil in Hin.
Defined.

(** ** More on the acquisition functions *)

Section NormalTail.

Local Open Scope R_scope.

(** The mass below a negative point is at most the density there divided
    by the distance to 0. *)
Lemma mass_below_negative (a g : R) :
  a <= g -> g < 0 -> - g * Norm.mass a g <= Norm.norm_pdf g.
Proof.
  intros Hag Hg. destruct Hag as [Hlt | ->].
  2: { rewrite Norm.mass_refl. pose proof (Norm.norm_pdf_pos g). lra. }
  destruct (MVT_cor2 (fun x => - g * Norm.mass a x - Norm.norm_pdf x)
              (fun x => - g * Norm.norm_pdf x - - x * Norm.norm_pdf x) a g Hlt)
    as (c & Hc & Hin).
  { intros c _.
    apply (derivable_pt_lim_minus (fun x => - g * Norm.mass a x) Norm.norm_pdf).
    - apply (derivable_pt_lim_scal (Norm.mass a)). apply Norm.mass_derivable_pt_lim.
    - apply Norm.norm_pdf_derivable_pt_lim. }
  rewrite Norm.mass_refl in Hc.
  pose proof (Norm.norm_pdf_pos a). pose proof (Norm.norm_pdf_pos c).
  assert ((- g * Norm.norm_pdf c - - c * Norm.norm_pdf c) * (g - a) <= 0); [|lra].
  replace (- g * Norm.norm_pdf c - - c * Norm.norm_pdf c)
    with (- ((g - c) * Norm.norm_pdf c)) by ring.
  assert (0 <= (g - c) * Norm.norm_pdf c) by (apply Rmult_le_pos; lra).
  nra.
Qed.

Lemma norm_cdf_below_negative (g : R) :
  g < 0 -> - g * Norm.norm_cdf g <= Norm.norm_pdf g.
Proof.
  intros Hg. destruct (Norm.norm_cdf_improper g) as [_ Hleast].
  assert (Hub : Norm.norm_cdf g <= Norm.norm_pdf g / - g).
  { apply Hleast. intros y (a & Ha & ->).
    pose proof (mass_below_negative a g Ha Hg).
    apply (Rmult_le_reg_l (- g)); [lra|].
    replace (- g * (Norm.norm_pdf g / - g)) with (Norm.norm_pdf g) by (field; lra).
    done. }
  apply (Rmult_le_compat_l (- g)) in Hub; [|lra].
  replace (- g * (Norm.norm_pdf g / - g)) with (Norm.norm_pdf g) in Hub by (field; lra).
  done.
Qed.

Lemma ei_kernel_nonneg (g : R) : 0 <= Norm.ei_kernel g.
Proof.
  unfold Norm.ei_kernel. pose proof (Norm.norm_pdf_pos g). pose proof (Norm.norm_cdf_nonneg g).
  destruct (Rlt_dec g 0) as [Hg|Hg].
  - pose proof (norm_cdf_below_negative g Hg). lra.
  - assert (0 <= g * Norm.norm_cdf g) by (apply Rmult_le_pos; lra). lra.
Qed.

Lemma norm_cdf_increasing : increasing Norm.norm_cdf.
Proof.
  assert (pr : derivable Norm.norm_cdf)
    by (intros x; eexists; apply Norm.norm_cdf_derivable_pt_lim).
  apply (nonneg_derivative_1 Norm.norm_cdf pr). intros x.
  rewrite (derive_pt_eq_0 _ _ _ (pr x) (Norm.norm_cdf_derivable_pt_lim x)).
  left. apply Norm.norm_pdf_pos.
Qed.

End NormalTail.

Lemma fold_left_Rmax_shift (l : list R) (b xi : R) :
  fold_left Rmax (map (fun s => s + xi)%R l) (b + xi)%R = (fold_left Rmax l b + xi)%R.
Proof.
  revert b. induction l as [|a l IH]; intros b; simpl; [done|].
  rewrite <- IH. f_equal. unfold Rmax. repeat destruct Rle_dec; lra.
Qed.

Lemma fold_left_Rmax_mono (l : list R) (b b' : R) :
  (b <= b')%R -> (fold_left Rmax l b <= fold_left Rmax l b')%R.
Proof.
  revert b b'. induction l as [|a l IH]; intros b b' H; simpl; [done|].
  apply IH. apply Rmax_case_strong; intros; [etransitivity; [|apply Rmax_l] | apply Rmax_r]; done.
Qed.

Section AcquisitionMore.

Variable ext : Collaborators.

Implicit Types (history : list (R * gmap string Value)) (optimizer : GP ext).
Implicit Types (x : list Value).

Lemma generalized_expected_improvement_value history optimizer x xi mu std best :
  predict ext optimizer x = (mu, std) ->
  py_max (map fst history) = Ok best ->
  std <> 0%R ->
  generalized_expected_improvement ext history optimizer x xi
  = Ok (std * Norm.ei_kernel ((mu - best - xi) / std))%R.
Proof.
  intros Hp Hb Hs. unfold generalized_expected_improvement. rewrite Hp.
  destruct (Req_dec_T std 0) as [|_]; [done|].
  rewrite Hb. simpl. rewrite np_div_nonzero by done. simpl.
  f_equal. unfold Norm.ei_kernel. field. done.
Qed.

Lemma probability_of_improvement_value history optimizer x mu std best :
  predict ext optimizer x = (mu, std) ->
  py_max (map fst history) = Ok best ->
  std <> 0%R ->
  probability_of_improvement ext history optimizer x
  = Ok (Norm.norm_cdf ((mu - best) / std)).
Proof.
  intros Hp Hb Hs. unfold probability_of_improvement. rewrite Hp, Hb. simpl.
  destruct (Req_dec_T std 0) as [|_]; [done|].
  by rewrite np_div_nonzero.
Qed.

Lemma acquisition_std_zero history optimizer x xi mu :
  predict ext optimizer x = (mu, 0%R) ->
  history <> [] ->
  expected_improvement ext history optimizer x = Ok 0%R
  /\ probability_of_improvement ext history optimizer x = Ok 0%R
  /\ generalized_expected_improvement ext history optimizer x xi = Ok 0%R.
Proof.
  intros Hp Hh. destruct (py_max_nonempty (map fst history)) as [b Hb].
  { by destruct history. }
  unfold expected_improvement, probability_of_improvement,
    generalized_expected_improvement.
  rewrite Hp, Hb. simpl. by destruct (Req_dec_T 0 0).
Qed.

(** X7. On a history that is not empty the generalized expected improvement
    with exploration control [xi] is the expected improvement over a history
    whose scores are all raised by [xi]; with [xi = 0] it is the
    expected improvement itself. *)
Theorem generalized_expected_improvement_shift history optimizer x xi :
  history <> [] ->
  generalized_expected_improvement ext history optimizer x xi
  = expected_improvement ext (map (fun e => ((e.1 + xi)%R, e.2)) history) optimizer x
  /\ generalized_expected_improvement ext history optimizer x 0
     = expected_improvement ext history optimizer x.
Proof.
  intros Hh. destruct (predict ext optimizer x) as [mu std] eqn:Hp.
  destruct history as [|[s p] h]; [done|].
  destruct (Req_dec_T std 0) as [->|Hs].
  - destruct (acquisition_std_zero ((s, p) :: h) optimizer x xi mu Hp) as (-> & _ & ->); [done|].
    destruct (acquisition_std_zero ((s, p) :: h) optimizer x 0 mu Hp) as (_ & _ & ->); [done|].
    destruct (acquisition_std_zero (map (fun e => ((e.1 + xi)%R, e.2)) ((s, p) :: h))
                optimizer x 0 mu Hp) as (-> & _ & _); done.
  - rewrite !(generalized_expected_improvement_value _ _ _ _ mu std
               (fold_left Rmax (map fst h) s)) by done.
    rewrite (expected_improvement_value ext ((s, p) :: h) _ _ mu std
               (fold_left Rmax (map fst h) s)) by done.
    rewrite (expected_improvement_value ext _ _ _ mu std
               (fold_left Rmax (map fst h) s + xi)%R); [| done | | done].
    + split; do 3 f_equal; lra.
    + simpl. f_equal. rewrite <- fold_left_Rmax_shift. f_equal.
      rewrite !map_map. done.
Qed.

(** X8. The only error an acquisition function raises is [ValueError], from
    [max] of an empty history: expected improvement and probability of
    improvement raise it on every empty history, also where the standard
    deviation is 0; generalized expected improvement raises it only where
    the standard deviation is not 0; the upper confidence bound always
    returns. *)
Theorem acquisition_errors history optimizer x xi :
  (forall e, expected_improvement ext history optimizer x = Raise e
             <-> history = [] /\ e = ValueError)
  /\ (forall e, probability_of_improvement ext history optimizer x = Raise e
                <-> history = [] /\ e = ValueError)
  /\ (forall e, generalized_expected_improvement ext history optimizer x xi = Raise e
                <-> history = [] /\ (predict ext optimizer x).2 <> 0%R /\ e = ValueError)
  /\ upper_confidence_bound ext optimizer x
     = Ok ((predict ext optimizer x).1 + 1.96 * (predict ext optimizer x).2)%R.
Proof.
  unfold expected_improvement, probability_of_improvement,
    generalized_expected_improvement, upper_confidence_bound.
  destruct (predict ext optimizer x) as [mu std]. simpl.
  destruct history as [|[s p] h]; simpl.
  - split; [|split; [|split]]; [| | |done].
    + intros e; split; [by intros [= <-] | by intros [_ ->]].
    + intros e; split; [by intros [= <-] | by intros [_ ->]].
    + intros e. destruct (Req_dec_T std 0) as [->|Hs]; split.
      * done.
      * by intros (_ & ? & _).
      * by intros [= <-].
      * by intros (_ & _ & ->).
  - unfold np_div.
    split; [|split; [|split]]; [| | |done];
      intros e; destruct (Req_dec_T std 0); simpl; (split; [done | by intros [? _]]).
Qed.

(** X9. Where the predicted standard deviation is not negative, a value
    returned by expected improvement or by generalized expected improvement
    is not negative; a value returned by probability of improvement is never
    negative. *)
Theorem acquisition_nonneg history optimizer x xi (v : R) :
  (0 <= (predict ext optimizer x).2)%R ->
  (expected_improvement ext history optimizer x = Ok v -> (0 <= v)%R)
  /\ (generalized_expected_improvement ext history optimizer x xi = Ok v -> (0 <= v)%R)
  /\ (probability_of_improvement ext history optimizer x = Ok v -> (0 <= v)%R).
Proof.
  destruct (predict ext optimizer x) as [mu std] eqn:Hp. simpl. intros Hstd.
  destruct history as [|[s p] h].
  { unfold expected_improvement, generalized_expected_improvement,
      probability_of_improvement. rewrite Hp. simpl.
    split; [done|]. split; [|done].
    destruct (Req_dec_T std 0); [|done]. intros [= <-]. lra. }
  destruct (Req_dec_T std 0) as [->|Hs].
  - destruct (acquisition_std_zero ((s, p) :: h) optimizer x xi mu Hp) as (-> & -> & ->);
      [done|].
    split; [|split]; intros [= <-]; lra.
  - assert (Hb : py_max (map fst ((s, p) :: h)) = Ok (fold_left Rmax (map fst h) s)) by done.
    rewrite (expected_improvement_value ext _ _ _ mu std _ Hp Hb Hs).
    rewrite (generalized_expected_improvement_value _ _ _ _ mu std _ Hp Hb Hs).
    rewrite (probability_of_improvement_value _ _ _ mu std _ Hp Hb Hs).
    split; [|split]; intros [= <-].
    + apply Rmult_le_pos; [done | apply ei_kernel_nonneg].
    + apply Rmult_le_pos; [done | apply ei_kernel_nonneg].
    + apply Norm.norm_cdf_nonneg.
Qed.


Lemma ei_in_std_derivable_pt_lim (d s : R) :
  s <> 0%R ->
  derivable_pt_lim (fun t => t * Norm.ei_kernel (d / t))%R s (Norm.norm_pdf (d / s)).
Proof.
  intros Hs.
  assert (Hq : derivable_pt_lim (fct_cte d / id)%F s
                 ((0 * id s - 1 * fct_cte d s) / Rsqr (id s))%R).
  { apply derivable_pt_lim_div;
      [apply derivable_pt_lim_const | apply derivable_pt_lim_id | done]. }
  pose proof (derivable_pt_lim_comp (fct_cte d / id)%F Norm.ei_kernel s _ _ Hq
                (Norm.ei_kernel_derivable_pt_lim _)) as Hc.
  pose proof (derivable_pt_lim_mult id _ s _ _ (derivable_pt_lim_id s) Hc) as Hm.
  replace (Norm.norm_pdf (d / s))
    with (1 * comp Norm.ei_kernel (div_fct (fct_cte d) id) s
          + id s * (Norm.norm_cdf (div_fct (fct_cte d) id s)
                    * ((0 * id s - 1 * fct_cte d s) / Rsqr (id s))))%R.
  { exact Hm. }
  unfold comp, div_fct, fct_cte, id, Norm.ei_kernel, Rsqr. field. done.
Qed.

Lemma ei_in_std_increasing (d s1 s2 : R) :
  (0 < s1)%R -> (s1 <= s2)%R ->
  (s1 * Norm.ei_kernel (d / s1) <= s2 * Norm.ei_kernel (d / s2))%R.
Proof.
  intros H1 [Hlt | ->]; [|lra].
  destruct (MVT_cor2 (fun t => t * Norm.ei_kernel (d / t))%R
              (fun t => Norm.norm_pdf (d / t)) s1 s2 Hlt) as (c & Hc & _).
  { intros c Hc. apply ei_in_std_derivable_pt_lim. lra. }
  pose proof (Norm.norm_pdf_pos (d / c)).
  assert (0 <= Norm.norm_pdf (d / c) * (s2 - s1))%R by (apply Rmult_le_pos; lra).
  lra.
Qed.

(** X10. For a fixed predicted mean and a fixed history that is not empty,
    the expected improvement does not decrease when the predicted standard
    deviation grows from a value that is not negative. *)
Theorem expected_improvement_monotone_in_std history optimizer1 optimizer2 x1 x2
    (mean std1 std2 : R) :
  history <> [] ->
  predict ext optimizer1 x1 = (mean, std1) ->
  predict ext optimizer2 x2 = (mean, std2) ->
  (0 <= std1)%R -> (std1 <= std2)%R ->
  exists v1 v2,
    expected_improvement ext history optimizer1 x1 = Ok v1
    /\ expected_improvement ext history optimizer2 x2 = Ok v2
    /\ (v1 <= v2)%R.
Proof.
  intros Hh Hp1 Hp2 H1 H12.
  destruct (py_max_nonempty (map fst history)) as [b Hb]; [by destruct history|].
  assert (Hv2 : exists v2, expected_improvement ext history optimizer2 x2 = Ok v2
                           /\ (0 <= v2)%R
                           /\ (std2 <> 0%R -> v2 = std2 * Norm.ei_kernel ((mean - b) / std2))%R).
  { destruct (Req_dec_T std2 0) as [->|Hs2].
    - destruct (acquisition_std_zero history optimizer2 x2 0 mean Hp2 Hh) as (-> & _).
      eexists; split; [done|]. split; [lra | done].
    - rewrite (expected_improvement_value ext _ _ _ mean std2 b Hp2 Hb Hs2).
      eexists; split; [done|]. split; [|done].
      apply Rmult_le_pos; [lra | apply ei_kernel_nonneg]. }
  destruct Hv2 as (v2 & Hv2 & Hpos & Hval).
  destruct (Req_dec_T std1 0) as [->|Hs1].
  - destruct (acquisition_std_zero history optimizer1 x1 0 mean Hp1 Hh) as (-> & _).
    by exists 0%R, v2.
  - rewrite (expected_improvement_value ext _ _ _ mean std1 b Hp1 Hb Hs1).
    exists (std1 * Norm.ei_kernel ((mean - b) / std1))%R, v2.
    split; [done|]. split; [done|].
    rewrite Hval by lra. apply ei_in_std_increasing; lra.
Qed.

(** X11. For a fixed predicted standard deviation and a fixed history that
    is not empty, the probability of improvement does not decrease when the
    predicted mean grows, provided the standard deviation is not
    negative. *)
Theorem probability_of_improvement_monotone_in_mean history optimizer1 optimizer2
    x1 x2 (mean1 mean2 std : R) :
  history <> [] ->
  predict ext optimizer1 x1 = (mean1, std) ->
  predict ext optimizer2 x2 = (mean2, std) ->
  (0 <= std)%R -> (mean1 <= mean2)%R ->
  exists v1 v2,
    probability_of_improvement ext history optimizer1 x1 = Ok v1
    /\ probability_of_improvement ext history optimizer2 x2 = Ok v2
    /\ (v1 <= v2)%R.
Proof.
  intros Hh Hp1 Hp2 Hs Hm.
  destruct (py_max_nonempty (map fst history)) as [b Hb]; [by destruct history|].
  destruct (Req_dec_T std 0) as [->|Hs0].
  - destruct (acquisition_std_zero history optimizer1 x1 0 mean1 Hp1 Hh) as (_ & -> & _).
    destruct (acquisition_std_zero history optimizer2 x2 0 mean2 Hp2 Hh) as (_ & -> & _).
    exists 0%R, 0%R. repeat split; lra.
  - rewrite (probability_of_improvement_value _ _ _ mean1 std b Hp1 Hb Hs0).
    rewrite (probability_of_improvement_value _ _ _ mean2 std b Hp2 Hb Hs0).
    eexists _, _. split; [done|]. split; [done|].
    apply norm_cdf_increasing.
    apply Rmult_le_compat_r; [|lra].
    left. apply Rinv_0_lt_compat. lra.
Qed.

(** X12. With the prediction fixed and its standard deviation not negative,
    observations added to a history that is not empty never raise the
    expected improvement, the generalized expected improvement or the
    probability of improvement of a point. *)
Theorem acquisition_antitone_in_history history more optimizer x xi :
  history <> [] ->
  (0 <= (predict ext optimizer x).2)%R ->
  exists e1 e2 g1 g2 p1 p2,
    expected_improvement ext history optimizer x = Ok e1
    /\ expected_improvement ext (history ++ more) optimizer x = Ok e2
    /\ generalized_expected_improvement ext history optimizer x xi = Ok g1
    /\ generalized_expected_improvement ext (history ++ more) optimizer x xi = Ok g2
    /\ probability_of_improvement ext history optimizer x = Ok p1
    /\ probability_of_improvement ext (history ++ more) optimizer x = Ok p2
    /\ (e2 <= e1)%R /\ (g2 <= g1)%R /\ (p2 <= p1)%R.
Proof.
  intros Hh. destruct (predict ext optimizer x) as [mu std] eqn:Hp. simpl. intros Hs.
  destruct (py_max_nonempty (map fst history)) as [b Hb]; [by destruct history|].
  pose proof (py_max_app _ (map fst more) _ Hb) as Hb'. rewrite <- map_app in Hb'.
  pose proof (fold_left_Rmax_le (map fst more) b) as Hle.
  assert (Hh' : history ++ more <> []) by (by destruct history).
  destruct (Req_dec_T std 0) as [->|Hs0].
  - destruct (acquisition_std_zero history optimizer x xi mu Hp Hh) as (-> & -> & ->).
    destruct (acquisition_std_zero (history ++ more) optimizer x xi mu Hp Hh')
      as (-> & -> & ->).
    exists 0%R, 0%R, 0%R, 0%R, 0%R, 0%R. repeat split; lra.
  - rewrite (expected_improvement_value ext _ _ _ mu std _ Hp Hb Hs0).
    rewrite (expected_improvement_value ext _ _ _ mu std _ Hp Hb' Hs0).
    rewrite (generalized_expected_improvement_value _ _ _ xi mu std _ Hp Hb Hs0).
    rewrite (generalized_expected_improvement_value _ _ _ xi mu std _ Hp Hb' Hs0).
    rewrite (probability_of_improvement_value _ _ _ mu std _ Hp Hb Hs0).
    rewrite (probability_of_improvement_value _ _ _ mu std _ Hp Hb' Hs0).
    eexists _, _, _, _, _, _. do 6 (split; [done|]).
    assert (Hinv : (0 < / std)%R) by (apply Rinv_0_lt_compat; lra).
    split; [|split].
    + apply Rmult_le_compat_l; [lra|]. apply Norm.ei_kernel_increasing.
      apply Rmult_le_compat_r; lra.
    + apply Rmult_le_compat_l; [lra|]. apply Norm.ei_kernel_increasing.
      apply Rmult_le_compat_r; lra.
    + apply norm_cdf_increasing. apply Rmult_le_compat_r; lra.
Qed.

End AcquisitionMore.

Lemma generalized_expected_improvement_shift_witness :
  one_entry <> []
  /\ generalized_expected_improvement (sample_ext true ∅ []) one_entry tt
       [VFloat 0; VFloat 1] 2
     = expected_improvement (sample_ext true ∅ [])
         (map (fun e => ((e.1 + 2)%R, e.2)) one_entry) tt [VFloat 0; VFloat 1].
Proof.
  split; [done|].
  apply (generalized_expected_improvement_shift (sample_ext true ∅ []) one_entry tt
           [VFloat 0; VFloat 1] 2).
  done.
Defined.

Lemma acquisition_nonneg_witness :
  expected_improvement (sample_ext true ∅ []) one_entry tt [VFloat 0; VFloat 1]
  = Ok (1 * Norm.ei_kernel ((0 - 0) / 1))%R
  /\ (0 <= 1 * Norm.ei_kernel ((0 - 0) / 1))%R.
Proof.
  assert (H : expected_improvement (sample_ext true ∅ []) one_entry tt
                [VFloat 0; VFloat 1]
              = Ok (1 * Norm.ei_kernel ((0 - 0) / 1))%R).
  { apply expected_improvement_value; [reflexivity | reflexivity | lra]. }
  split; [exact H|].
  destruct (acquisition_nonneg (sample_ext true ∅ []) one_entry tt
              [VFloat 0; VFloat 1] 0 (1 * Norm.ei_kernel ((0 - 0) / 1))%R)
    as [Hei _]; [simpl; lra|].
  exact (Hei H).
Defined.

Lemma expected_improvement_monotone_in_std_witness :
  exists v1 v2,
    expected_improvement (sample_ext true ∅ []) one_entry tt [VFloat 0; VFloat 1] = Ok v1
    /\ expected_improvement (sample_ext true ∅ []) one_entry tt [VFloat 0; VFloat 2] = Ok v2
    /\ (v1 <= v2)%R.
Proof.
  apply (expected_improvement_monotone_in_std (sample_ext true ∅ []) one_entry tt tt
           [VFloat 0; VFloat 1] [VFloat 0; VFloat 2] 0 1 2).
  - done.
  - reflexivity.
  - reflexivity.
  - lra.
  - lra.
Defined.

Lemma probability_of_improvement_monotone_in_mean_witness :
  exists v1 v2,
    probability_of_improvement (sample_ext true ∅ []) one_entry tt [VFloat 0; VFloat 1]
    = Ok v1
    /\ probability_of_improvement (sample_ext true ∅ []) one_entry tt [VFloat 1; VFloat 1]
       = Ok v2
    /\ (v1 <= v2)%R.
Proof.
  apply (probability_of_improvement_monotone_in_mean (sample_ext true ∅ []) one_entry
           tt tt [VFloat 0; VFloat 1] [VFloat 1; VFloat 1] 0 1 1).
  - done.
  - reflexivity.
  - reflexivity.
  - lra.
  - lra.
Defined.

Lemma acquisition_antitone_in_history_witness :
  exists e1 e2 g1 g2 p1 p2,
    expected_improvement (sample_ext true ∅ []) one_entry tt [VFloat 0; VFloat 1] = Ok e1
    /\ expected_improvement (sample_ext true ∅ []) (one_entry ++ one_entry) tt
         [VFloat 0; VFloat 1] = Ok e2
    /\ generalized_expected_improvement (sample_ext true ∅ []) one_entry tt
         [VFloat 0; VFloat 1] 2 = Ok g1
    /\ generalized_expected_improvement (sample_ext true ∅ []) (one_entry ++ one_entry) tt
         [VFloat 0; VFloat 1] 2 = Ok g2
    /\ probability_of_improvement (sample_ext true ∅ []) one_entry tt
         [VFloat 0; VFloat 1] = Ok p1
    /\ probability_of_improvement (sample_ext true ∅ []) (one_entry ++ one_entry) tt
         [VFloat 0; VFloat 1] = Ok p2
    /\ (e2 <= e1)%R /\ (g2 <= g1)%R /\ (p2 <= p1)%R.
Proof.
  apply (acquisition_antitone_in_history (sample_ext true ∅ []) one_entry one_entry tt
           [VFloat 0; VFloat 1] 2).
  - done.
  - simpl; lra.
Defined.

(** ** The search for the next point *)

Section SearchAccounting.

Variable ext : Collaborators.
Variable self : BayesianOptimizer.

Lemma restart_loop_accounting (optimizer : GP ext) (n : nat) :
  forall (start : option (list (list Value))) (s s' : State)
         (r : result (gmap string Value)),
    restart_loop ext self optimizer n start s = (r, s') ->
    hyperparam_history s' = hyperparam_history s
    /\ exists starts warned,
         trace s' = trace s ++ map EvMaximize starts ++ warning_events warned
         /\ length starts <= n
         /\ non_convergence_count s'
            = (non_convergence_count s + (if warned then 1 else 0))%Z
         /\ (warned = true -> length starts = n /\ success s' = Some false)
         /\ (warned = false -> forall p, r = Ok p ->
               success s' = Some true /\ 1 <= length starts).
Proof.
  induction n as [|n IH]; intros start s s' r H.
  - destruct (restart_loop_zero ext self optimizer start s) as (s0 & H0 & Ht & Hc & Hs & Hh).
    rewrite H0 in H. injection H as <- <-. split; [done|].
    exists [], true. simpl. repeat split; try done.
  - cbn [restart_loop] in H.
    apply bind_inv in H as [(sv & s1 & Hdraw & H)|(e & Hdraw & ->)].
    2: { destruct (draw_start_vals_rng_only ext self _ _ _ Hdraw) as (Hh & _ & Hc & Ht).
         split; [done|]. exists [], false. simpl. rewrite app_nil_r, Hc.
         repeat split; try done; lia. }
    destruct (draw_start_vals_rng_only ext self _ _ _ Hdraw) as (Hh1 & _ & Hc1 & Ht1).
    rewrite bind_emit in H.
    apply bind_inv in H as [(m & s2 & Hmax & H)|(e & Hmax & ->)].
    2: { destruct (maximize_rng_only ext self _ _ _ _ _ Hmax) as (Hh2 & _ & Hc2 & Ht2).
         simpl in Hh2, Hc2, Ht2. split; [congruence|]. exists [sv], false. simpl.
         rewrite Ht2, Hc2, Ht1, Hc1. repeat split; try done; lia. }
    destruct (maximize_rng_only ext self _ _ _ _ _ Hmax) as (Hh2 & _ & Hc2 & Ht2).
    simpl in Hh2, Hc2, Ht2.
    rewrite bind_set_success in H. destruct (m_success m) eqn:Hm.
    + apply lift_inv in H as [-> ->]. simpl. split; [congruence|].
      exists [sv], false. simpl. rewrite Ht2, Hc2, Ht1, Hc1.
      repeat split; try done; lia.
    + apply IH in H as (Hh & starts & warned & Ht & Hlen & Hc & Hw & Hok).
      simpl in Hh, Ht, Hc. split; [congruence|].
      exists (sv :: starts), warned. simpl.
      rewrite Ht, Hc, Ht2, Hc2, Ht1, Hc1, <- app_assoc. simpl.
      split; [done|]. split; [lia|]. split; [done|]. split.
      * intros Hwt. destruct (Hw Hwt) as [-> ?]. done.
      * intros Hwf p Hp. destruct (Hok Hwf p Hp) as [? _]. split; [done | lia].
Qed.

(** X13. Whatever the outcome of [get_next_hyperparameters], the history is
    untouched and the trace grows by one maximisation per attempt, at most
    [n_restarts_optimizer] of them, followed by the non-convergence warning
    or by nothing.  [non_convergence_count] rises by 1 with the warning and
    not at all without it; the warning comes only after all the attempts,
    with [success] left at [False]; a proposal returned without the warning
    comes from an attempt, with [success] left at [True]. *)
Theorem get_next_hyperparameters_accounting (optimizer : GP ext) (s : State) :
  let r := (get_next_hyperparameters ext self optimizer s).1 in
  let s' := (get_next_hyperparameters ext self optimizer s).2 in
  hyperparam_history s' = hyperparam_history s
  /\ exists starts warned,
       trace s' = trace s ++ map EvMaximize starts ++ warning_events warned
       /\ length starts <= Z.to_nat (n_restarts_optimizer self)
       /\ non_convergence_count s'
          = (non_convergence_count s + (if warned then 1 else 0))%Z
       /\ (warned = true ->
           length starts = Z.to_nat (n_restarts_optimizer self)
           /\ success s' = Some false)
       /\ (warned = false -> forall p, r = Ok p ->
             success s' = Some true /\ 1 <= length starts).
Proof.
  intros r s'. subst r s'.
  destruct (get_next_hyperparameters ext self optimizer s) as [r s'] eqn:H.
  simpl. by apply restart_loop_accounting in H.
Qed.

(** X14. On a numerical problem whose [acquisition_function] is none of
    the four known names, the first attempt of [get_next_hyperparameters]
    raises [UnboundLocalError] for the local variable [minimized]: no
    further attempt is made, no warning is emitted, and neither
    [non_convergence_count] nor [success] changes. *)
Theorem unknown_acquisition_function_raises (optimizer : GP ext) (s s1 : State)
    (sv : list (list Value)) :
  optimization_type self = "numerical" ->
  acquisition_function self
    ∉ ["expected_improvement"; "upper_confidence_bound";
       "probability_of_improvement"; "generalized_expected_improvement"] ->
  (1 <= n_restarts_optimizer self)%Z ->
  draw_start_vals ext self s = (Ok sv, s1) ->
  exists s',
    get_next_hyperparameters ext self optimizer s
    = (Raise (UnboundLocalError "minimized"), s')
    /\ trace s' = trace s ++ [EvMaximize sv]
    /\ non_convergence_count s' = non_convergence_count s
    /\ success s' = success s
    /\ hyperparam_history s' = hyperparam_history s.
Proof.
  intros Htype Hname Hn Hdraw.
  destruct (draw_start_vals_rng_only ext self _ _ _ Hdraw) as (Hh1 & Hs1 & Hc1 & Ht1).
  unfold get_next_hyperparameters.
  destruct (Z.to_nat (n_restarts_optimizer self)) as [|n] eqn:Hnat; [lia|].
  cbn [restart_loop]. rewrite (bind_ok _ _ _ _ _ Hdraw), bind_emit.
  eexists. split.
  - unfold maximize. rewrite decide_True by done.
    unfold bind at 1. rewrite bind_get_history.
    unfold optimize_continuous_problem.
    rewrite !decide_False by set_solver. reflexivity.
  - simpl. by rewrite Ht1, Hc1, Hs1, Hh1.
Qed.

(** X15. [optimize_mixed_problem] ignores its start vector and makes one
    run of the annealer on the current history.  The attempt counts as a
    success exactly when the score returned by the annealer is not [nan],
    and [x] lists, in the order of the hyperparameters, the values of the
    annealer's state; where that state lacks a hyperparameter name the
    attempt raises [KeyError], whatever the score.  Only the position in
    the random stream changes. *)
Theorem optimize_mixed_problem_spec (optimizer : GP ext) (start : list (list Value))
    (s : State) :
  let result := anneal ext self (hyperparam_history s) optimizer (rng s) in
  (all_names self result.1 ->
   exists x,
     optimize_mixed_problem ext self optimizer start s
     = (Ok {| m_success := negb (isnan result.2); m_x := x |}, after_draw s)
     /\ Forall2 (fun hp v => result.1 !! name hp = Some v) (hyperparams self) x)
  /\ (~ all_names self result.1 ->
      exists hp,
        hp ∈ hyperparams self /\ result.1 !! name hp = None
        /\ optimize_mixed_problem ext self optimizer start s
           = (Raise (KeyError (name hp)), after_draw s)).
Proof.
  intros result.
  assert (Heq : optimize_mixed_problem ext self optimizer start s
                = (x <- lift (_param_dict_to_arr (hyperparams self) result.1) ;;
                   ret {| m_success := negb (isnan result.2); m_x := x |})%M
                    (after_draw s)).
  { unfold optimize_mixed_problem, run_anneal, result, negb.
    unfold bind at 1. unfold bind at 2. rewrite bind_get_history. reflexivity. }
  rewrite Heq. clear Heq. split.
  - intros Hall. destruct (dict_to_arr_keys (hyperparams self) result.1 Hall) as [x Hx].
    exists x. rewrite Hx, bind_lift_ok. split; [done|].
    by apply dict_to_arr_from_Forall2.
  - intros Hnot.
    destruct (_param_dict_to_arr (hyperparams self) result.1) as [x|e] eqn:Hx.
    + exfalso. apply Hnot. intros hp Hhp.
      apply dict_to_arr_from_Forall2 in Hx.
      apply list_elem_of_lookup in Hhp as [i Hi].
      destruct (Forall2_lookup_l _ _ _ _ _ Hx Hi) as (v & _ & Hv). by exists v.
    + destruct (dict_to_arr_from_raise (hyperparams self) result.1 e Hx)
        as (i & hp & Hi & Hnone & -> & _).
      exists hp. split; [by eapply list_elem_of_lookup_2|]. split; [done|].
      reflexivity.
Qed.

End SearchAccounting.

Lemma unknown_acquisition_function_raises_witness :
  exists s',
    get_next_hyperparameters (sample_ext true ∅ [VFloat 5]) misnamed_optimizer tt
      later_state
    = (Raise (UnboundLocalError "minimized"), s')
    /\ trace s' = trace later_state ++ [EvMaximize [[VFloat (INR 0)]]]
    /\ non_convergence_count s' = non_convergence_count later_state
    /\ success s' = success later_state
    /\ hyperparam_history s' = hyperparam_history later_state.
Proof.
  apply (unknown_acquisition_function_raises (sample_ext true ∅ [VFloat 5])
           misnamed_optimizer tt later_state (after_draw later_state)).
  - reflexivity.
  - simpl. set_solver.
  - simpl. lia.
  - reflexivity.
Defined.

(** ** Reading the trace of a run *)

Lemma count_events_app (p : Event -> bool) (l1 l2 : list Event) :
  count_events p (l1 ++ l2) = count_events p l1 + count_events p l2.
Proof. induction l1 as [|e l1 IH]; simpl; [done|]. rewrite IH. lia. Qed.

Lemma surrogate_fits_app (l1 l2 : list Event) :
  surrogate_fits (l1 ++ l2) = surrogate_fits l1 ++ surrogate_fits l2.
Proof. induction l1 as [|[] l1 IH]; simpl; by rewrite ?IH. Qed.

Lemma count_events_maximize (p : Event -> bool) (starts : list (list (list Value))) :
  (forall sv, p (EvMaximize sv) = false) ->
  count_events p (map EvMaximize starts) = 0.
Proof. intros Hp. induction starts as [|sv l IH]; simpl; [done|]. by rewrite Hp, IH. Qed.

Lemma surrogate_fits_maximize (starts : list (list (list Value))) :
  surrogate_fits (map EvMaximize starts) = [].
Proof. by induction starts. Qed.

(** ** The trace of [fit] *)

#[local] Ltac conjuncts :=
  repeat match goal with |- _ /\ _ => split end; try lia; try done.

Section FitTrace.

Variable ext : Collaborators.
Variable self : BayesianOptimizer.

(** The events of a search: no evaluation, no fit of the surrogate, at most
    one warning, which is what [non_convergence_count] counts. *)
Lemma get_next_hyperparameters_events (optimizer : GP ext) (s s' : State)
    (r : result (gmap string Value)) :
  get_next_hyperparameters ext self optimizer s = (r, s') ->
  hyperparam_history s' = hyperparam_history s
  /\ exists evs,
       trace s' = trace s ++ evs
       /\ non_convergence_count s'
          = (non_convergence_count s + Z.of_nat (count_events is_warning evs))%Z
       /\ count_events is_warning evs <= 1
       /\ count_events is_surrogate_fit evs = 0
       /\ count_events is_evaluate evs = 0
       /\ surrogate_fits evs = [].
Proof.
  intros H. apply restart_loop_accounting in H
    as (Hh & starts & warned & Ht & _ & Hc & _).
  split; [done|]. exists (map EvMaximize starts ++ warning_events warned).
  split; [done|].
  rewrite !count_events_app, surrogate_fits_app, surrogate_fits_maximize.
  rewrite !count_events_maximize by done.
  destruct warned; simpl; rewrite Hc; repeat split; lia.
Qed.

(** The events of one iteration. *)
Lemma fit_iteration_events (X_train y_train X_test y_test : ndarray ext)
    (n_folds : option Z) (i : nat) (s s' : State) (r : result unit) :
  fit_iteration ext self X_train y_train X_test y_test n_folds i s = (r, s') ->
  let later := if decide (0 < i) then 1 else 0 in
  exists evs,
    trace s' = trace s ++ evs
    /\ non_convergence_count s'
       = (non_convergence_count s + Z.of_nat (count_events is_warning evs))%Z
    /\ count_events is_warning evs <= later
    /\ count_events is_surrogate_fit evs <= later
    /\ count_events is_evaluate evs <= 1
    /\ (r = Ok tt ->
        count_events is_evaluate evs = 1
        /\ count_events is_surrogate_fit evs = later
        /\ if decide (0 < i) then
             exists xs,
               surrogate_fits evs = [(xs, map fst (hyperparam_history s))]
               /\ (normalize self = false ->
                   map_result (_param_dict_to_arr (hyperparams self))
                     (map snd (hyperparam_history s)) = Ok xs)
           else surrogate_fits evs = []).
Proof.
  intros H later. unfold fit_iteration in H.
  assert (Hfinish : forall p s1 evs1,
            trace s1 = trace s ++ evs1 ->
            (score <- _fit_and_score_model ext self p X_train y_train X_test y_test
                        n_folds ;;
             append_history (score, p))%M s1 = (r, s') ->
            trace s' = trace s ++ evs1 ++ [EvEvaluate p]
            /\ non_convergence_count s' = non_convergence_count s1).
  { intros p s1 evs1 Ht1 H1.
    apply bind_inv in H1 as [(score & s2 & Hs & H1)|(e & Hs & ->)].
    - apply fit_and_score_model_effect in Hs as ->. injection H1 as <- <-. simpl.
      by rewrite Ht1, <- app_assoc.
    - apply fit_and_score_model_effect in Hs as ->. simpl. by rewrite Ht1, <- app_assoc. }
  subst later. destruct (decide (0 < i)) as [Hi|Hi].
  - apply bind_inv in H as [(p & s1 & Hp & H)|(e & Hp & ->)].
    + rewrite bind_get_history in Hp.
      apply bind_inv in Hp as [(xs0 & s0 & Hxs & Hp)|(e & Hxs & [=])].
      apply lift_inv in Hxs as [Hxs ->].
      apply bind_inv in Hp as [(xs & s0 & Hnorm & Hp)|(e & Hnorm & [=])].
      assert (Hs0 : s0 = s /\ (normalize self = false -> xs = xs0)).
      { destruct (normalize self).
        - apply lift_inv in Hnorm as [Hnorm _].
          by rewrite normalize_params_raises in Hnorm.
        - by injection Hnorm as <- <-. }
      destruct Hs0 as [-> Hxs'].
      rewrite bind_emit in Hp.
      apply get_next_hyperparameters_events in Hp
        as (Hh & evs & Ht & Hc & Hw & Hsf & Hev & Hfits).
      simpl in Hh, Ht, Hc.
      destruct (Hfinish p s1 ([EvSurrogateFit xs (map fst (hyperparam_history s))] ++ evs))
        as [Ht' Hc'].
      { by rewrite Ht, <- app_assoc. }
      { exact H. }
      eexists. split; [exact Ht'|].
      rewrite !count_events_app, !surrogate_fits_app, Hsf, Hev, Hfits. simpl.
      rewrite Hc', Hc.
      repeat split; try lia.
      exists xs. split; [done|]. intros Hn. by rewrite (Hxs' Hn).
    + rewrite bind_get_history in Hp.
      apply bind_inv in Hp as [(xs0 & s0 & Hxs & Hp)|(e' & Hxs & _)].
      2: { apply lift_inv in Hxs as [_ ->]. exists []. rewrite app_nil_r. simpl.
           conjuncts. }
      apply lift_inv in Hxs as [Hxs ->].
      apply bind_inv in Hp as [(xs & s0 & Hnorm & Hp)|(e' & Hnorm & _)].
      2: { assert (s' = s) as ->.
           { destruct (normalize self); [by apply lift_inv in Hnorm as [_ ->]|].
             by injection Hnorm as _ <-. }
           exists []. rewrite app_nil_r. simpl. conjuncts. }
      assert (s0 = s) as ->.
      { destruct (normalize self); [by apply lift_inv in Hnorm as [_ ->]|].
        by injection Hnorm as _ <-. }
      rewrite bind_emit in Hp.
      apply get_next_hyperparameters_events in Hp
        as (Hh & evs & Ht & Hc & Hw & Hsf & Hev & Hfits).
      simpl in Hh, Ht, Hc.
      exists ([EvSurrogateFit xs (map fst (hyperparam_history s))] ++ evs).
      split; [by rewrite Ht, <- app_assoc|].
      rewrite !count_events_app, Hsf, Hev. simpl. rewrite Hc.
      conjuncts.
  - assert (Hstart : exists s1,
              trace s1 = trace s /\ non_convergence_count s1 = non_convergence_count s
              /\ (score <- _fit_and_score_model ext self (start_point ext self s)
                             X_train y_train X_test y_test n_folds ;;
                  append_history (score, start_point ext self s))%M s1 = (r, s')).
    { unfold start_point. destruct (start_vals self) as [d|].
      - rewrite bind_ret in H. by exists s.
      - unfold bind at 1 in H. unfold random_draw at 1 in H.
        exists (after_draw s). split; [done|]. split; [done|]. exact H. }
    destruct Hstart as (s1 & Ht1 & Hc1 & H1).
    destruct (Hfinish _ s1 [] (eq_trans Ht1 (eq_sym (app_nil_r _))) H1) as [Ht' Hc'].
    eexists. split; [exact Ht'|]. simpl. rewrite Hc', Hc1.
    conjuncts.
Qed.

(** The events of the loop over any list of round numbers. *)
Lemma fit_loop_events (X_train y_train X_test y_test : ndarray ext)
    (n_folds : option Z) (rounds : list nat) :
  forall (s s' : State) (r : result unit),
    fit_loop ext self X_train y_train X_test y_test n_folds rounds s = (r, s') ->
    let later := length (filter (fun i => 0 < i) rounds) in
    exists evs,
      trace s' = trace s ++ evs
      /\ non_convergence_count s'
         = (non_convergence_count s + Z.of_nat (count_events is_warning evs))%Z
      /\ count_events is_warning evs <= later
      /\ count_events is_surrogate_fit evs <= later
      /\ count_events is_evaluate evs <= length rounds
      /\ (r = Ok tt ->
          count_events is_evaluate evs = length rounds
          /\ count_events is_surrogate_fit evs = later).
Proof.
  induction rounds as [|i rounds IH]; intros s s' r H later.
  - injection H as <- <-. exists []. rewrite app_nil_r. simpl.
    repeat split; lia.
  - cbn [fit_loop] in H. subst later. rewrite filter_cons. simpl.
    apply bind_inv in H as [([] & s1 & Hi & H)|(e & Hi & ->)].
    + apply fit_iteration_events in Hi as (e1 & Ht1 & Hc1 & Hw1 & Hs1 & He1 & Hok1).
      destruct (Hok1 eq_refl) as (He1' & Hs1' & _).
      apply IH in H as (e2 & Ht2 & Hc2 & Hw2 & Hs2 & He2 & Hok2).
      exists (e1 ++ e2). rewrite !count_events_app.
      split; [by rewrite Ht2, Ht1, app_assoc|].
      assert (Hok : r = Ok tt ->
                count_events is_evaluate e2 = length rounds
                /\ count_events is_surrogate_fit e2
                   = length (filter (fun i => 0 < i) rounds)) by exact Hok2.
      clear Hok2.
      destruct (decide (0 < i)); simpl in *.
      * split; [lia|]. split; [lia|]. split; [lia|]. split; [lia|].
        intros Hr. destruct (Hok Hr). lia.
      * split; [lia|]. split; [lia|]. split; [lia|]. split; [lia|].
        intros Hr. destruct (Hok Hr). lia.
    + apply fit_iteration_events in Hi as (e1 & Ht1 & Hc1 & Hw1 & Hs1 & He1 & _).
      exists e1. split; [done|].
      destruct (decide (0 < i)); simpl in *; conjuncts.
Qed.

Lemma later_rounds_from (k n : nat) :
  length (filter (fun i => 0 < i) (seq (S k) n)) = n.
Proof.
  revert k. induction n as [|n IH]; intros k; [reflexivity|].
  cbn [seq]. rewrite filter_cons_True by lia. simpl. by rewrite IH.
Qed.

Lemma later_rounds (n : nat) : length (filter (fun i => 0 < i) (seq 0 n)) = n - 1.
Proof.
  destruct n as [|n]; [reflexivity|]. cbn [seq]. rewrite filter_cons_False by lia.
  rewrite later_rounds_from. lia.
Qed.

End FitTrace.

(** X16. Once the arguments of [fit] pass the entry test, whatever the
    outcome of the call, [non_convergence_count] ends as the number of
    non-convergence warnings emitted during the call, whatever its value
    before; there are at most [n_iters - 1] warnings, at most [n_iters - 1]
    fits of the surrogate and at most [n_iters] model evaluations, and when
    [fit] returns there are exactly [n_iters] evaluations and
    [n_iters - 1] fits of the surrogate. *)
Theorem fit_event_counts (ext : Collaborators) (self : BayesianOptimizer)
    (X_train y_train : ndarray ext) (X_test y_test : option (ndarray ext))
    (n_iters : Z) (n_folds : option Z) (s s' : State)
    (r : result (gmap string Value * Model ext)) (test : ndarray ext * ndarray ext) :
  check_test_data ext X_train y_train X_test y_test n_folds = Ok test ->
  fit ext self X_train y_train X_test y_test n_iters n_folds s = (r, s') ->
  exists evs,
    trace s' = trace s ++ evs
    /\ non_convergence_count s' = Z.of_nat (count_events is_warning evs)
    /\ count_events is_warning evs <= Z.to_nat n_iters - 1
    /\ count_events is_surrogate_fit evs <= Z.to_nat n_iters - 1
    /\ count_events is_evaluate evs <= Z.to_nat n_iters
    /\ (forall best, r = Ok best ->
          count_events is_evaluate evs = Z.to_nat n_iters
          /\ count_events is_surrogate_fit evs = Z.to_nat n_iters - 1).
Proof.
  intros Hcheck H. unfold fit in H. rewrite Hcheck, bind_lift_ok in H.
  unfold bind at 1 in H. unfold set_non_convergence_count at 1 in H.
  apply bind_inv in H as [([] & s1 & Hloop & H)|(e & Hloop & ->)].
  - rewrite bind_get_history in H. injection H as <- <-.
    apply fit_loop_events in Hloop as (evs & Ht & Hc & Hw & Hs & He & Hok).
    rewrite later_rounds in Hw, Hs, Hok. rewrite length_seq in He, Hok.
    simpl in Ht, Hc. exists evs. destruct (Hok eq_refl) as [He' Hs'].
    conjuncts.
  - apply fit_loop_events in Hloop as (evs & Ht & Hc & Hw & Hs & He & _).
    rewrite later_rounds in Hw, Hs. rewrite length_seq in He.
    simpl in Ht, Hc. exists evs. conjuncts.
Qed.

Lemma fit_event_counts_witness :
  exists evs,
    trace (fit converging_ext one_param_optimizer [] [] None None 2 None later_state).2
    = trace later_state ++ evs
    /\ non_convergence_count
         (fit converging_ext one_param_optimizer [] [] None None 2 None later_state).2
       = Z.of_nat (count_events is_warning evs)
    /\ count_events is_warning evs <= Z.to_nat 2 - 1
    /\ count_events is_surrogate_fit evs <= Z.to_nat 2 - 1
    /\ count_events is_evaluate evs <= Z.to_nat 2
    /\ (forall best,
          (fit converging_ext one_param_optimizer [] [] None None 2 None later_state).1
          = Ok best ->
          count_events is_evaluate evs = Z.to_nat 2
          /\ count_events is_surrogate_fit evs = Z.to_nat 2 - 1).
Proof.
  apply (fit_event_counts converging_ext one_param_optimizer [] [] None None 2 None
           later_state _ _ ([], [])).
  - reflexivity.
  - apply surjective_pairing.
Defined.

Section SurrogateFits.

Variable ext : Collaborators.
Variable self : BayesianOptimizer.

Lemma Forall2_shift {A} (P : A -> nat -> Prop) (l : list A) (m : list nat) :
  Forall2 (fun x j => P x (S j)) l m -> Forall2 P l (map S m).
Proof. induction 1; simpl; by constructor. Qed.

Lemma fit_loop_fits (X_train y_train X_test y_test : ndarray ext)
    (n_folds : option Z) (n : nat) :
  forall (k : nat) (s s' : State),
    0 < k ->
    fit_loop ext self X_train y_train X_test y_test n_folds (seq k n) s = (Ok tt, s') ->
    exists new evs,
      hyperparam_history s' = hyperparam_history s ++ new
      /\ length new = n
      /\ trace s' = trace s ++ evs
      /\ map snd (surrogate_fits evs)
         = map (fun j => map fst (hyperparam_history s ++ take j new)) (seq 0 n)
      /\ (normalize self = false ->
          Forall2
            (fun xs j =>
               map_result (_param_dict_to_arr (hyperparams self))
                 (map snd (hyperparam_history s ++ take j new)) = Ok xs)
            (map fst (surrogate_fits evs)) (seq 0 n)).
Proof.
  induction n as [|n IH]; intros k s s' Hk H.
  - injection H as <-. exists [], []. rewrite !app_nil_r. conjuncts.
  - cbn [seq fit_loop] in H.
    apply bind_inv in H as [([] & s1 & Hi & H)|(e & Hi & [=])].
    pose proof Hi as Hi'.
    apply fit_iteration_effect in Hi' as [_ [[_ (score & p & Hh1)]|[[e [=]] _]]].
    apply fit_iteration_events in Hi as (e1 & Ht1 & _ & _ & _ & _ & Hok1).
    destruct (Hok1 eq_refl) as (_ & _ & Hfits). rewrite decide_True in Hfits by done.
    destruct Hfits as (xs & Hfits & Hxs).
    apply IH in H as (new & evs & Hh & Hlen & Ht & Hys & Hall); [|lia].
    exists ((score, p) :: new), (e1 ++ evs).
    split; [by rewrite Hh, Hh1, <- app_assoc|].
    split; [simpl; lia|].
    split; [by rewrite Ht, Ht1, app_assoc|].
    rewrite surrogate_fits_app, Hfits. simpl. rewrite app_nil_r.
    rewrite <- seq_shift, map_map. split.
    + f_equal. rewrite Hys. apply map_ext. intros j. simpl.
      by rewrite Hh1, <- app_assoc.
    + intros Hn. constructor; [simpl; rewrite app_nil_r; by apply Hxs|].
      apply Forall2_shift. simpl.
      eapply Forall2_impl; [exact (Hall Hn)|].
      intros xs' j. simpl. by rewrite Hh1, <- app_assoc.
Qed.

End SurrogateFits.

(** X17. When [fit] returns, the surrogate has been fitted once in each
    iteration after the first, each time on the whole history as it stood:
    the k-th fit receives the scores of the entries present before the
    call followed by those of the first k entries appended by the call,
    and, with normalisation off, the array forms of their
    parameter dictionaries. *)
Theorem fit_surrogate_fits (ext : Collaborators) (self : BayesianOptimizer)
    (X_train y_train : ndarray ext) (X_test y_test : option (ndarray ext))
    (n_iters : Z) (n_folds : option Z) (s s' : State)
    (best : gmap string Value * Model ext) :
  fit ext self X_train y_train X_test y_test n_iters n_folds s = (Ok best, s') ->
  exists new evs,
    hyperparam_history s' = hyperparam_history s ++ new
    /\ trace s' = trace s ++ evs
    /\ map snd (surrogate_fits evs)
       = map (fun j => map fst (hyperparam_history s ++ take j new))
           (seq 1 (Z.to_nat n_iters - 1))
    /\ (normalize self = false ->
        Forall2
          (fun xs j =>
             map_result (_param_dict_to_arr (hyperparams self))
               (map snd (hyperparam_history s ++ take j new)) = Ok xs)
          (map fst (surrogate_fits evs)) (seq 1 (Z.to_nat n_iters - 1))).
Proof.
  intros H. unfold fit in H.
  apply bind_inv in H as [(test & s0 & Hcheck & H)|(e & _ & [=])].
  apply lift_inv in Hcheck as [_ ->].
  unfold bind at 1 in H. unfold set_non_convergence_count at 1 in H.
  apply bind_inv in H as [([] & s1 & Hloop & H)|(e & _ & [=])].
  rewrite bind_get_history in H. injection H as _ <-.
  destruct (Z.to_nat n_iters) as [|n].
  - injection Hloop as <-. exists [], []. simpl. rewrite !app_nil_r.
    conjuncts.
  - cbn [seq fit_loop] in Hloop. simpl. rewrite Nat.sub_0_r.
    apply bind_inv in Hloop as [([] & s2 & Hi & Hloop)|(e & _ & [=])].
    pose proof Hi as Hi'.
    apply fit_iteration_effect in Hi' as [_ [[_ (score & p & Hh1)]|[[e [=]] _]]].
    apply fit_iteration_events in Hi as (e1 & Ht1 & _ & _ & _ & _ & Hok1).
    destruct (Hok1 eq_refl) as (_ & _ & Hfits). rewrite decide_False in Hfits by lia.
    simpl in Hh1, Ht1.
    apply fit_loop_fits in Hloop as (new & evs & Hh & Hlen & Ht & Hys & Hall); [|lia].
    exists ((score, p) :: new), (e1 ++ evs).
    split; [by rewrite Hh, Hh1, <- app_assoc|].
    split; [by rewrite Ht, Ht1, app_assoc|].
    rewrite surrogate_fits_app, Hfits. simpl.
    rewrite <- seq_shift, map_map. split.
    + rewrite Hys. apply map_ext. intros j. simpl. by rewrite Hh1, <- app_assoc.
    + intros Hn. apply Forall2_shift.
      eapply Forall2_impl; [exact (Hall Hn)|].
      intros xs' j. simpl. by rewrite Hh1, <- app_assoc.
Qed.

(** [fit] returns when its arguments pass the entry test and the
    collaborators are well behaved. *)
Lemma fit_returns (ext : Collaborators) (self : BayesianOptimizer)
    (X_train y_train : ndarray ext) (X_test y_test : option (ndarray ext))
    (n_iters : Z) (n_folds : option Z) (s : State) (test : ndarray ext * ndarray ext) :
  run_conditions ext self X_train n_folds ->
  check_test_data ext X_train y_train X_test y_test n_folds = Ok test ->
  keys_ok self s ->
  exists best s',
    fit ext self X_train y_train X_test y_test n_iters n_folds s = (Ok best, s').
Proof.
  intros Hrc Hcheck Hk. unfold fit. rewrite Hcheck, bind_lift_ok.
  unfold bind at 1. unfold set_non_convergence_count at 1.
  edestruct (fit_loop_total ext self X_train n_folds Hrc y_train test.1 test.2
               (Z.to_nat n_iters) 0) as [s1 Hs1]; [| |rewrite (bind_ok _ _ _ _ _ Hs1)].
  - exact Hk.
  - lia.
  - rewrite bind_get_history. by eexists _, _.
Qed.

Lemma fit_surrogate_fits_witness :
  exists best s' new evs,
    fit converging_ext one_param_optimizer [] [] None None 3 None initial_state
    = (Ok best, s')
    /\ hyperparam_history s' = hyperparam_history initial_state ++ new
    /\ trace s' = trace initial_state ++ evs
    /\ map snd (surrogate_fits evs)
       = map (fun j => map fst (hyperparam_history initial_state ++ take j new))
           (seq 1 (Z.to_nat 3 - 1)).
Proof.
  destruct (fit_returns converging_ext one_param_optimizer [] [] None None 3 None
              initial_state ([], []) sample_run_conditions eq_refl)
    as (best & s' & E).
  { constructor. }
  destruct (fit_surrogate_fits converging_ext one_param_optimizer [] [] None None 3
              None initial_state s' best E) as (new & evs & Hh & Ht & Hys & _).
  exists best, s', new, evs.
  split; [exact E|]. split; [exact Hh|]. split; [exact Ht | exact Hys].
Defined.

Section Scoring.

Variable ext : Collaborators.
Variable self : BayesianOptimizer.

Lemma score_folds_mean (params : gmap string Value) (X_train y_train : ndarray ext)
    (splits : list (indices ext * indices ext)) :
  model_module self <> "xgboost" ->
  forall scores score,
    score_folds ext self params X_train y_train splits scores score
    = Ok (match splits with
          | [] => score
          | _ => Some (np_mean (scores ++ map (fold_score ext params X_train y_train)
                                         splits))
          end).
Proof.
  intros Hmodel. induction splits as [|[tr te] splits IH]; intros scores score; [done|].
  cbn [score_folds]. rewrite decide_False by done. simpl. rewrite IH.
  destruct splits as [|split splits]; [done|].
  by rewrite <- app_assoc.
Qed.

Lemma score_folds_xgboost (params : gmap string Value) (X_train y_train : ndarray ext)
    (splits : list (indices ext * indices ext)) (scores : list R) (score : option R) :
  model_module self = "xgboost" ->
  params !! "n_estimators" = None ->
  splits <> [] ->
  score_folds ext self params X_train y_train splits scores score
  = Raise (KeyError "n_estimators").
Proof.
  intros Hmodel Hkey Hsplits. destruct splits as [|[tr te] splits]; [done|].
  cbn [score_folds]. rewrite decide_True by done. unfold getitem. by rewrite Hkey.
Qed.

(** X18. [_fit_and_score_model] records one evaluation and changes nothing
    else.  With [n_folds] given, the test data passed to it are ignored:
    a model other than xgboost gets the mean of the scores of the folds,
    each fold fitted on its training rows and scored on its held-out rows
    of the training data, and an empty list of folds raises
    [UnboundLocalError] for the local variable [score].  Without
    [n_folds] the model is fitted on the training data and scored on the
    test data.  An xgboost model whose parameters lack ['n_estimators']
    raises [KeyError] as soon as a model is to be trained. *)
Theorem fit_and_score_model_spec (params : gmap string Value)
    (X_train y_train X_test y_test : ndarray ext) (s : State) :
  let s' := (emit (EvEvaluate params) s).2 in
  (forall n_folds, (_fit_and_score_model ext self params X_train y_train X_test y_test
                      n_folds s).2 = s')
  /\ (forall k X_test' y_test',
        _fit_and_score_model ext self params X_train y_train X_test y_test (Some k) s
        = _fit_and_score_model ext self params X_train y_train X_test' y_test' (Some k) s)
  /\ (forall k,
        get_kfold_split ext k X_train = [] ->
        _fit_and_score_model ext self params X_train y_train X_test y_test (Some k) s
        = (Raise (UnboundLocalError "score"), s'))
  /\ (model_module self <> "xgboost" ->
      (forall k,
         get_kfold_split ext k X_train <> [] ->
         _fit_and_score_model ext self params X_train y_train X_test y_test (Some k) s
         = (Ok (np_mean (map (fold_score ext params X_train y_train)
                           (get_kfold_split ext k X_train))), s'))
      /\ _fit_and_score_model ext self params X_train y_train X_test y_test None s
         = (Ok (eval_func ext y_test
                  (build_fit_predict ext params X_train y_train X_test)), s'))
  /\ (model_module self = "xgboost" ->
      params !! "n_estimators" = None ->
      forall n_folds,
        (forall k, n_folds = Some k -> get_kfold_split ext k X_train <> []) ->
        _fit_and_score_model ext self params X_train y_train X_test y_test n_folds s
        = (Raise (KeyError "n_estimators"), s')).
Proof.
  intros s'. unfold _fit_and_score_model. subst s'.
  split; [done|]. split; [done|]. split; [|split].
  - intros k Hk. rewrite bind_emit, Hk. reflexivity.
  - intros Hmodel. split.
    + intros k Hk. rewrite bind_emit. unfold lift.
      rewrite (score_folds_mean params X_train y_train _ Hmodel). simpl.
      by destruct (get_kfold_split ext k X_train).
    + rewrite bind_emit. unfold lift. by rewrite decide_False.
  - intros Hmodel Hkey [k|] Hk; rewrite bind_emit; unfold lift.
    + by rewrite (score_folds_xgboost params X_train y_train _ [] None Hmodel Hkey
                    (Hk k eq_refl)).
    + rewrite decide_True by done. unfold getitem. by rewrite Hkey.
Qed.

End Scoring.

Section NoRestart.

Variable ext : Collaborators.
Variable self : BayesianOptimizer.

(** X19. With [n_restarts_optimizer <= 0] a call to [fit] for two or more
    iterations evaluates the start point, fits the surrogate on the history
    with that one entry added and then raises [UnboundLocalError] for the
    local variable [start_vals] of [get_next_hyperparameters]: no attempt
    is made, the non-convergence warning is emitted once,
    [non_convergence_count] is 1 and the history keeps the entry of the
    start point. *)
Theorem fit_without_restarts (X_train y_train : ndarray ext)
    (X_test y_test : option (ndarray ext)) (n_iters : Z) (n_folds : option Z)
    (s : State) (test : ndarray ext * ndarray ext) :
  check_test_data ext X_train y_train X_test y_test n_folds = Ok test ->
  (n_restarts_optimizer self <= 0)%Z ->
  (2 <= n_iters)%Z ->
  normalize self = false ->
  model_module self <> "xgboost" ->
  (forall k, n_folds = Some k -> get_kfold_split ext k X_train <> []) ->
  keys_ok self s ->
  all_names self (start_point ext self s) ->
  exists score xs s',
    fit ext self X_train y_train X_test y_test n_iters n_folds s
    = (Raise (UnboundLocalError "start_vals"), s')
    /\ hyperparam_history s'
       = hyperparam_history s ++ [(score, start_point ext self s)]
    /\ map_result (_param_dict_to_arr (hyperparams self))
         (map snd (hyperparam_history s')) = Ok xs
    /\ trace s'
       = trace s ++ [EvEvaluate (start_point ext self s);
                     EvSurrogateFit xs (map fst (hyperparam_history s'));
                     EvWarning non_convergence_warning]
    /\ non_convergence_count s' = 1%Z.
Proof.
  intros Hcheck Hn Hiters Hnorm Hmodel Hfolds Hkeys Hstart.
  unfold fit. rewrite Hcheck, bind_lift_ok.
  unfold bind at 1. unfold set_non_convergence_count at 1.
  set (s0 := {| hyperparam_history := hyperparam_history s; success := success s;
                non_convergence_count := 0; rng := rng s; trace := trace s |}).
  destruct (Z.to_nat n_iters) as [|[|n]] eqn:Hnat; [lia | lia |].
  cbn [seq].
  (* iteration 0 *)
  assert (H0 : exists score s1,
            fit_iteration ext self X_train y_train test.1 test.2 n_folds 0 s0
            = (Ok tt, s1)
            /\ hyperparam_history s1
               = hyperparam_history s ++ [(score, start_point ext self s)]
            /\ trace s1 = trace s ++ [EvEvaluate (start_point ext self s)]
            /\ non_convergence_count s1 = 0%Z).
  { unfold fit_iteration. rewrite decide_False by lia.
    unfold start_point. destruct (start_vals self) as [d|].
    - rewrite bind_ret.
      destruct (scoring_total ext self (get_default_values_dict d) X_train y_train
                  test.1 test.2 n_folds s0 Hmodel Hfolds) as [score Hscore].
      rewrite (bind_ok _ _ _ _ _ Hscore). by eexists _, _.
    - unfold bind at 1. unfold random_draw at 1.
      destruct (scoring_total ext self (get_random_values_dict ext (rng s0)) X_train
                  y_train test.1 test.2 n_folds (after_draw s0) Hmodel Hfolds)
        as [score Hscore].
      unfold after_draw in Hscore. rewrite (bind_ok _ _ _ _ _ Hscore). by eexists _, _. }
  destruct H0 as (score & s1 & Hi0 & Hh1 & Ht1 & Hc1).
  (* iteration 1 *)
  destruct (map_result_total (_param_dict_to_arr (hyperparams self))
              (map snd (hyperparam_history s1))) as [xs Hxs].
  { intros p [[score' p'] [-> Hin]]%list_elem_of_fmap.
    assert (Hp : all_names self p').
    { rewrite Hh1 in Hin. apply elem_of_app in Hin as [Hin|Hin].
      - unfold keys_ok in Hkeys. rewrite Forall_forall in Hkeys. by apply (Hkeys _ Hin).
      - apply list_elem_of_singleton in Hin. by injection Hin as _ ->. }
    destruct (dict_to_arr_keys (hyperparams self) p' Hp) as [arr Harr]. by exists arr. }
  assert (Hloop :
            fit_loop ext self X_train y_train test.1 test.2 n_folds (0 :: 1 :: seq 2 n) s0
            = (Raise (UnboundLocalError "start_vals"),
               snd (restart_loop ext self
                      (gp_fit ext xs (map fst (hyperparam_history s1))) 0 None
                      (snd (emit (EvSurrogateFit xs (map fst (hyperparam_history s1)))
                              s1))))).
  { cbn [fit_loop]. rewrite (bind_ok _ _ _ _ _ Hi0). apply bind_raise.
    rewrite (fit_iteration_later ext self _ _ _ _ _ _ _ xs) by (done || lia).
    apply bind_raise. unfold get_next_hyperparameters.
    replace (Z.to_nat (n_restarts_optimizer self)) with 0 by lia.
    reflexivity. }
  rewrite (bind_raise _ _ _ _ _ Hloop).
  exists score, xs. eexists. split; [reflexivity|]. simpl.
  rewrite Hh1, Ht1, Hc1. rewrite Hh1 in Hxs.
  split; [done|]. split; [done|]. split; [|done].
  by rewrite <- !app_assoc.
Qed.

End NoRestart.

Lemma fit_without_restarts_witness :
  exists score xs s',
    fit (sample_ext true ∅ []) no_restart_optimizer [] [] None None 2 None initial_state
    = (Raise (UnboundLocalError "start_vals"), s')
    /\ hyperparam_history s'
       = hyperparam_history initial_state
         ++ [(score, start_point (sample_ext true ∅ []) no_restart_optimizer initial_state)]
    /\ map_result (_param_dict_to_arr (hyperparams no_restart_optimizer))
         (map snd (hyperparam_history s')) = Ok xs
    /\ trace s'
       = trace initial_state
         ++ [EvEvaluate (start_point (sample_ext true ∅ []) no_restart_optimizer
                           initial_state);
             EvSurrogateFit xs (map fst (hyperparam_history s'));
             EvWarning non_convergence_warning]
    /\ non_convergence_count s' = 1%Z.
Proof.
  apply (fit_without_restarts (sample_ext true ∅ []) no_restart_optimizer [] [] None None
           2 None initial_state ([], [])).
  - reflexivity.
  - simpl. lia.
  - lia.
  - reflexivity.
  - discriminate.
  - discriminate.
  - constructor.
  - intros hp ->%list_elem_of_singleton. unfold start_point. simpl.
    by rewrite lookup_singleton_eq.
Defined.

(** ** What the history records *)

Lemma evaluations_app (l1 l2 : list Event) :
  evaluations (l1 ++ l2) = evaluations l1 ++ evaluations l2.
Proof. induction l1 as [|[] l1 IH]; simpl; by rewrite ?IH. Qed.

Lemma evaluations_maximize (starts : list (list (list Value))) :
  evaluations (map EvMaximize starts) = [].
Proof. by induction starts. Qed.

#[local] Instance no_evaluation_preorder : PreOrder no_evaluation.
Proof.
  split.
  - intros s. split; [done|]. exists []. by rewrite app_nil_r.
  - intros s1 s2 s3 (Hh1 & e1 & Ht1 & He1) (Hh2 & e2 & Ht2 & He2).
    split; [congruence|]. exists (e1 ++ e2).
    by rewrite Ht2, Ht1, app_assoc, evaluations_app, He1, He2.
Qed.

Lemma rng_only_no_evaluation (s s' : State) : rng_only s s' -> no_evaluation s s'.
Proof.
  intros (Hh & _ & _ & Ht). split; [done|]. exists []. by rewrite app_nil_r.
Qed.

Section HistoryRecords.

Variable ext : Collaborators.
Variable self : BayesianOptimizer.

Lemma get_next_hyperparameters_no_evaluation (optimizer : GP ext) :
  respects no_evaluation (get_next_hyperparameters ext self optimizer).
Proof.
  intros s r s' H.
  apply restart_loop_accounting in H as (Hh & starts & warned & Ht & _).
  split; [done|]. eexists. split; [exact Ht|].
  rewrite evaluations_app, evaluations_maximize. by destruct warned.
Qed.

Lemma proposal_no_evaluation (i : nat) :
  respects no_evaluation
    (if decide (0 < i) then
       history <- get_history ;;
       xs <- lift (map_result (_param_dict_to_arr (hyperparams self)) (map snd history)) ;;
       xs <- (if normalize self then lift (_normalize_params self xs) else ret xs) ;;
       emit (EvSurrogateFit xs (map fst history)) ;;;
       get_next_hyperparameters ext self (gp_fit ext xs (map fst history))
     else
       match start_vals self with
       | None => random_draw (get_random_values_dict ext)
       | Some d => ret (get_default_values_dict d)
       end)%M.
Proof.
  destruct (decide (0 < i)).
  - apply respects_bind; [apply _ | apply respects_get_history, _ |]. intros h.
    apply respects_bind; [apply _ | apply respects_lift, _ |]. intros xs.
    apply respects_bind; [apply _ | |].
    { destruct (normalize self); [apply respects_lift, _ | apply respects_ret, _]. }
    intros xs'. apply respects_bind; [apply _ | |].
    { intros s r s' [= _ <-]. split; [done|]. by eexists. }
    intros _. apply get_next_hyperparameters_no_evaluation.
  - destruct (start_vals self); [apply respects_ret, _|].
    eapply respects_weaken; [apply rng_only_no_evaluation | apply random_draw_rng_only].
Qed.

(** The score of a parameter dictionary does not depend on the state. *)
Lemma fit_and_score_model_result (params : gmap string Value)
    (X_train y_train X_test y_test : ndarray ext) (n_folds : option Z) (s st : State) :
  (_fit_and_score_model ext self params X_train y_train X_test y_test n_folds st).1
  = (_fit_and_score_model ext self params X_train y_train X_test y_test n_folds s).1.
Proof. reflexivity. Qed.

Lemma fit_iteration_records (X_train y_train X_test y_test : ndarray ext)
    (n_folds : option Z) (i : nat) (s s' : State) (r : result unit) :
  fit_iteration ext self X_train y_train X_test y_test n_folds i s = (r, s') ->
  exists new evs pending,
    hyperparam_history s' = hyperparam_history s ++ new
    /\ trace s' = trace s ++ evs
    /\ Forall (fun entry : R * gmap string Value =>
                 forall st,
                   (_fit_and_score_model ext self entry.2 X_train y_train X_test y_test
                      n_folds st).1 = Ok entry.1) new
    /\ evaluations evs = map snd new ++ pending
    /\ length pending <= 1
    /\ (r = Ok tt -> pending = [] /\ length new = 1)
    /\ length new <= 1.
Proof.
  unfold fit_iteration. intros H.
  apply bind_inv in H as [(p & s1 & Hp & H)|(e & Hp & ->)].
  2: { apply proposal_no_evaluation in Hp as (Hh & evs & Ht & He).
       exists [], evs, []. rewrite app_nil_r. simpl.
       repeat match goal with |- _ /\ _ => split end; try done; lia. }
  apply proposal_no_evaluation in Hp as (Hh1 & e1 & Ht1 & He1).
  apply bind_inv in H as [(score & s2 & Hs & H)|(e & Hs & ->)].
  - pose proof (fit_and_score_model_effect ext self _ _ _ _ _ _ _ _ _ Hs) as ->.
    injection H as <- <-. simpl.
    exists [(score, p)], (e1 ++ [EvEvaluate p]), [].
    rewrite Hh1, Ht1, <- app_assoc, evaluations_app, He1. simpl.
    repeat match goal with |- _ /\ _ => split end; try done; try lia.
    apply Forall_singleton. intros st.
    change ((_fit_and_score_model ext self p X_train y_train X_test y_test n_folds st).1
            = Ok score).
    rewrite (fit_and_score_model_result _ _ _ _ _ _ s1). by rewrite Hs.
  - pose proof (fit_and_score_model_effect ext self _ _ _ _ _ _ _ _ _ Hs) as ->.
    simpl. exists [], (e1 ++ [EvEvaluate p]), [p].
    rewrite Hh1, Ht1, <- app_assoc, evaluations_app, He1, app_nil_r. simpl.
    repeat match goal with |- _ /\ _ => split end; try done; lia.
Qed.

Lemma fit_loop_records (X_train y_train X_test y_test : ndarray ext)
    (n_folds : option Z) (rounds : list nat) :
  forall (s s' : State) (r : result unit),
    fit_loop ext self X_train y_train X_test y_test n_folds rounds s = (r, s') ->
    exists new evs pending,
      hyperparam_history s' = hyperparam_history s ++ new
      /\ trace s' = trace s ++ evs
      /\ Forall (fun entry : R * gmap string Value =>
                   forall st,
                     (_fit_and_score_model ext self entry.2 X_train y_train X_test
                        y_test n_folds st).1 = Ok entry.1) new
      /\ evaluations evs = map snd new ++ pending
      /\ length pending <= 1
      /\ (r = Ok tt -> pending = []).
Proof.
  induction rounds as [|i rounds IH]; intros s s' r H.
  - injection H as <- <-. exists [], [], []. rewrite !app_nil_r. simpl.
    repeat match goal with |- _ /\ _ => split end; try done; lia.
  - cbn [fit_loop] in H.
    apply bind_inv in H as [([] & s1 & Hi & H)|(e & Hi & ->)].
    + apply fit_iteration_records in Hi
        as (new1 & e1 & q1 & Hh1 & Ht1 & Hall1 & He1 & _ & Hok1 & _).
      destruct (Hok1 eq_refl) as [-> _]. rewrite app_nil_r in He1.
      apply IH in H as (new2 & e2 & q2 & Hh2 & Ht2 & Hall2 & He2 & Hq2 & Hok2).
      exists (new1 ++ new2), (e1 ++ e2), q2.
      rewrite Hh2, Hh1, Ht2, Ht1, <- !app_assoc, evaluations_app, He1, He2, map_app,
        <- app_assoc.
      repeat match goal with |- _ /\ _ => split end; try done.
      by apply Forall_app.
    + apply fit_iteration_records in Hi
        as (new1 & e1 & q1 & Hh1 & Ht1 & Hall1 & He1 & Hq1 & _ & _).
      exists new1, e1, q1.
      repeat match goal with |- _ /\ _ => split end; try done.
Qed.

End HistoryRecords.

(** X20. Once the arguments of [fit] pass the entry test, the entries that
    the call appends to the history are, in order, the parameter
    dictionaries on which the model was evaluated during the call, each
    with the score that [_fit_and_score_model] returns for it on the data
    of the call.  When [fit] returns there is no other evaluation; when it
    raises there is at most one more, the one that raised. *)
Theorem fit_history_records_evaluations (ext : Collaborators)
    (self : BayesianOptimizer) (X_train y_train : ndarray ext)
    (X_test y_test : option (ndarray ext)) (n_iters : Z) (n_folds : option Z)
    (s s' : State) (r : result (gmap string Value * Model ext))
    (test : ndarray ext * ndarray ext) :
  check_test_data ext X_train y_train X_test y_test n_folds = Ok test ->
  fit ext self X_train y_train X_test y_test n_iters n_folds s = (r, s') ->
  exists new evs pending,
    hyperparam_history s' = hyperparam_history s ++ new
    /\ trace s' = trace s ++ evs
    /\ Forall (fun entry : R * gmap string Value =>
                 forall st,
                   (_fit_and_score_model ext self entry.2 X_train y_train test.1 test.2
                      n_folds st).1 = Ok entry.1) new
    /\ evaluations evs = map snd new ++ pending
    /\ length pending <= 1
    /\ (forall best, r = Ok best -> pending = []).
Proof.
  intros Hcheck H. unfold fit in H. rewrite Hcheck, bind_lift_ok in H.
  unfold bind at 1 in H. unfold set_non_convergence_count at 1 in H.
  apply bind_inv in H as [([] & s1 & Hloop & H)|(e & Hloop & ->)].
  - rewrite bind_get_history in H. injection H as <- <-.
    apply fit_loop_records in Hloop as (new & evs & q & Hh & Ht & Hall & He & Hq & Hok).
    exists new, evs, q. simpl in Hh, Ht.
    repeat match goal with |- _ /\ _ => split end; try done.
    intros best _. by apply Hok.
  - apply fit_loop_records in Hloop as (new & evs & q & Hh & Ht & Hall & He & Hq & Hok).
    exists new, evs, q. simpl in Hh, Ht.
    repeat match goal with |- _ /\ _ => split end; try done.
Qed.

Lemma fit_history_records_evaluations_witness :
  exists new evs pending,
    hyperparam_history
      (fit converging_ext one_param_optimizer [] [] None None 2 None later_state).2
    = hyperparam_history later_state ++ new
    /\ trace (fit converging_ext one_param_optimizer [] [] None None 2 None later_state).2
       = trace later_state ++ evs
    /\ Forall (fun entry : R * gmap string Value =>
                 forall st,
                   (_fit_and_score_model converging_ext one_param_optimizer entry.2
                      [] [] [] [] None st).1 = Ok entry.1) new
    /\ evaluations evs = map snd new ++ pending
    /\ length pending <= 1
    /\ (forall best,
          (fit converging_ext one_param_optimizer [] [] None None 2 None later_state).1
          = Ok best -> pending = []).
Proof.
  apply (fit_history_records_evaluations converging_ext one_param_optimizer [] [] None
           None 2 None later_state _ _ ([], [])).
  - reflexivity.
  - apply surjective_pairing.
Defined.

(** ** The fallback after a failed search *)

(** C1. When every one of the [n_restarts_optimizer] attempts of an
    iteration i > 0 returns success = False, the [else] branch of the
    restart loop runs: it sets [success] to [False], emits the warning and
    increments [non_convergence_count] by exactly 1, with the history
    untouched.  With at least one restart it then returns the dictionary
    that pairs the hyperparameter names with row 0 of the start vector of
    the last attempt (name by name, a later position winning where a name
    is repeated), and the loop evaluates that dictionary and appends it,
    with its score, to the history.  With [n_restarts_optimizer <= 0] no
    attempt has assigned the local variable [start_vals], which the same
    branch reads: [get_next_hyperparameters] raises [UnboundLocalError]
    after the warning and the increment, and so does the iteration, which
    evaluates and appends nothing. *)
Theorem non_convergence_fallback (ext : Collaborators) (self : BayesianOptimizer)
    (optimizer : GP ext) (s : State) :
  (forall k, get_random_values_arr ext k <> []) ->
  all_attempts_fail ext self optimizer (Z.to_nat (n_restarts_optimizer self)) s ->
  exists starts r s',
    get_next_hyperparameters ext self optimizer s = (r, s')
    /\ length starts = Z.to_nat (n_restarts_optimizer self)
    /\ trace s' = trace s ++ map EvMaximize starts ++ [EvWarning non_convergence_warning]
    /\ non_convergence_count s' = (non_convergence_count s + 1)%Z
    /\ success s' = Some false
    /\ hyperparam_history s' = hyperparam_history s
    /\ ((1 <= n_restarts_optimizer self)%Z ->
        exists sv row proposal,
          last starts = Some sv
          /\ row0 sv = Ok row
          /\ r = Ok proposal
          /\ dom proposal
             = list_to_set (map name (take (length row) (hyperparams self)))
          /\ (forall i hp v,
                hyperparams self !! i = Some hp -> row !! i = Some v ->
                (forall j hp', i < j -> j < length row ->
                               hyperparams self !! j = Some hp' ->
                               name hp' <> name hp) ->
                proposal !! name hp = Some v)
          /\ forall (X_train y_train X_test y_test : ndarray ext) (n_folds : option Z)
               (i : nat) (s0 : State) (xs : list (list Value)) (score : R)
               (s'' : State),
               0 < i ->
               normalize self = false ->
               map_result (_param_dict_to_arr (hyperparams self))
                 (map snd (hyperparam_history s0)) = Ok xs ->
               optimizer = gp_fit ext xs (map fst (hyperparam_history s0)) ->
               s = snd (emit (EvSurrogateFit xs (map fst (hyperparam_history s0))) s0) ->
               _fit_and_score_model ext self proposal
                 X_train y_train X_test y_test n_folds s' = (Ok score, s'') ->
               exists s3,
                 fit_iteration ext self X_train y_train X_test y_test n_folds i s0
                 = (Ok tt, s3)
                 /\ hyperparam_history s3 = hyperparam_history s0 ++ [(score, proposal)]
                 /\ trace s3 = trace s' ++ [EvEvaluate proposal]
                 /\ non_convergence_count s3 = (non_convergence_count s0 + 1)%Z)
    /\ ((n_restarts_optimizer self <= 0)%Z ->
        starts = []
        /\ r = Raise (UnboundLocalError "start_vals")
        /\ forall (X_train y_train X_test y_test : ndarray ext) (n_folds : option Z)
             (i : nat) (s0 : State) (xs : list (list Value)),
             0 < i ->
             normalize self = false ->
             map_result (_param_dict_to_arr (hyperparams self))
               (map snd (hyperparam_history s0)) = Ok xs ->
             optimizer = gp_fit ext xs (map fst (hyperparam_history s0)) ->
             s = snd (emit (EvSurrogateFit xs (map fst (hyperparam_history s0))) s0) ->
             fit_iteration ext self X_train y_train X_test y_test n_folds i s0
             = (Raise (UnboundLocalError "start_vals"), s')
             /\ hyperparam_history s' = hyperparam_history s0
             /\ non_convergence_count s' = (non_convergence_count s0 + 1)%Z).
Proof.
  intros Hrows Hfail.
  destruct (restart_loop_all_fail ext self optimizer _ None s Hfail)
    as (starts & s' & H & Hlen & Hall & Ht & Hc & Hs & Hh).
  assert (Hget : get_next_hyperparameters ext self optimizer s
                 = (fallback_result (hyperparams self) (last_start None starts), s'))
    by exact H.
  exists starts, (fallback_result (hyperparams self) (last_start None starts)), s'.
  split; [exact Hget|]. split; [exact Hlen|]. split; [exact Ht|].
  split; [exact Hc|]. split; [exact Hs|]. split; [exact Hh|].
  unfold last_start in *. destruct (last starts) as [sv|] eqn:Hlast.
  - assert (Hsv : sv <> []).
    { pose proof (last_Some_elem_of _ _ Hlast) as Hin.
      destruct (proj1 (Forall_forall _ _) Hall _ Hin) as (s0 & s1 & Hd).
      by eapply draw_start_vals_nonempty. }
    destruct sv as [|row sv']; [done|]. split.
    + intros _. exists (row :: sv'), row, (dict_of_zip (hyperparams self) row ∅).
      split; [done|]. split; [done|]. split; [done|]. split; [|split].
      * rewrite dict_of_zip_dom. set_solver.
      * intros i hp v. apply dict_of_zip_last_wins.
      * intros X_train y_train X_test y_test n_folds i s0 xs score s''
          Hi Hnorm Hxs -> -> Hscore.
        eexists. split; [|split; [|split]].
        -- rewrite (fit_iteration_later ext self _ _ _ _ _ _ _ xs) by done.
           rewrite (bind_ok _ _ _ _ _ Hget). simpl.
           rewrite (bind_ok _ _ _ _ _ Hscore). reflexivity.
        -- apply fit_and_score_model_effect in Hscore. subst s''. simpl. by rewrite Hh.
        -- apply fit_and_score_model_effect in Hscore. subst s''. reflexivity.
        -- apply fit_and_score_model_effect in Hscore. subst s''. simpl. by rewrite Hc.
    + intros Hn. apply last_Some_elem_of in Hlast.
      destruct starts; [by apply elem_of_nil in Hlast | simpl in Hlen; lia].
  - apply last_None in Hlast. subst starts. simpl in Hlen. split; [lia|].
    intros _. split; [done|]. split; [done|].
    intros X_train y_train X_test y_test n_folds i s0 xs Hi Hnorm Hxs -> ->.
    split; [|split].
    + rewrite (fit_iteration_later ext self _ _ _ _ _ _ _ xs) by done.
      by rewrite (bind_raise _ _ _ _ _ Hget).
    + by rewrite Hh.
    + by rewrite Hc.
Qed.

Lemma non_convergence_fallback_witness :
  (exists s',
     get_next_hyperparameters failing_ext no_restart_optimizer tt later_state
     = (Raise (UnboundLocalError "start_vals"), s')
     /\ trace s' = trace later_state ++ [EvWarning non_convergence_warning]
     /\ non_convergence_count s' = 1%Z
     /\ success s' = Some false)
  /\ exists starts sv row proposal s',
       get_next_hyperparameters failing_ext one_param_optimizer tt later_state
       = (Ok proposal, s')
       /\ length starts = 2
       /\ last starts = Some sv
       /\ row0 sv = Ok row
       /\ (forall v, row !! 0 = Some v -> proposal !! "a" = Some v)
       /\ non_convergence_count s' = 1%Z
       /\ success s' = Some false
       /\ hyperparam_history s' = hyperparam_history later_state.
Proof.
  split.
  - destruct (non_convergence_fallback failing_ext no_restart_optimizer tt later_state)
      as (starts & r & s' & Hget & _ & Ht & Hc & Hs & _ & _ & Hzero).
    + intros k. discriminate.
    + exact I.
    + destruct Hzero as (-> & -> & _); [simpl; lia|].
      exists s'. split; [exact Hget|]. split; [exact Ht|]. split; [exact Hc | exact Hs].
  - destruct (non_convergence_fallback failing_ext one_param_optimizer tt later_state)
      as (starts & r & s' & Hget & Hlen & _ & Hc & Hs & Hh & Hsome & _).
    + intros k. discriminate.
    + simpl. eexists _, _, _, _. split; [reflexivity|]. split; [reflexivity|].
      split; [reflexivity|].
      eexists _, _, _, _. split; [reflexivity|]. split; [reflexivity|].
      split; [reflexivity|]. exact I.
    + destruct Hsome as (sv & row & proposal & Hlast & Hrow & -> & _ & Hentries & _);
        [simpl; lia|].
      exists starts, sv, row, proposal, s'.
      split; [exact Hget|]. split; [exact Hlen|]. split; [exact Hlast|].
      split; [exact Hrow|]. split; [|split; [exact Hc|split; [exact Hs | exact Hh]]].
      intros v Hv.
      apply (Hentries 0 (continuous_param "a" 0 10) v); [reflexivity | exact Hv |].
      intros [|j] hp' Hj _ Hhp'; [lia | discriminate].
Defined.
